(** * flir_spinnaker_ros2: the camera driver node, embedded and verified

    A shallow embedding of [src/camera_driver.cpp].  The node object is a
    record of its data members; member functions that call into the device
    are computations in a small state-and-exception monad over that record.
    The Spinnaker device wrapper, the host parameter framework and the file
    system are outside the repository and enter as parameters of the
    development.

    Numbers are modelled as the code has them: [double] is Rocq's primitive
    binary64 [float]; a C++ [float] is carried as the binary64 value it
    converts to (the conversion is exact, and so are comparisons on it);
    [uint32_t] and the counters are [Z]. *)

From Stdlib Require Import ZArith Floats Bool Lia Ascii String.
From stdpp Require Import base option list strings gmap.

Local Open Scope string_scope.
Local Open Scope list_scope.
Local Open Scope Z_scope.

(* A decimal literal denotes the nearest binary64 value, as in C++. *)
#[local] Set Warnings "-inexact-float".

(** ** Exceptions and outcomes *)

(** What may unwind out of a call.  [NullDereference] stands for calling
    through the empty [driver_] pointer; no handler of the node catches it. *)
Inductive exn : Type :=
| DriverException (what : string)
| InvalidParameterTypeException (what : string)
| RuntimeError (what : string)
| NullDereference.

Inductive outcome (A : Type) : Type :=
| Returned (a : A)
| Thrown (e : exn).
Arguments Returned {A} a.
Arguments Thrown {A} e.

(** What a device call gives back: a value, or a [DriverException]. *)
Inductive dev_result (A : Type) : Type :=
| DevReturn (a : A)
| DevThrow (what : string).
Arguments DevReturn {A} a.
Arguments DevThrow {A} what.

Definition outcome_of_dev {A} (r : dev_result A) : outcome A :=
  match r with
  | DevReturn a => Returned a
  | DevThrow w => Thrown (DriverException w)
  end.

(** ** Numeric conversions *)

(** [static_cast<double>] of an integer: round to nearest, ties to even. *)
Definition Z_to_double (z : Z) : float :=
  SF2Prim (binary_normalize prec emax z 0 false).

(** [std::numeric_limits<float>::lowest()], as a binary64 value. *)
Definition float_lowest : float := (-0x1.fffffep+127)%float.

(** [a > b] on doubles: false as soon as one side is a NaN. *)
Definition gtb (a b : float) : bool := PrimFloat.ltb b a.

(** [a != b] on doubles: true as soon as one side is a NaN. *)
Definition neqb (a b : float) : bool := negb (PrimFloat.eqb a b).

(** ** Host parameters *)

Inductive ParameterType : Type :=
| PARAMETER_NOT_SET
| PARAMETER_BOOL
| PARAMETER_INTEGER
| PARAMETER_DOUBLE
| PARAMETER_STRING
| PARAMETER_BYTE_ARRAY
| PARAMETER_BOOL_ARRAY
| PARAMETER_INTEGER_ARRAY
| PARAMETER_DOUBLE_ARRAY
| PARAMETER_STRING_ARRAY.

Inductive ParameterValue : Type :=
| PV_not_set
| PV_bool (b : bool)
| PV_integer (i : Z)
| PV_double (d : float)
| PV_string (s : string)
| PV_byte_array (l : list Z)
| PV_bool_array (l : list bool)
| PV_integer_array (l : list Z)
| PV_double_array (l : list float)
| PV_string_array (l : list string).

Record rclcpp_Parameter : Type := mkParameter {
  get_name : string;
  get_parameter_value : ParameterValue
}.

Definition type_of_value (v : ParameterValue) : ParameterType :=
  match v with
  | PV_not_set => PARAMETER_NOT_SET
  | PV_bool _ => PARAMETER_BOOL
  | PV_integer _ => PARAMETER_INTEGER
  | PV_double _ => PARAMETER_DOUBLE
  | PV_string _ => PARAMETER_STRING
  | PV_byte_array _ => PARAMETER_BYTE_ARRAY
  | PV_bool_array _ => PARAMETER_BOOL_ARRAY
  | PV_integer_array _ => PARAMETER_INTEGER_ARRAY
  | PV_double_array _ => PARAMETER_DOUBLE_ARRAY
  | PV_string_array _ => PARAMETER_STRING_ARRAY
  end.

Definition get_type (p : rclcpp_Parameter) : ParameterType :=
  type_of_value (get_parameter_value p).

Record ParameterDescriptor : Type := mkDescriptor {
  desc_name : string;
  desc_type : ParameterType;
  desc_description : string;
  desc_dynamic_typing : bool
}.

(** A default-constructed descriptor. *)
Definition empty_desc : ParameterDescriptor :=
  mkDescriptor EmptyString PARAMETER_NOT_SET EmptyString false.

(** [DescSetter] sets [dynamic_typing] when the descriptor type of the ROS
    distribution has that member; [has_dynamic_typing] is that build-time
    fact. *)
Definition make_desc (has_dynamic_typing : bool) (name : string)
    (type : ParameterType) : ParameterDescriptor :=
  mkDescriptor name type name has_dynamic_typing.

Definition get_double_int_param (p : rclcpp_Parameter) : bool * float :=
  let bd := (false, 0%float) in
  let bd := match get_parameter_value p with
            | PV_double d => (true, d)
            | _ => bd
            end in
  let bd := match get_parameter_value p with
            | PV_integer i => (true, Z_to_double i)
            | _ => bd
            end in
  bd.

Definition get_bool_int_param (p : rclcpp_Parameter) : bool * bool :=
  let bb := (false, false) in
  let bb := match get_parameter_value p with
            | PV_bool b => (true, b)
            | _ => bb
            end in
  let bb := match get_parameter_value p with
            | PV_integer i => (true, negb (Z.eqb i 0))
            | _ => bb
            end in
  bb.

(** ** NodeInfo *)

(** Modelled from the spec: the header declaring [NodeInfo::NodeType] is not
    part of the sources; its four kinds are the ones the constructor assigns,
    and [INVALID] is the value [type] keeps when the constructor assigns none
    ("a descriptor with no effective type"). *)
Inductive NodeType : Type := INVALID | ENUM | FLOAT | INT | BOOL.

Record NodeInfo : Type := mkNodeInfo {
  name : string;
  type : NodeType;
  descriptor : ParameterDescriptor
}.

Definition NodeInfo_new (dyn : bool) (n nodeType : string) : NodeInfo :=
  if String.eqb nodeType "float" then
    mkNodeInfo n FLOAT (make_desc dyn n PARAMETER_DOUBLE)
  else if String.eqb nodeType "int" then
    mkNodeInfo n INT (make_desc dyn n PARAMETER_INTEGER)
  else if String.eqb nodeType "bool" then
    mkNodeInfo n BOOL (make_desc dyn n PARAMETER_BOOL)
  else if String.eqb nodeType "enum" then
    mkNodeInfo n ENUM (make_desc dyn n PARAMETER_STRING)
  else
    mkNodeInfo n INVALID empty_desc.

(** ** Logging: the [<<] chain of a LOG_x macro, item by item *)

Inductive Level : Type := INFO | WARN | ERROR | COUT.

Inductive LogItem : Type :=
| Str (s : string)
| Num (z : Z)
| Dbl (d : float)
| Flag (b : bool)
| PType (t : ParameterType)
| NType (t : NodeType).

Definition LogEntry : Type := Level * list LogItem.

Definition is_level (l : Level) (e : LogEntry) : bool :=
  match l, fst e with
  | INFO, INFO | WARN, WARN | ERROR, ERROR | COUT, COUT => true
  | _, _ => false
  end.


(** ** Reading the parameter file: lines and tokens *)

Definition newline : ascii := ascii_of_nat 10.
Definition dquote : ascii := ascii_of_nat 34.
Definition backslash : ascii := ascii_of_nat 92.
Definition hash : ascii := ascii_of_nat 35.

(** [std::isspace] in the "C" locale: space, and \t \n \v \f \r. *)
Definition isspace (c : ascii) : bool :=
  let n := nat_of_ascii c in
  Nat.eqb n 32 || (Nat.leb 9 n && Nat.leb n 13).

Definition push_char (acc : string) (c : ascii) : string :=
  acc +:+ String c EmptyString.

(** [getline(f, l)] until it fails: the text between newlines; a last line
    without newline counts when it is not empty. *)
Fixpoint getlines_from (acc : string) (s : string) : list string :=
  match s with
  | EmptyString => if String.eqb acc EmptyString then [] else [acc]
  | String c rest =>
      if Ascii.eqb c newline then acc :: getlines_from EmptyString rest
      else getlines_from (push_char acc c) rest
  end.

Definition getlines (content : string) : list string :=
  getlines_from EmptyString content.

(** Where the loop [while (iss >> std::quoted(s)) tokens.push_back(s)] is in
    the line: between tokens, inside an unquoted word, inside a quoted
    string, or right after the escape character of a quoted string. *)
Inductive scan_state : Type :=
| Between
| InWord (acc : string)
| InQuote (acc : string)
| InEscape (acc : string).

(** The tokens the loop pushes.  An unquoted word ends at white space; a
    quoted string ends at the closing quote, a backslash taking the next
    character as it is; when the line ends inside a quoted string the
    extraction fails and that token is not pushed. *)
Fixpoint scan (st : scan_state) (s : string) : list string :=
  match s with
  | EmptyString =>
      match st with
      | InWord acc => [acc]
      | _ => []
      end
  | String c rest =>
      match st with
      | Between =>
          if isspace c then scan Between rest
          else if Ascii.eqb c dquote then scan (InQuote EmptyString) rest
          else scan (InWord (String c EmptyString)) rest
      | InWord acc =>
          if isspace c then acc :: scan Between rest
          else scan (InWord (push_char acc c)) rest
      | InQuote acc =>
          if Ascii.eqb c backslash then scan (InEscape acc) rest
          else if Ascii.eqb c dquote then acc :: scan Between rest
          else scan (InQuote (push_char acc c)) rest
      | InEscape acc => scan (InQuote (push_char acc c)) rest
      end
  end.

Definition quoted_tokens (l : string) : list string := scan Between l.

(** [!tokens[0].empty() && tokens[0][0] == '#'] *)
Definition starts_with_hash (t : string) : bool :=
  match t with
  | EmptyString => false
  | String c _ => Ascii.eqb c hash
  end.

(** What [readParameterFile] does with a line, read off its tokens. *)
Inductive line_class : Type :=
| Blank
| Comment
| Malformed
| WellFormed (logical node kind : string).

Definition classify_tokens (tokens : list string) : line_class :=
  match tokens with
  | [] => Blank
  | t0 :: _ =>
      if starts_with_hash t0 then Comment
      else match tokens with
           | [a; b; c] => WellFormed a c b
           | _ => Malformed
           end
  end.

Definition classify_line (l : string) : line_class :=
  classify_tokens (quoted_tokens l).

Definition is_well_formed (l : string) : bool :=
  match classify_line l with WellFormed _ _ _ => true | _ => false end.

Definition is_malformed (l : string) : bool :=
  match classify_line l with Malformed => true | _ => false end.

(** The logical names of the well-formed lines, in file order. *)
Definition logical_names (ls : list string) : list string :=
  omap (fun l => match classify_line l with
                 | WellFormed a _ _ => Some a
                 | _ => None
                 end) ls.


Definition quote_string (s : string) : string :=
  String dquote (s +:+ String dquote EmptyString).

(** ** A state-and-exception monad

    [M S A] is a computation on a state [S] that returns an [A] or unwinds
    with an exception.  What was written to the state before a throw stays
    written, as for the members of a C++ object. *)

Definition M (S A : Type) : Type := S -> S * outcome A.

Definition ret {S A} (a : A) : M S A := fun s => (s, Returned a).

Definition bind {S A B} (m : M S A) (k : A -> M S B) : M S B :=
  fun s =>
    match m s with
    | (s', Returned a) => k a s'
    | (s', Thrown e) => (s', Thrown e)
    end.

Definition gets {S A} (f : S -> A) : M S A := fun s => (s, Returned (f s)).

Definition modify {S} (f : S -> S) : M S unit := fun s => (f s, Returned tt).

(** [try { body } catch (const DriverException & e) { handler(e.what()) }] *)
Definition catch_DriverException {S A} (body : M S A)
    (handler : string -> M S A) : M S A :=
  fun s =>
    match body s with
    | (s', Thrown (DriverException what)) => handler what s'
    | r => r
    end.

(** [try { body } catch (InvalidParameterTypeException & e) { ... }] *)
Definition catch_InvalidParameterType {S A} (body : M S A)
    (handler : string -> M S A) : M S A :=
  fun s =>
    match body s with
    | (s', Thrown (InvalidParameterTypeException what)) => handler what s'
    | r => r
    end.

(** A block with local variables [L] that a handler can still read after the
    block threw. *)
Definition lift_locals {S L A} (m : M S A) : M (S * L) A :=
  fun sl =>
    let '(s', r) := m (fst sl) in ((s', snd sl), r).

Definition with_locals {S L A} (init : L) (body : M (S * L) A) : M S A :=
  fun s => let '((s', _), r) := body (s, init) in (s', r).

Definition get_locals {S L} : M (S * L) L := gets snd.

Definition set_locals {S L} (f : L -> L) : M (S * L) unit :=
  modify (fun sl => (fst sl, f (snd sl))).

Declare Scope cam_scope.
Delimit Scope cam_scope with cam.
Notation "x <- c ;; k" := (bind c (fun x => k))
  (at level 100, c at next level, k at level 200, right associativity)
  : cam_scope.
Notation "c ;; k" := (bind c (fun _ => k))
  (at level 100, k at level 200, right associativity) : cam_scope.

(** ** The device wrapper *)

(** Modelled from the spec: [flir_spinnaker_common::Driver] is an external
    collaborator of which the sources hold only the calls.  A [Device] is its
    state; a setter answers with the status message and the value the device
    reports back, or throws its [DriverException]. *)
Record Driver (Device : Type) : Type := mkDriver {
  Driver_new : Device;
  Driver_setDebug : bool -> Device -> Device;
  Driver_setComputeBrightness : bool -> Device -> Device;
  Driver_setAcquisitionTimeout : float -> Device -> Device;
  Driver_getLibraryVersion : Device -> string;
  Driver_refreshCameraList : Device -> Device;
  Driver_getSerialNumbers : Device -> list string;
  Driver_initCamera : string -> Device -> Device * dev_result bool;
  Driver_getNodeMapAsString : Device -> string;
  Driver_startCamera : Device -> Device * dev_result bool;
  Driver_getPixelFormat : Device -> string;
  Driver_getReceiveFrameRate : Device -> float;
  Driver_setEnum :
    string -> string -> Device -> Device * dev_result (string * string);
  Driver_setDouble :
    string -> float -> Device -> Device * dev_result (string * float);
  Driver_setInt : string -> Z -> Device -> Device * dev_result (string * Z);
  Driver_setBool :
    string -> bool -> Device -> Device * dev_result (string * bool)
}.
Arguments Driver_new {Device} _.
Arguments Driver_setDebug {Device} _ _ _.
Arguments Driver_setComputeBrightness {Device} _ _ _.
Arguments Driver_setAcquisitionTimeout {Device} _ _ _.
Arguments Driver_getLibraryVersion {Device} _ _.
Arguments Driver_refreshCameraList {Device} _ _.
Arguments Driver_getSerialNumbers {Device} _ _.
Arguments Driver_initCamera {Device} _ _ _.
Arguments Driver_getNodeMapAsString {Device} _ _.
Arguments Driver_startCamera {Device} _ _.
Arguments Driver_getPixelFormat {Device} _ _.
Arguments Driver_getReceiveFrameRate {Device} _ _.
Arguments Driver_setEnum {Device} _ _ _ _.
Arguments Driver_setDouble {Device} _ _ _ _.
Arguments Driver_setInt {Device} _ _ _ _.
Arguments Driver_setBool {Device} _ _ _ _.

(** The calls into the device that the node makes, recorded in call order
    so that a property can speak of the device writes of a run. *)
Inductive DeviceCall : Type :=
| CallInitCamera (serial : string)
| CallStartCamera
| CallSetEnum (node v : string)
| CallSetDouble (node : string) (v : float)
| CallSetInt (node : string) (v : Z)
| CallSetBool (node : string) (v : bool).

(** ** The host framework *)

(** Modelled from the spec: the host parameter framework is an external
    collaborator.  [HostParameters] is what [declare_parameter] returns for
    the node's own settings ([host_debug] may throw the framework's
    [InvalidParameterTypeException]). *)
Record HostParameters : Type := mkHostParameters {
  host_serial_number : string;
  host_debug : outcome bool;
  host_dump_node_map : bool;
  host_compute_brightness : bool;
  host_acquisition_timeout : float;
  host_parameter_file : string
}.

(** What declaring a camera parameter leads to: the host accepts it, and may
    hand an initial value to the on-set callback before it returns; or it
    throws. *)
Inductive declare_result : Type :=
| Declared (initial : option rclcpp_Parameter)
| DeclareThrows (e : exn).

(** [rcl_interfaces::msg::SetParametersResult] *)
Record SetParametersResult : Type := mkSetParametersResult {
  successful : bool;
  reason : string
}.

(** ** Devices to run the node on

    A device whose state counts the refreshes of its camera list.  The
    camera [serial] is listed from the refresh number [visible_from] on,
    [initCamera] answers [init_ok], [setDouble] answers as [answer] says, and
    the other setters report back what was asked with the message OK. *)
Definition scripted_driver (visible_from : nat) (serial : string)
    (init_ok : bool) (answer : string -> float -> dev_result (string * float))
    : Driver nat :=
  mkDriver nat 0%nat
    (fun _ d => d) (fun _ d => d) (fun _ d => d)
    (fun _ => "scripted")
    S
    (fun d => if Nat.leb visible_from d then [serial] else [])
    (fun _ d => (d, DevReturn init_ok))
    (fun _ => EmptyString)
    (fun d => (d, DevReturn true))
    (fun _ => "Mono8")
    (fun _ => 30%float)
    (fun _ v d => (d, DevReturn ("OK", v)))
    (fun n v d => (d, answer n v))
    (fun _ v d => (d, DevReturn ("OK", v)))
    (fun _ v d => (d, DevReturn ("OK", v))).

(** The device takes every value as asked. *)
Definition answer_echo (n : string) (v : float)
    : dev_result (string * float) :=
  DevReturn ("OK", v).

(** The device refuses every write and reports 0 back. *)
Definition answer_refuse (n : string) (v : float)
    : dev_result (string * float) :=
  DevReturn ("access denied", 0%float).

(** The device throws on the node [bad] and takes the others as asked. *)
Definition answer_throw_on (bad : string) (n : string) (v : float)
    : dev_result (string * float) :=
  if String.eqb n bad then DevThrow "node not writable"
  else DevReturn ("OK", v).

(** A host with the given serial number and parameter file, nothing else
    set, that accepts every declaration without an initial value. *)
Definition plain_host (serial file : string) : HostParameters :=
  mkHostParameters serial (Returned false) false false 3%float file.

Definition accept_declaration (declared : list string) (name : string)
    (desc : ParameterDescriptor) (ignore_override : bool) : declare_result :=
  Declared None.

(** A file system with one file. *)
Definition one_file (path content : string) (p : string) : option string :=
  if String.eqb p path then Some content else None.

Definition no_file (p : string) : option string := None.

(** A stand-in for the framework's rendering of a value: a string as it
    is, nothing for the other types. *)
Definition plain_value_to_string (p : rclcpp_Parameter) : string :=
  match get_parameter_value p with
  | PV_string s => s
  | _ => EmptyString
  end.

(** The conversion of a double to a 32-bit int as the x86 instruction does
    it: truncation toward zero, and the lowest int for what does not fit. *)
Definition x86_double_to_int (d : float) : Z :=
  match Prim2SF d with
  | S754_zero _ => 0
  | S754_finite sign m e =>
      let z := Z.shiftl (Z.pos m) e in
      let z := if sign then - z else z in
      if (- 2 ^ 31 <=? z) && (z <? 2 ^ 31) then z else - 2 ^ 31
  | _ => - 2 ^ 31
  end.

(** ** The node object *)

Section Node.

(** The device state and the frames it delivers; a frame is an opaque
    handle, and [ImageConstPtr] a pointer to one that may be null. *)
Variable Device : Type.
Variable Image : Type.

Definition ImageConstPtr : Type := option Image.

(** Modelled from the spec: the class declaration (camera_driver.h) is not
    part of the sources.  The members are those the member functions use,
    with the types the spec gives them: exposure an unsigned integer, gain a
    floating-point number, the queue an ordered sequence of frame pointers,
    the registry a map from logical name to [NodeInfo] and the list of names
    in declaration order, [thread_] whether the publishing thread exists.
    Three fields are not members: [log_stream] is what the LOG macros wrote,
    [device_calls] the calls made into the device, [host_declared] the
    parameters declared to the host, each in order. *)
Record CameraDriver : Type := mkCameraDriver {
  serial_ : string;
  debug_ : bool;
  dumpNodeMap_ : bool;
  computeBrightness_ : bool;
  acquisitionTimeout_ : float;
  parameterFile_ : string;
  parameterMap_ : gmap string NodeInfo;
  parameterList_ : list string;
  driver_ : option Device;
  currentExposureTime_ : Z;
  currentGain_ : float;
  cameraRunning_ : bool;
  keepRunning_ : bool;
  thread_ : bool;
  imageQueue_ : list ImageConstPtr;
  publishedCount_ : Z;
  droppedCount_ : Z;
  lastStatusTime_ : Z;
  log_stream : list LogEntry;
  device_calls : list DeviceCall;
  host_declared : list string
}.

Definition set_serial_ (v : string) (s : CameraDriver) : CameraDriver :=
  mkCameraDriver v (debug_ s) (dumpNodeMap_ s) (computeBrightness_ s)
    (acquisitionTimeout_ s) (parameterFile_ s) (parameterMap_ s)
    (parameterList_ s) (driver_ s) (currentExposureTime_ s) (currentGain_ s)
    (cameraRunning_ s) (keepRunning_ s) (thread_ s) (imageQueue_ s)
    (publishedCount_ s) (droppedCount_ s) (lastStatusTime_ s) (log_stream s)
    (device_calls s) (host_declared s).

Definition set_debug_ (v : bool) (s : CameraDriver) : CameraDriver :=
  mkCameraDriver (serial_ s) v (dumpNodeMap_ s) (computeBrightness_ s)
    (acquisitionTimeout_ s) (parameterFile_ s) (parameterMap_ s)
    (parameterList_ s) (driver_ s) (currentExposureTime_ s) (currentGain_ s)
    (cameraRunning_ s) (keepRunning_ s) (thread_ s) (imageQueue_ s)
    (publishedCount_ s) (droppedCount_ s) (lastStatusTime_ s) (log_stream s)
    (device_calls s) (host_declared s).

Definition set_dumpNodeMap_ (v : bool) (s : CameraDriver) : CameraDriver :=
  mkCameraDriver (serial_ s) (debug_ s) v (computeBrightness_ s)
    (acquisitionTimeout_ s) (parameterFile_ s) (parameterMap_ s)
    (parameterList_ s) (driver_ s) (currentExposureTime_ s) (currentGain_ s)
    (cameraRunning_ s) (keepRunning_ s) (thread_ s) (imageQueue_ s)
    (publishedCount_ s) (droppedCount_ s) (lastStatusTime_ s) (log_stream s)
    (device_calls s) (host_declared s).

Definition set_computeBrightness_ (v : bool) (s : CameraDriver)
    : CameraDriver :=
  mkCameraDriver (serial_ s) (debug_ s) (dumpNodeMap_ s) v
    (acquisitionTimeout_ s) (parameterFile_ s) (parameterMap_ s)
    (parameterList_ s) (driver_ s) (currentExposureTime_ s) (currentGain_ s)
    (cameraRunning_ s) (keepRunning_ s) (thread_ s) (imageQueue_ s)
    (publishedCount_ s) (droppedCount_ s) (lastStatusTime_ s) (log_stream s)
    (device_calls s) (host_declared s).

Definition set_acquisitionTimeout_ (v : float) (s : CameraDriver)
    : CameraDriver :=
  mkCameraDriver (serial_ s) (debug_ s) (dumpNodeMap_ s)
    (computeBrightness_ s) v (parameterFile_ s) (parameterMap_ s)
    (parameterList_ s) (driver_ s) (currentExposureTime_ s) (currentGain_ s)
    (cameraRunning_ s) (keepRunning_ s) (thread_ s) (imageQueue_ s)
    (publishedCount_ s) (droppedCount_ s) (lastStatusTime_ s) (log_stream s)
    (device_calls s) (host_declared s).

Definition set_parameterFile_ (v : string) (s : CameraDriver) : CameraDriver :=
  mkCameraDriver (serial_ s) (debug_ s) (dumpNodeMap_ s)
    (computeBrightness_ s) (acquisitionTimeout_ s) v (parameterMap_ s)
    (parameterList_ s) (driver_ s) (currentExposureTime_ s) (currentGain_ s)
    (cameraRunning_ s) (keepRunning_ s) (thread_ s) (imageQueue_ s)
    (publishedCount_ s) (droppedCount_ s) (lastStatusTime_ s) (log_stream s)
    (device_calls s) (host_declared s).

Definition set_parameterMap_ (v : gmap string NodeInfo) (s : CameraDriver)
    : CameraDriver :=
  mkCameraDriver (serial_ s) (debug_ s) (dumpNodeMap_ s)
    (computeBrightness_ s) (acquisitionTimeout_ s) (parameterFile_ s) v
    (parameterList_ s) (driver_ s) (currentExposureTime_ s) (currentGain_ s)
    (cameraRunning_ s) (keepRunning_ s) (thread_ s) (imageQueue_ s)
    (publishedCount_ s) (droppedCount_ s) (lastStatusTime_ s) (log_stream s)
    (device_calls s) (host_declared s).

Definition set_parameterList_ (v : list string) (s : CameraDriver)
    : CameraDriver :=
  mkCameraDriver (serial_ s) (debug_ s) (dumpNodeMap_ s)
    (computeBrightness_ s) (acquisitionTimeout_ s) (parameterFile_ s)
    (parameterMap_ s) v (driver_ s) (currentExposureTime_ s)
    (currentGain_ s) (cameraRunning_ s) (keepRunning_ s) (thread_ s)
    (imageQueue_ s) (publishedCount_ s) (droppedCount_ s)
    (lastStatusTime_ s) (log_stream s) (device_calls s) (host_declared s).

Definition set_driver_ (v : option Device) (s : CameraDriver) : CameraDriver :=
  mkCameraDriver (serial_ s) (debug_ s) (dumpNodeMap_ s)
    (computeBrightness_ s) (acquisitionTimeout_ s) (parameterFile_ s)
    (parameterMap_ s) (parameterList_ s) v (currentExposureTime_ s)
    (currentGain_ s) (cameraRunning_ s) (keepRunning_ s) (thread_ s)
    (imageQueue_ s) (publishedCount_ s) (droppedCount_ s)
    (lastStatusTime_ s) (log_stream s) (device_calls s) (host_declared s).

Definition set_currentExposureTime_ (v : Z) (s : CameraDriver) : CameraDriver :=
  mkCameraDriver (serial_ s) (debug_ s) (dumpNodeMap_ s)
    (computeBrightness_ s) (acquisitionTimeout_ s) (parameterFile_ s)
    (parameterMap_ s) (parameterList_ s) (driver_ s) v (currentGain_ s)
    (cameraRunning_ s) (keepRunning_ s) (thread_ s) (imageQueue_ s)
    (publishedCount_ s) (droppedCount_ s) (lastStatusTime_ s) (log_stream s)
    (device_calls s) (host_declared s).

Definition set_currentGain_ (v : float) (s : CameraDriver) : CameraDriver :=
  mkCameraDriver (serial_ s) (debug_ s) (dumpNodeMap_ s)
    (computeBrightness_ s) (acquisitionTimeout_ s) (parameterFile_ s)
    (parameterMap_ s) (parameterList_ s) (driver_ s)
    (currentExposureTime_ s) v (cameraRunning_ s) (keepRunning_ s)
    (thread_ s) (imageQueue_ s) (publishedCount_ s) (droppedCount_ s)
    (lastStatusTime_ s) (log_stream s) (device_calls s) (host_declared s).

Definition set_cameraRunning_ (v : bool) (s : CameraDriver) : CameraDriver :=
  mkCameraDriver (serial_ s) (debug_ s) (dumpNodeMap_ s)
    (computeBrightness_ s) (acquisitionTimeout_ s) (parameterFile_ s)
    (parameterMap_ s) (parameterList_ s) (driver_ s)
    (currentExposureTime_ s) (currentGain_ s) v (keepRunning_ s) (thread_ s)
    (imageQueue_ s) (publishedCount_ s) (droppedCount_ s)
    (lastStatusTime_ s) (log_stream s) (device_calls s) (host_declared s).

Definition set_keepRunning_ (v : bool) (s : CameraDriver) : CameraDriver :=
  mkCameraDriver (serial_ s) (debug_ s) (dumpNodeMap_ s)
    (computeBrightness_ s) (acquisitionTimeout_ s) (parameterFile_ s)
    (parameterMap_ s) (parameterList_ s) (driver_ s)
    (currentExposureTime_ s) (currentGain_ s) (cameraRunning_ s) v
    (thread_ s) (imageQueue_ s) (publishedCount_ s) (droppedCount_ s)
    (lastStatusTime_ s) (log_stream s) (device_calls s) (host_declared s).

Definition set_thread_ (v : bool) (s : CameraDriver) : CameraDriver :=
  mkCameraDriver (serial_ s) (debug_ s) (dumpNodeMap_ s)
    (computeBrightness_ s) (acquisitionTimeout_ s) (parameterFile_ s)
    (parameterMap_ s) (parameterList_ s) (driver_ s)
    (currentExposureTime_ s) (currentGain_ s) (cameraRunning_ s)
    (keepRunning_ s) v (imageQueue_ s) (publishedCount_ s) (droppedCount_ s)
    (lastStatusTime_ s) (log_stream s) (device_calls s) (host_declared s).

Definition set_imageQueue_ (v : list ImageConstPtr) (s : CameraDriver)
    : CameraDriver :=
  mkCameraDriver (serial_ s) (debug_ s) (dumpNodeMap_ s)
    (computeBrightness_ s) (acquisitionTimeout_ s) (parameterFile_ s)
    (parameterMap_ s) (parameterList_ s) (driver_ s)
    (currentExposureTime_ s) (currentGain_ s) (cameraRunning_ s)
    (keepRunning_ s) (thread_ s) v (publishedCount_ s) (droppedCount_ s)
    (lastStatusTime_ s) (log_stream s) (device_calls s) (host_declared s).

Definition set_publishedCount_ (v : Z) (s : CameraDriver) : CameraDriver :=
  mkCameraDriver (serial_ s) (debug_ s) (dumpNodeMap_ s)
    (computeBrightness_ s) (acquisitionTimeout_ s) (parameterFile_ s)
    (parameterMap_ s) (parameterList_ s) (driver_ s)
    (currentExposureTime_ s) (currentGain_ s) (cameraRunning_ s)
    (keepRunning_ s) (thread_ s) (imageQueue_ s) v (droppedCount_ s)
    (lastStatusTime_ s) (log_stream s) (device_calls s) (host_declared s).

Definition set_droppedCount_ (v : Z) (s : CameraDriver) : CameraDriver :=
  mkCameraDriver (serial_ s) (debug_ s) (dumpNodeMap_ s)
    (computeBrightness_ s) (acquisitionTimeout_ s) (parameterFile_ s)
    (parameterMap_ s) (parameterList_ s) (driver_ s)
    (currentExposureTime_ s) (currentGain_ s) (cameraRunning_ s)
    (keepRunning_ s) (thread_ s) (imageQueue_ s) (publishedCount_ s) v
    (lastStatusTime_ s) (log_stream s) (device_calls s) (host_declared s).

Definition set_lastStatusTime_ (v : Z) (s : CameraDriver) : CameraDriver :=
  mkCameraDriver (serial_ s) (debug_ s) (dumpNodeMap_ s)
    (computeBrightness_ s) (acquisitionTimeout_ s) (parameterFile_ s)
    (parameterMap_ s) (parameterList_ s) (driver_ s)
    (currentExposureTime_ s) (currentGain_ s) (cameraRunning_ s)
    (keepRunning_ s) (thread_ s) (imageQueue_ s) (publishedCount_ s)
    (droppedCount_ s) v (log_stream s) (device_calls s) (host_declared s).

Definition set_log_stream (v : list LogEntry) (s : CameraDriver)
    : CameraDriver :=
  mkCameraDriver (serial_ s) (debug_ s) (dumpNodeMap_ s)
    (computeBrightness_ s) (acquisitionTimeout_ s) (parameterFile_ s)
    (parameterMap_ s) (parameterList_ s) (driver_ s)
    (currentExposureTime_ s) (currentGain_ s) (cameraRunning_ s)
    (keepRunning_ s) (thread_ s) (imageQueue_ s) (publishedCount_ s)
    (droppedCount_ s) (lastStatusTime_ s) v (device_calls s)
    (host_declared s).

Definition set_device_calls (v : list DeviceCall) (s : CameraDriver)
    : CameraDriver :=
  mkCameraDriver (serial_ s) (debug_ s) (dumpNodeMap_ s)
    (computeBrightness_ s) (acquisitionTimeout_ s) (parameterFile_ s)
    (parameterMap_ s) (parameterList_ s) (driver_ s)
    (currentExposureTime_ s) (currentGain_ s) (cameraRunning_ s)
    (keepRunning_ s) (thread_ s) (imageQueue_ s) (publishedCount_ s)
    (droppedCount_ s) (lastStatusTime_ s) (log_stream s) v (host_declared s).

Definition set_host_declared (v : list string) (s : CameraDriver)
    : CameraDriver :=
  mkCameraDriver (serial_ s) (debug_ s) (dumpNodeMap_ s)
    (computeBrightness_ s) (acquisitionTimeout_ s) (parameterFile_ s)
    (parameterMap_ s) (parameterList_ s) (driver_ s)
    (currentExposureTime_ s) (currentGain_ s) (cameraRunning_ s)
    (keepRunning_ s) (thread_ s) (imageQueue_ s) (publishedCount_ s)
    (droppedCount_ s) (lastStatusTime_ s) (log_stream s) (device_calls s) v.

(** The environment of the node: the device wrapper, what the host returns
    for the node's own settings and for the declaration of a camera
    parameter (given the names declared so far), the framework's rendering
    of a parameter value, the platform's conversion from [double] to [int],
    the build-time presence of [dynamic_typing], the width of the two
    counters, and the file system. *)
Variable drv : Driver Device.
Variable host : HostParameters.
Variable declare_parameter :
  list string -> string -> ParameterDescriptor -> bool -> declare_result.
Variable value_to_string : rclcpp_Parameter -> string.
Variable double_to_int : float -> Z.
Variable has_dynamic_typing : bool.
Variable counter_bits : Z.
Variable read_file : string -> option string.

(* A lemma depends on the part of the environment that its statement names. *)
Set Default Proof Using "Type".

Local Open Scope cam_scope.

Definition LOG (lvl : Level) (items : list LogItem) (s : CameraDriver)
    : CameraDriver :=
  set_log_stream (log_stream s ++ [(lvl, items)]) s.

Definition LOG_INFO (items : list LogItem) : M CameraDriver unit :=
  modify (LOG INFO items).
Definition LOG_WARN (items : list LogItem) : M CameraDriver unit :=
  modify (LOG WARN items).
Definition LOG_ERROR (items : list LogItem) : M CameraDriver unit :=
  modify (LOG ERROR items).

(** [driver_->f(...)] for a call that changes the device and may throw; the
    call is recorded before it is made. *)
Definition call_driver {A} (c : DeviceCall)
    (f : Device -> Device * dev_result A) : M CameraDriver A :=
  fun s =>
    match driver_ s with
    | None => (s, Thrown NullDereference)
    | Some d =>
        let '(d', r) := f d in
        (set_device_calls (device_calls s ++ [c]) (set_driver_ (Some d') s),
         outcome_of_dev r)
    end.

(** [driver_->f(...)] for the calls that only configure or read. *)
Definition update_driver (f : Device -> Device) : M CameraDriver unit :=
  fun s =>
    match driver_ s with
    | None => (s, Thrown NullDereference)
    | Some d => (set_driver_ (Some (f d)) s, Returned tt)
    end.

Definition read_driver {A} (f : Device -> A) : M CameraDriver A :=
  fun s =>
    match driver_ s with
    | None => (s, Thrown NullDereference)
    | Some d => (s, Returned (f d))
    end.

(** An unsigned counter after [++]. *)
Definition counter_incr (c : Z) : Z := (c + 1) mod 2 ^ counter_bits.

(** *** printStatus *)

Definition dropRate (s : CameraDriver) : float :=
  if 0 <? publishedCount_ s
  then (Z_to_double (droppedCount_ s) / Z_to_double (publishedCount_ s))%float
  else 0%float.

(** [now] is the reading of the node clock, in nanoseconds. *)
Definition printStatus (now : Z) (s : CameraDriver) : CameraDriver :=
  match driver_ s with
  | Some d =>
      let dropRate := dropRate s in
      let t := now in
      let dt := t - lastStatusTime_ s in
      let dtns := Z_to_double (Z.max dt 1) in
      let outRate := (Z_to_double (publishedCount_ s) * 1e9 / dtns)%float in
      let s := LOG INFO [Str "frame rate in: ";
                         Dbl (Driver_getReceiveFrameRate drv d);
                         Str " Hz, out:"; Dbl outRate; Str " Hz, drop: ";
                         Dbl (dropRate * 100)%float; Str "%"] s in
      let s := set_lastStatusTime_ t s in
      let s := set_droppedCount_ 0 s in
      set_publishedCount_ 0 s
  | None =>
      LOG WARN [Str "camera "; Str (serial_ s); Str " is not online!"] s
  end.

(** *** readParameters *)

Definition readParameters : M CameraDriver unit :=
  modify (set_serial_ (host_serial_number host)) ;;
  catch_InvalidParameterType
    (fun s =>
       match host_debug host with
       | Returned b => (set_debug_ b s, Returned tt)
       | Thrown e => (s, Thrown e)
       end)
    (fun what =>
       LOG_WARN [Str "bad debug param type: "; Str what] ;;
       modify (set_debug_ false)) ;;
  debug <- gets debug_ ;;
  LOG_INFO [Str "debug: "; Flag debug] ;;
  modify (set_dumpNodeMap_ (host_dump_node_map host)) ;;
  modify (set_computeBrightness_ (host_compute_brightness host)) ;;
  modify (set_acquisitionTimeout_ (host_acquisition_timeout host)) ;;
  modify (set_parameterFile_ (host_parameter_file host)) ;;
  serial <- gets serial_ ;;
  LOG_INFO [Str " serial: "; Str serial].

(** *** readParameterFile *)

(** [parameterMap_.insert({k, v})]: an entry already there is kept. *)
Definition map_insert_new (k : string) (v : NodeInfo)
    (m : gmap string NodeInfo) : gmap string NodeInfo :=
  match m !! k with
  | Some _ => m
  | None => <[k := v]> m
  end.

(** The body of the [while (getline(f, l))] loop. *)
Definition readParameterFile_line (s : CameraDriver) (l : string)
    : CameraDriver :=
  let tokens := quoted_tokens l in
  match tokens with
  | [] => s
  | t0 :: _ =>
      if starts_with_hash t0 then s
      else if negb (Nat.eqb (length tokens) 3) then
        LOG WARN [Str "skipping bad camera param line: "; Str l] s
      else
        match tokens with
        | [tokens0; tokens1; tokens2] =>
            let s :=
              set_parameterMap_
                (map_insert_new tokens0
                   (NodeInfo_new has_dynamic_typing tokens2 tokens1)
                   (parameterMap_ s)) s in
            set_parameterList_ (parameterList_ s ++ [tokens0]) s
        | _ => s
        end
  end.

Definition readParameterFile (s : CameraDriver) : CameraDriver * bool :=
  match read_file (parameterFile_ s) with
  | None =>
      (LOG ERROR [Str "cannot read parameter definition file: ";
                  Str (parameterFile_ s)] s, false)
  | Some content =>
      (fold_left readParameterFile_line (getlines content) s, true)
  end.

(** *** The setters of the four kinds *)

Definition setEnum (nodeName v : string) : M CameraDriver bool :=
  LOG_INFO [Str "setting "; Str nodeName; Str " to: "; Str v] ;;
  r <- call_driver (CallSetEnum nodeName v) (Driver_setEnum drv nodeName v) ;;
  let '(msg, retV) := r in
  status <- ret true ;;
  status <- (if negb (String.eqb msg "OK") then
               LOG_WARN [Str "setting "; Str nodeName; Str " failed: ";
                         Str msg] ;;
               ret false
             else ret status) ;;
  status <- (if negb (String.eqb v retV) then
               LOG_WARN [Str nodeName; Str " set to: "; Str retV;
                         Str " instead of: "; Str v] ;;
               ret false
             else ret status) ;;
  ret status.

(** The check of [setDouble] on the value read back:
    [std::abs(v - retV) > 0.025 * std::abs(v + retV)]. *)
Definition out_of_tolerance (v retV : float) : bool :=
  gtb (PrimFloat.abs (v - retV)) (0.025 * PrimFloat.abs (v + retV))%float.

Definition setDouble (nodeName : string) (v : float) : M CameraDriver bool :=
  LOG_INFO [Str "setting "; Str nodeName; Str " to: "; Dbl v] ;;
  r <- call_driver (CallSetDouble nodeName v)
         (Driver_setDouble drv nodeName v) ;;
  let '(msg, retV) := r in
  status <- ret true ;;
  status <- (if negb (String.eqb msg "OK") then
               LOG_WARN [Str "setting "; Str nodeName; Str " failed: ";
                         Str msg] ;;
               ret false
             else ret status) ;;
  status <- (if out_of_tolerance v retV then
               LOG_WARN [Str nodeName; Str " set to: "; Dbl retV;
                         Str " instead of: "; Dbl v] ;;
               ret false
             else ret status) ;;
  ret status.

Definition setInt (nodeName : string) (v : Z) : M CameraDriver bool :=
  LOG_INFO [Str "setting "; Str nodeName; Str " to: "; Num v] ;;
  r <- call_driver (CallSetInt nodeName v) (Driver_setInt drv nodeName v) ;;
  let '(msg, retV) := r in
  status <- ret true ;;
  status <- (if negb (String.eqb msg "OK") then
               LOG_WARN [Str "setting "; Str nodeName; Str " failed: ";
                         Str msg] ;;
               ret false
             else ret status) ;;
  status <- (if negb (Z.eqb v retV) then
               LOG_WARN [Str nodeName; Str " set to: "; Num retV;
                         Str " instead of: "; Num v] ;;
               ret false
             else ret status) ;;
  ret status.

Definition setBool (nodeName : string) (v : bool) : M CameraDriver bool :=
  LOG_INFO [Str "setting "; Str nodeName; Str " to: "; Flag v] ;;
  r <- call_driver (CallSetBool nodeName v) (Driver_setBool drv nodeName v) ;;
  let '(msg, retV) := r in
  status <- ret true ;;
  status <- (if negb (String.eqb msg "OK") then
               LOG_WARN [Str "setting "; Str nodeName; Str " failed: ";
                         Str msg] ;;
               ret false
             else ret status) ;;
  status <- (if negb (Bool.eqb v retV) then
               LOG_WARN [Str nodeName; Str " set to: "; Flag retV;
                         Str " instead of: "; Flag v] ;;
               ret false
             else ret status) ;;
  ret status.

(** *** setParameter *)

(** Erase every double-quote character of [s] (the erase-remove idiom). *)
Fixpoint remove_quotes (s : string) : string :=
  match s with
  | EmptyString => EmptyString
  | String c rest =>
      if Ascii.eqb c dquote then remove_quotes rest
      else String c (remove_quotes rest)
  end.

Definition setParameter (ni : NodeInfo) (p : rclcpp_Parameter)
    : M CameraDriver unit :=
  match type ni with
  | ENUM =>
      let s := value_to_string p in
      let s := remove_quotes s in
      _ <- setEnum (name ni) s ;;
      ret tt
  | FLOAT =>
      let bd := get_double_int_param p in
      if fst bd then
        _ <- setDouble (name ni) (snd bd) ;;
        ret tt
      else
        LOG_WARN [Str "bad non-float "; Str (get_name p); Str " type: ";
                  PType (get_type p)]
  | INT =>
      let bd := get_double_int_param p in
      if fst bd then
        _ <- setInt (name ni) (double_to_int (snd bd)) ;;
        ret tt
      else
        LOG_WARN [Str "bad non-int "; Str (get_name p); Str " type: ";
                  PType (get_type p)]
  | BOOL =>
      let bb := get_bool_int_param p in
      if fst bb then
        _ <- setBool (name ni) (snd bb) ;;
        ret tt
      else
        LOG_WARN [Str "bad non-bool "; Str (get_name p); Str " type: ";
                  PType (get_type p)]
  | INVALID =>
      LOG_WARN [Str "invalid node type in map: "; NType (type ni)]
  end.

(** *** parameterChanged *)

Definition is_not_set (p : rclcpp_Parameter) : bool :=
  match get_type p with
  | PARAMETER_NOT_SET => true
  | _ => false
  end.

(** The body of the [for (const auto & p : params)] loop. *)
Definition parameterChanged_body (p : rclcpp_Parameter)
    : M CameraDriver unit :=
  it <- gets (fun s => parameterMap_ s !! get_name p) ;;
  match it with
  | None => ret tt
  | Some ni =>
      drv_ptr <- gets driver_ ;;
      match drv_ptr with
      | None => LOG_WARN [Str "got parameter update while driver is not ready!"]
      | Some _ =>
          if is_not_set p then ret tt
          else
            catch_DriverException (setParameter ni p)
              (fun what =>
                 LOG_WARN [Str "param "; Str (get_name p); Str " ";
                           Str what])
      end
  end.

Fixpoint parameterChanged_loop (params : list rclcpp_Parameter)
    : M CameraDriver unit :=
  match params with
  | [] => ret tt
  | p :: rest => parameterChanged_body p ;; parameterChanged_loop rest
  end.

Definition parameterChanged (params : list rclcpp_Parameter)
    : M CameraDriver SetParametersResult :=
  parameterChanged_loop params ;;
  let res := mkSetParametersResult true "all good!" in
  ret res.

(** *** controlCallback *)

(** The two locals of [controlCallback] that are set inside the [try] block
    and read after it. *)
Record control_locals : Type := mkControlLocals {
  logTime : bool;
  logGain : bool
}.

Definition set_logTime (b : bool) (l : control_locals) : control_locals :=
  mkControlLocals b (logGain l).
Definition set_logGain (b : bool) (l : control_locals) : control_locals :=
  mkControlLocals (logTime l) b.

(** The first [if] of the [try] block. *)
Definition control_exposure (et : Z)
    : M (CameraDriver * control_locals) unit :=
  cur <- lift_locals (gets currentExposureTime_) ;;
  if (0 <? et) && negb (et =? cur) then
    it <- lift_locals (gets (fun s => parameterMap_ s !! "exposure_time")) ;;
    match it with
    | Some ni =>
        _ <- lift_locals (setDouble (name ni) (Z_to_double et)) ;;
        lift_locals (modify (set_currentExposureTime_ et)) ;;
        set_locals (set_logTime true)
    | None =>
        lift_locals
          (LOG_WARN
             [Str "no node name defined for exposure_time, check .cfg file!"])
    end
  else ret tt.

(** The second [if] of the [try] block. *)
Definition control_gain (gain : float)
    : M (CameraDriver * control_locals) unit :=
  cur <- lift_locals (gets currentGain_) ;;
  if gtb gain float_lowest && neqb gain cur then
    it <- lift_locals (gets (fun s => parameterMap_ s !! "gain")) ;;
    match it with
    | Some ni =>
        _ <- lift_locals (setDouble (name ni) gain) ;;
        lift_locals (modify (set_currentGain_ gain)) ;;
        set_locals (set_logGain true)
    | None =>
        lift_locals
          (LOG_WARN
             [Str "no node name defined for exposure_time, check .cfg file!"])
    end
  else ret tt.

(** [exposure_time] and [gain] are the two fields of the control message. *)
Definition controlCallback (exposure_time : Z) (gain : float)
    : M CameraDriver unit :=
  let et := exposure_time in
  with_locals (mkControlLocals false false)
    (catch_DriverException
       (control_exposure et ;; control_gain gain)
       (fun what =>
          lift_locals (LOG_WARN [Str "failed to control: "; Str what])) ;;
     l <- get_locals ;;
     (if logTime l then
        lift_locals
          (LOG_INFO [Str "changed exposure time to "; Num et; Str "us"])
      else ret tt) ;;
     (if logGain l then
        lift_locals (LOG_INFO [Str "changed gain to "; Dbl gain; Str "db"])
      else ret tt)).

(** *** publishImage and run *)

(** The producer side, called by the device for every frame. *)
Definition publishImage (im : ImageConstPtr) (s : CameraDriver)
    : CameraDriver :=
  if Nat.ltb (length (imageQueue_ s)) 2 then
    set_imageQueue_ (imageQueue_ s ++ [im]) s
  else
    set_droppedCount_ (counter_incr (droppedCount_ s)) s.

(** The locked section of [run] once its wait is over: [img] is
    [imageQueue_.back()], which [pop_back] removes, or stays null on an
    empty queue. *)
Definition run_locked (s : CameraDriver) : CameraDriver * ImageConstPtr :=
  match last (imageQueue_ s) with
  | Some img => (set_imageQueue_ (removelast (imageQueue_ s)) s, img)
  | None => (s, None)
  end.

(** One turn of the outer loop of [run] up to the call of [doPublish]: the
    node at that point, and the frame handed to [doPublish], if any.  [ok]
    is [rclcpp::ok()]. *)
Definition run_iteration (ok : bool) (s : CameraDriver)
    : CameraDriver * option Image :=
  let '(s, img) := run_locked s in
  match img with
  | Some im => if keepRunning_ s && ok then (s, Some im) else (s, None)
  | None => (s, None)
  end.

(** *** createCameraParameters *)

(** [this->declare_parameter(name, ParameterValue(), descriptor,
    ignore_override)]: the host records the name; when it hands an initial
    value to the on-set callback, that is [parameterChanged]. *)
Definition declare_camera_parameter (name : string)
    (desc : ParameterDescriptor) (ignore_override : bool)
    : M CameraDriver unit :=
  declared <- gets host_declared ;;
  match declare_parameter declared name desc ignore_override with
  | DeclareThrows e => fun s => (s, Thrown e)
  | Declared initial =>
      modify (set_host_declared (declared ++ [name])) ;;
      match initial with
      | Some p => _ <- parameterChanged [p] ;; ret tt
      | None => ret tt
      end
  end.

Fixpoint createCameraParameters_loop (names : list string)
    : M CameraDriver unit :=
  match names with
  | [] => ret tt
  | name :: rest =>
      it <- gets (fun s => parameterMap_ s !! name) ;;
      match it with
      | Some ni =>
          catch_InvalidParameterType
            (declare_camera_parameter name (descriptor ni) false)
            (fun what =>
               LOG_WARN [Str ("overwriting bad param with default: "
                              +:+ what)] ;;
               declare_camera_parameter name (descriptor ni) true)
      | None => ret tt
      end ;;
      createCameraParameters_loop rest
  end.

Definition createCameraParameters : M CameraDriver unit :=
  names <- gets parameterList_ ;;
  createCameraParameters_loop names.

(** *** startCamera *)

Definition printCameraInfo : M CameraDriver unit :=
  running <- gets cameraRunning_ ;;
  if running then
    pf <- read_driver (Driver_getPixelFormat drv) ;;
    LOG_INFO [Str "camera has pixel format: "; Str pf]
  else ret tt.

Definition startCamera : M CameraDriver unit :=
  running <- gets cameraRunning_ ;;
  if negb running then
    started <- call_driver CallStartCamera (Driver_startCamera drv) ;;
    modify (set_cameraRunning_ started) ;;
    running <- gets cameraRunning_ ;;
    if negb running then LOG_ERROR [Str "failed to start camera!"]
    else printCameraInfo
  else ret tt.

(** *** start *)

Fixpoint log_found_cameras (camList : list string) : M CameraDriver unit :=
  match camList with
  | [] => ret tt
  | cam :: rest =>
      LOG_WARN [Str "found cameras: "; Str cam] ;; log_found_cameras rest
  end.

(** The loop [for (int retry = 1; retry < 6; retry++)] from [retry] on, with
    [tries] turns left; its result is [foundCamera].  The one-second sleep of
    a failed try leaves no trace in the state. *)
Fixpoint find_camera (tries : nat) (retry : Z) : M CameraDriver bool :=
  match tries with
  | O => ret false
  | S tries' =>
      update_driver (Driver_refreshCameraList drv) ;;
      camList <- read_driver (Driver_getSerialNumbers drv) ;;
      serial <- gets serial_ ;;
      if negb (existsb (String.eqb serial) camList) then
        LOG_WARN [Str "no camera found with serial: "; Str serial;
                  Str " on try # "; Num retry] ;;
        log_found_cameras camList ;;
        find_camera tries' (retry + 1)
      else
        LOG_INFO [Str "found camera with serial number: "; Str serial] ;;
        ret true
  end.

(** [start].  The camera-info manager, the control subscription and the
    publishers it creates are host objects and leave the members modelled
    here as they are. *)
Definition start : M CameraDriver bool :=
  readParameters ;;
  read_ok <- (fun s => let '(s', b) := readParameterFile s in
                       (s', Returned b)) ;;
  if negb read_ok then ret false
  else
    modify (set_driver_ (Some (Driver_new drv))) ;;
    debug <- gets debug_ ;;
    update_driver (Driver_setDebug drv debug) ;;
    computeBrightness <- gets computeBrightness_ ;;
    update_driver (Driver_setComputeBrightness drv computeBrightness) ;;
    acquisitionTimeout <- gets acquisitionTimeout_ ;;
    update_driver (Driver_setAcquisitionTimeout drv acquisitionTimeout) ;;
    version <- read_driver (Driver_getLibraryVersion drv) ;;
    LOG_INFO [Str ("using spinnaker lib version: " +:+ version)] ;;
    foundCamera <- find_camera (Z.to_nat (6 - 1)) 1 ;;
    if negb foundCamera then
      serial <- gets serial_ ;;
      LOG_ERROR [Str "giving up, camera "; Str serial; Str " not found!"] ;;
      ret false
    else
      modify (set_keepRunning_ true) ;;
      modify (set_thread_ true) ;;
      serial <- gets serial_ ;;
      init_ok <- call_driver (CallInitCamera serial)
                   (Driver_initCamera drv serial) ;;
      (if init_ok then
         dump <- gets dumpNodeMap_ ;;
         (if dump then
            LOG_INFO [Str "dumping node map!"] ;;
            nm <- read_driver (Driver_getNodeMapAsString drv) ;;
            modify (LOG COUT [Str nm])
          else ret tt) ;;
         createCameraParameters ;;
         startCamera
       else
         LOG_ERROR [Str "init camera failed for cam: "; Str serial]) ;;
      ret true.

(** *** The constructor *)

(** Modelled from the spec: the default member initializers are in the
    missing class declaration.  Exposure 0 and gain the lowest float are the
    "unset" values of the control state, the queue is empty, the counters
    are 0, no camera runs, no thread exists and no driver is attached; the
    running flag is raised by [start]. *)
Definition CameraDriver_default : CameraDriver :=
  mkCameraDriver EmptyString false false false 0%float EmptyString
    ∅ [] None 0 float_lowest false false false [] 0 0 0 [] [] [].

(** The constructor body; [now] is the clock reading.  The status timer it
    creates is a host object. *)
Definition CameraDriver_new (now : Z) : M CameraDriver unit :=
  modify (set_lastStatusTime_ now) ;;
  status <- start ;;
  if negb status then
    LOG_ERROR [Str "startup failed!"] ;;
    (fun s => (s, Thrown (RuntimeError "startup of CameraDriver node failed!")))
  else ret tt.

(** ** Vocabulary of the properties *)

(** What the two threads do to the queue: the device pushes a frame, the
    publishing thread pops one. *)
Inductive queue_op : Type :=
| Push (im : ImageConstPtr)
| Pop.

Definition queue_step (s : CameraDriver) (op : queue_op) : CameraDriver :=
  match op with
  | Push im => publishImage im s
  | Pop => fst (run_locked s)
  end.

Definition queue_run (ops : list queue_op) (s : CameraDriver)
    : CameraDriver :=
  fold_left queue_step ops s.

(** The tolerance band in the words of the specification:
    [|v - retV| <= 0.025 * |v + retV|], in double arithmetic. *)
Definition within_tolerance (v retV : float) : bool :=
  PrimFloat.leb (PrimFloat.abs (v - retV))
    (0.025 * PrimFloat.abs (v + retV))%float.

(** Neither side of the tolerance comparison is a NaN. *)
Definition comparison_ordered (v retV : float) : bool :=
  negb (PrimFloat.is_nan (PrimFloat.abs (v - retV)))
  && negb (PrimFloat.is_nan (0.025 * PrimFloat.abs (v + retV))%float).

(** ** The frame queue *)

Lemma publishImage_room (im : ImageConstPtr) (s : CameraDriver) :
  (length (imageQueue_ s) < 2)%nat ->
  publishImage im s = set_imageQueue_ (imageQueue_ s ++ [im]) s.
Proof.
  intros Hlen. unfold publishImage.
  destruct (Nat.ltb_spec (length (imageQueue_ s)) 2) as [_ | Hge];
    [reflexivity | lia].
Qed.

Lemma publishImage_full (im : ImageConstPtr) (s : CameraDriver) :
  (2 <= length (imageQueue_ s))%nat ->
  publishImage im s = set_droppedCount_ (counter_incr (droppedCount_ s)) s.
Proof.
  intros Hlen. unfold publishImage.
  destruct (Nat.ltb_spec (length (imageQueue_ s)) 2) as [Hlt | _];
    [lia | reflexivity].
Qed.

Lemma run_locked_snoc (q : list ImageConstPtr) (f : ImageConstPtr)
    (s : CameraDriver) :
  imageQueue_ s = q ++ [f] ->
  run_locked s = (set_imageQueue_ q s, f).
Proof.
  intros Hq. unfold run_locked. rewrite Hq, last_snoc, removelast_last.
  reflexivity.
Qed.

Lemma run_locked_empty (s : CameraDriver) :
  imageQueue_ s = [] -> run_locked s = (s, None).
Proof. intros Hq. unfold run_locked. rewrite Hq. reflexivity. Qed.

Lemma run_locked_length (s : CameraDriver) :
  (length (imageQueue_ (fst (run_locked s))) <= length (imageQueue_ s))%nat.
Proof.
  destruct (imageQueue_ s) as [| x q] eqn:Hq using rev_ind.
  - rewrite (run_locked_empty s Hq). simpl. rewrite Hq. simpl. lia.
  - rewrite (run_locked_snoc _ _ s Hq). simpl. rewrite length_app. lia.
Qed.

Lemma queue_step_bounded (s : CameraDriver) (op : queue_op) :
  (length (imageQueue_ s) <= 2)%nat ->
  (length (imageQueue_ (queue_step s op)) <= 2)%nat.
Proof.
  intros Hle. destruct op as [im |]; simpl.
  - destruct (Nat.lt_ge_cases (length (imageQueue_ s)) 2) as [Hlt | Hge].
    + rewrite (publishImage_room im s Hlt). simpl. rewrite length_app.
      simpl. lia.
    + rewrite (publishImage_full im s Hge). simpl. exact Hle.
  - pose proof (run_locked_length s). lia.
Qed.

Lemma counter_incr_small (c : Z) :
  0 <= c -> c + 1 < 2 ^ counter_bits -> counter_incr c = c + 1.
Proof. intros H0 H1. unfold counter_incr. apply Z.mod_small. lia. Qed.

(** C4. Whatever the sequence of pushes and pops, a queue that holds at most
    2 frames keeps holding at most 2; a push on a queue that holds 2 leaves
    the resident frames where they are, drops the incoming frame and adds
    one to the drop counter (modulo the counter's width); [publishImage] is
    a total function, it has no wait. *)
Theorem queue_bounded_drop :
  forall (ops : list queue_op) (s : CameraDriver),
    (length (imageQueue_ s) <= 2)%nat ->
    (length (imageQueue_ (queue_run ops s)) <= 2)%nat
    /\ (forall im : ImageConstPtr,
          length (imageQueue_ s) = 2%nat ->
          publishImage im s
          = set_droppedCount_ (counter_incr (droppedCount_ s)) s
          /\ imageQueue_ (publishImage im s) = imageQueue_ s
          /\ (0 <= droppedCount_ s ->
              droppedCount_ s + 1 < 2 ^ counter_bits ->
              droppedCount_ (publishImage im s) = droppedCount_ s + 1)).
Proof.
  intros ops s Hle. split.
  - revert s Hle. unfold queue_run.
    induction ops as [| op ops IH]; intros s Hle; simpl; [exact Hle |].
    apply IH. apply queue_step_bounded. exact Hle.
  - intros im Hfull.
    assert (Hdrop : publishImage im s
                    = set_droppedCount_ (counter_incr (droppedCount_ s)) s)
      by (apply publishImage_full; lia).
    rewrite Hdrop. simpl. repeat split.
    intros H0 H1. apply counter_incr_small; assumption.
Qed.

(** C5. The pop of the publishing thread takes the frame at the back of the
    queue, which is the one pushed last among those still queued: a frame
    pushed on a queue with room is what the next pop returns, and the queue
    is then as before that push.  Pushing F1, F2, F3 on the empty queue with
    drop counter 0 leaves F1, F2 and drop counter 1, and the pop that
    follows returns F2 and leaves F1. *)
Theorem pop_newest_first :
  forall (s : CameraDriver),
    (forall (q : list ImageConstPtr) (f : ImageConstPtr),
        imageQueue_ s = q ++ [f] ->
        run_locked s = (set_imageQueue_ q s, f))
    /\ (forall f : ImageConstPtr,
          (length (imageQueue_ s) < 2)%nat ->
          snd (run_locked (publishImage f s)) = f
          /\ imageQueue_ (fst (run_locked (publishImage f s)))
             = imageQueue_ s)
    /\ (forall F1 F2 F3 : ImageConstPtr,
          imageQueue_ s = [] ->
          droppedCount_ s = 0 ->
          0 < counter_bits ->
          let s3 := publishImage F3 (publishImage F2 (publishImage F1 s)) in
          imageQueue_ s3 = [F1; F2]
          /\ droppedCount_ s3 = 1
          /\ snd (run_locked s3) = F2
          /\ imageQueue_ (fst (run_locked s3)) = [F1]).
Proof.
  intros s. split; [| split].
  - intros q f Hq. apply run_locked_snoc. exact Hq.
  - intros f Hlen. rewrite (publishImage_room f s Hlen).
    rewrite (run_locked_snoc (imageQueue_ s) f); [| reflexivity].
    simpl. split; reflexivity.
  - intros F1 F2 F3 Hq Hd Hbits s3. subst s3.
    assert (Hone : counter_incr 0 = 1).
    { apply counter_incr_small; [lia |].
      assert (2 ^ 1 <= 2 ^ counter_bits) by (apply Z.pow_le_mono_r; lia).
      lia. }
    assert (H1 : publishImage F1 s = set_imageQueue_ [F1] s).
    { rewrite publishImage_room; rewrite Hq; simpl; [reflexivity | lia]. }
    rewrite H1.
    rewrite (publishImage_room F2) by (simpl; lia).
    rewrite (publishImage_full F3) by (simpl; lia).
    rewrite (run_locked_snoc [F1] F2) by reflexivity.
    simpl. rewrite Hd, Hone. repeat split; reflexivity.
Qed.

(** ** Comparisons of doubles *)

Lemma SFltb_negb_SFleb (X Y : spec_float) :
  SFeqb X X = true -> SFeqb Y Y = true -> SFltb Y X = negb (SFleb X Y).
Proof.
  unfold SFeqb, SFltb, SFleb.
  destruct X as [sx | sx | | sx mx ex], Y as [sy | sy | | sy my ey]; simpl;
    try discriminate; intros _ _;
    try (destruct sx; reflexivity); try (destruct sy; reflexivity);
    try (destruct sx, sy; reflexivity).
  destruct sx, sy; try reflexivity;
    rewrite (Z.compare_antisym ex ey); destruct (ex ?= ey); simpl;
    try reflexivity.
  - rewrite (ZC4 my mx).
    destruct (Pos.compare_cont Eq mx my); reflexivity.
  - rewrite (ZC4 my mx).
    destruct (Pos.compare_cont Eq mx my); reflexivity.
Qed.

Lemma SFeqb_refl (X : spec_float) : X <> S754_nan -> SFeqb X X = true.
Proof.
  unfold SFeqb.
  destruct X as [sx | sx | | sx mx ex]; simpl; intros H; try congruence.
  - destruct sx; reflexivity.
  - rewrite Z.compare_refl.
    destruct sx; simpl; rewrite Pos.compare_cont_refl; reflexivity.
Qed.

(** On doubles that are not NaN, [a > b] is the negation of [a <= b]. *)
Lemma gtb_negb_leb (a b : float) :
  PrimFloat.is_nan a = false -> PrimFloat.is_nan b = false ->
  gtb a b = negb (PrimFloat.leb a b).
Proof.
  unfold gtb, PrimFloat.is_nan.
  rewrite !FloatAxioms.eqb_spec, FloatAxioms.ltb_spec, FloatAxioms.leb_spec.
  intros Ha Hb. apply SFltb_negb_SFleb.
  - destruct (SFeqb (Prim2SF a) (Prim2SF a)); [reflexivity | discriminate].
  - destruct (SFeqb (Prim2SF b) (Prim2SF b)); [reflexivity | discriminate].
Qed.

(** A double above some other double is not a NaN, so it equals itself. *)
Lemma gtb_eqb_refl (a b : float) :
  gtb a b = true -> neqb a a = false.
Proof.
  unfold gtb, neqb. rewrite FloatAxioms.ltb_spec, FloatAxioms.eqb_spec.
  intros Hlt.
  rewrite SFeqb_refl; [reflexivity |].
  intros Hnan. rewrite Hnan in Hlt. unfold SFltb in Hlt.
  destruct (Prim2SF b); discriminate.
Qed.

(** ** Frames: what a member function leaves alone *)

(** [s'] differs from [s] at most in the log, the device and the record of
    device calls. *)
Definition only_io_changed (s s' : CameraDriver) : Prop :=
  s' = set_log_stream (log_stream s')
         (set_device_calls (device_calls s') (set_driver_ (driver_ s') s)).

Lemma only_io_changed_refl (s : CameraDriver) : only_io_changed s s.
Proof. unfold only_io_changed. destruct s; reflexivity. Qed.

Lemma only_io_changed_trans (s1 s2 s3 : CameraDriver) :
  only_io_changed s1 s2 -> only_io_changed s2 s3 -> only_io_changed s1 s3.
Proof.
  unfold only_io_changed. intros H12 H23. rewrite H23 at 1.
  rewrite H12 at 1. destruct s1; reflexivity.
Qed.

Lemma only_io_changed_LOG (lvl : Level) (items : list LogItem)
    (s : CameraDriver) :
  only_io_changed s (LOG lvl items s).
Proof. unfold only_io_changed. destruct s; reflexivity. Qed.

(** ** setDouble *)

(** The messages [setDouble] logs after the call returned. *)
Definition setDouble_warnings (nodeName : string) (v : float) (msg : string)
    (retV : float) : list LogEntry :=
  (if negb (String.eqb msg "OK")
   then [(WARN, [Str "setting "; Str nodeName; Str " failed: "; Str msg])]
   else [])
  ++ (if out_of_tolerance v retV
      then [(WARN, [Str nodeName; Str " set to: "; Dbl retV;
                    Str " instead of: "; Dbl v])]
      else []).

Lemma setDouble_returns (nodeName : string) (v : float) (s : CameraDriver)
    (d d' : Device) (msg : string) (retV : float) :
  driver_ s = Some d ->
  Driver_setDouble drv nodeName v d = (d', DevReturn (msg, retV)) ->
  setDouble nodeName v s
  = (set_log_stream
       (log_stream s
        ++ [(INFO, [Str "setting "; Str nodeName; Str " to: "; Dbl v])]
        ++ setDouble_warnings nodeName v msg retV)
       (set_device_calls (device_calls s ++ [CallSetDouble nodeName v])
          (set_driver_ (Some d') s)),
     Returned (String.eqb msg "OK" && negb (out_of_tolerance v retV))).
Proof.
  intros Hd Hcall.
  unfold setDouble, bind, ret, LOG_INFO, LOG_WARN, modify, call_driver,
    setDouble_warnings, LOG.
  simpl. rewrite Hd, Hcall. simpl.
  destruct (String.eqb msg "OK"), (out_of_tolerance v retV); simpl;
    rewrite <- ?app_assoc; reflexivity.
Qed.

Lemma setDouble_throws (nodeName : string) (v : float) (s : CameraDriver)
    (d d' : Device) (what : string) :
  driver_ s = Some d ->
  Driver_setDouble drv nodeName v d = (d', DevThrow what) ->
  setDouble nodeName v s
  = (set_log_stream
       (log_stream s
        ++ [(INFO, [Str "setting "; Str nodeName; Str " to: "; Dbl v])])
       (set_device_calls (device_calls s ++ [CallSetDouble nodeName v])
          (set_driver_ (Some d') s)),
     Thrown (DriverException what)).
Proof.
  intros Hd Hcall.
  unfold setDouble, bind, ret, LOG_INFO, modify, call_driver, LOG.
  simpl. rewrite Hd, Hcall. reflexivity.
Qed.

Lemma setDouble_no_driver (nodeName : string) (v : float)
    (s : CameraDriver) :
  driver_ s = None ->
  setDouble nodeName v s
  = (LOG INFO [Str "setting "; Str nodeName; Str " to: "; Dbl v] s,
     Thrown NullDereference).
Proof.
  intros Hd. unfold setDouble, bind, LOG_INFO, modify, call_driver.
  simpl. rewrite Hd. reflexivity.
Qed.

(** C6, as the code has it.  When the device answers a [setDouble] with a
    message and a value, the setter returns, and it reports success exactly
    when the message is OK and [|v - retV| > 0.025 * |v + retV|] is false in
    double arithmetic.  While neither side of that comparison is a NaN, this
    is the band [|v - retV| <= 0.025 * |v + retV|].  Asking 100.0 and
    reading back 102.4 is in tolerance; reading back 110 is not. *)
Theorem setDouble_verification :
  forall (nodeName : string) (v : float) (s : CameraDriver) (d d' : Device)
         (msg : string) (retV : float),
    driver_ s = Some d ->
    Driver_setDouble drv nodeName v d = (d', DevReturn (msg, retV)) ->
    (snd (setDouble nodeName v s) = Returned true
     <-> msg = "OK" /\ out_of_tolerance v retV = false)
    /\ (snd (setDouble nodeName v s) = Returned true
        \/ snd (setDouble nodeName v s) = Returned false)
    /\ (comparison_ordered v retV = true ->
        (snd (setDouble nodeName v s) = Returned true
         <-> msg = "OK" /\ within_tolerance v retV = true))
    /\ out_of_tolerance 100 102.4 = false
    /\ within_tolerance 100 102.4 = true
    /\ out_of_tolerance 100 110 = true
    /\ within_tolerance 100 110 = false.
Proof.
  intros nodeName v s d d' msg retV Hd Hcall.
  rewrite (setDouble_returns nodeName v s d d' msg retV Hd Hcall). simpl.
  assert (Hiff : Returned (String.eqb msg "OK"
                           && negb (out_of_tolerance v retV))
                 = Returned true
                 <-> msg = "OK" /\ out_of_tolerance v retV = false).
  { split.
    - intros H. injection H as H. apply andb_true_iff in H as [H1 H2].
      apply String.eqb_eq in H1. apply negb_true_iff in H2. auto.
    - intros [H1 H2]. rewrite H2. apply String.eqb_eq in H1. rewrite H1.
      reflexivity. }
  split; [exact Hiff |]. split.
  { destruct (String.eqb msg "OK" && negb (out_of_tolerance v retV));
      [left | right]; reflexivity. }
  split.
  { intros Hord. rewrite Hiff.
    unfold comparison_ordered in Hord.
    apply andb_true_iff in Hord as [Ha Hb].
    apply negb_true_iff in Ha, Hb.
    unfold out_of_tolerance, within_tolerance.
    rewrite (gtb_negb_leb _ _ Ha Hb).
    destruct (PrimFloat.leb _ _); simpl; split; intros [H1 H2];
      first [discriminate | split; [exact H1 | reflexivity]]. }
  repeat split; vm_compute; reflexivity.
Qed.

(** ** printStatus *)


(** ** parameterChanged *)

(** An outcome that a [catch] of [DriverException] turns into a return. *)
Definition benign {A} (r : outcome A) : Prop :=
  match r with
  | Returned _ => True
  | Thrown (DriverException _) => True
  | Thrown _ => False
  end.

(** What a setter called with a driver attached leaves behind. *)
Definition setter_post {A} (s : CameraDriver)
    (res : CameraDriver * outcome A) : Prop :=
  only_io_changed s (fst res)
  /\ is_Some (driver_ (fst res))
  /\ benign (snd res).

Ltac run_monad :=
  unfold bind, ret, gets, modify, LOG_INFO, LOG_WARN, LOG_ERROR,
    call_driver, LOG;
  simpl.

Ltac close_setter_post s :=
  unfold setter_post, only_io_changed; simpl;
  repeat split; try (destruct s; reflexivity); try (eexists; reflexivity).

Lemma setEnum_post (nodeName v : string) (s : CameraDriver) :
  is_Some (driver_ s) -> setter_post s (setEnum nodeName v s).
Proof.
  intros [d Hd]. unfold setEnum. run_monad. rewrite Hd.
  destruct (Driver_setEnum drv nodeName v d) as [d' [[msg retV] | what]];
    simpl; [| close_setter_post s].
  destruct (String.eqb msg "OK"), (String.eqb v retV); simpl;
    close_setter_post s.
Qed.

Lemma setDouble_post (nodeName : string) (v : float) (s : CameraDriver) :
  is_Some (driver_ s) -> setter_post s (setDouble nodeName v s).
Proof.
  intros [d Hd]. unfold setDouble. run_monad. rewrite Hd.
  destruct (Driver_setDouble drv nodeName v d) as [d' [[msg retV] | what]];
    simpl; [| close_setter_post s].
  destruct (String.eqb msg "OK"), (out_of_tolerance v retV); simpl;
    close_setter_post s.
Qed.

Lemma setInt_post (nodeName : string) (v : Z) (s : CameraDriver) :
  is_Some (driver_ s) -> setter_post s (setInt nodeName v s).
Proof.
  intros [d Hd]. unfold setInt. run_monad. rewrite Hd.
  destruct (Driver_setInt drv nodeName v d) as [d' [[msg retV] | what]];
    simpl; [| close_setter_post s].
  destruct (String.eqb msg "OK"), (Z.eqb v retV); simpl;
    close_setter_post s.
Qed.

Lemma setBool_post (nodeName : string) (v : bool) (s : CameraDriver) :
  is_Some (driver_ s) -> setter_post s (setBool nodeName v s).
Proof.
  intros [d Hd]. unfold setBool. run_monad. rewrite Hd.
  destruct (Driver_setBool drv nodeName v d) as [d' [[msg retV] | what]];
    simpl; [| close_setter_post s].
  destruct (String.eqb msg "OK"), (Bool.eqb v retV); simpl;
    close_setter_post s.
Qed.

Lemma bind_ignore_post {A} (m : M CameraDriver A) (s : CameraDriver) :
  setter_post s (m s) ->
  setter_post s ((_ <- m ;; ret tt)%cam s).
Proof.
  unfold setter_post, bind, ret. destruct (m s) as [s' [a | e]]; simpl; auto.
Qed.

Lemma LOG_WARN_post (items : list LogItem) (s : CameraDriver) :
  is_Some (driver_ s) -> setter_post s (LOG_WARN items s).
Proof.
  intros [d Hd]. unfold LOG_WARN, modify. unfold setter_post. simpl.
  split; [apply only_io_changed_LOG |]. split; [| exact I].
  exists d. exact Hd.
Qed.

Lemma setParameter_post (ni : NodeInfo) (p : rclcpp_Parameter)
    (s : CameraDriver) :
  is_Some (driver_ s) -> setter_post s (setParameter ni p s).
Proof.
  intros Hd. unfold setParameter. destruct (type ni).
  - apply LOG_WARN_post. exact Hd.
  - apply bind_ignore_post, setEnum_post. exact Hd.
  - destruct (fst (get_double_int_param p)).
    + apply bind_ignore_post, setDouble_post. exact Hd.
    + apply LOG_WARN_post. exact Hd.
  - destruct (fst (get_double_int_param p)).
    + apply bind_ignore_post, setInt_post. exact Hd.
    + apply LOG_WARN_post. exact Hd.
  - destruct (fst (get_bool_int_param p)).
    + apply bind_ignore_post, setBool_post. exact Hd.
    + apply LOG_WARN_post. exact Hd.
Qed.

(** One turn of the loop returns, whatever the device does, and touches
    nothing but the log, the device and the record of calls; a driver that
    is attached stays attached, an absent one stays absent. *)
Lemma parameterChanged_body_post (p : rclcpp_Parameter) (s : CameraDriver) :
  snd (parameterChanged_body p s) = Returned tt
  /\ only_io_changed s (fst (parameterChanged_body p s))
  /\ (is_Some (driver_ s)
      <-> is_Some (driver_ (fst (parameterChanged_body p s)))).
Proof.
  unfold parameterChanged_body, bind, gets. simpl.
  destruct (parameterMap_ s !! get_name p) as [ni |]; simpl;
    [| split; [reflexivity |];
       split; [apply only_io_changed_refl | apply iff_refl]].
  destruct (driver_ s) as [d |] eqn:Hd; simpl.
  - destruct (is_not_set p); simpl.
    + rewrite Hd.
      split; [reflexivity |].
      split; [apply only_io_changed_refl | apply iff_refl].
    + assert (Hsome : is_Some (driver_ s)) by (exists d; exact Hd).
      pose proof (setParameter_post ni p s Hsome) as (Hio & Hdrv & Hben).
      unfold catch_DriverException.
      destruct (setParameter ni p s) as [s' [[] | e]];
        simpl in Hio, Hdrv, Hben |- *.
      * split; [reflexivity | split; [exact Hio |]].
        split; intros _; [exact Hdrv | eexists; reflexivity].
      * destruct e; try contradiction. unfold LOG_WARN, modify. simpl.
        split; [reflexivity |]. split.
        -- eapply only_io_changed_trans;
             [exact Hio | apply only_io_changed_LOG].
        -- split; intros _; [exact Hdrv | eexists; reflexivity].
  - unfold LOG_WARN, modify. simpl. rewrite Hd.
    split; [reflexivity |]. split; [apply only_io_changed_LOG |].
    split; intros [x Hx]; discriminate.
Qed.

Lemma only_io_changed_parameterMap (s s' : CameraDriver) :
  only_io_changed s s' -> parameterMap_ s' = parameterMap_ s.
Proof. unfold only_io_changed. intros H. rewrite H. reflexivity. Qed.

Lemma parameterChanged_loop_post (params : list rclcpp_Parameter)
    (s : CameraDriver) :
  snd (parameterChanged_loop params s) = Returned tt
  /\ only_io_changed s (fst (parameterChanged_loop params s))
  /\ (is_Some (driver_ s)
      <-> is_Some (driver_ (fst (parameterChanged_loop params s)))).
Proof.
  revert s. induction params as [| p rest IH]; intros s; simpl.
  - split; [reflexivity | split; [apply only_io_changed_refl | tauto]].
  - unfold bind.
    pose proof (parameterChanged_body_post p s) as (Hret & Hio & Hdrv).
    destruct (parameterChanged_body p s) as [s1 r1]. simpl in *. subst r1.
    destruct (IH s1) as (Hret' & Hio' & Hdrv').
    split; [exact Hret' |]. split.
    + eapply only_io_changed_trans; eassumption.
    + tauto.
Qed.

Lemma parameterChanged_loop_app (ps1 ps2 : list rclcpp_Parameter)
    (s : CameraDriver) :
  parameterChanged_loop (ps1 ++ ps2) s
  = parameterChanged_loop ps2 (fst (parameterChanged_loop ps1 s)).
Proof.
  revert s. induction ps1 as [| p rest IH]; intros s; simpl; [reflexivity |].
  unfold bind.
  pose proof (parameterChanged_body_post p s) as (Hret & _).
  destruct (parameterChanged_body p s) as [s1 r1]. simpl in *. subst r1.
  apply IH.
Qed.

Lemma parameterChanged_returns (params : list rclcpp_Parameter)
    (s : CameraDriver) :
  snd (parameterChanged params s)
  = Returned (mkSetParametersResult true "all good!").
Proof.
  unfold parameterChanged, bind, ret.
  pose proof (parameterChanged_loop_post params s) as (Hret & _).
  destruct (parameterChanged_loop params s) as [s' r]. simpl in *.
  subst r. reflexivity.
Qed.

(** C9. For every batch of changed parameters and every state of the node,
    whatever the device answers or throws, [parameterChanged] returns, and
    what it returns is the successful result with reason "all good!". *)
Theorem parameterChanged_always_successful :
  forall (params : list rclcpp_Parameter) (s : CameraDriver),
    snd (parameterChanged params s)
    = Returned (mkSetParametersResult true "all good!")
    /\ exists res : SetParametersResult,
         snd (parameterChanged params s) = Returned res
         /\ successful res = true.
Proof.
  intros params s.
  pose proof (parameterChanged_returns params s) as H.
  split; [exact H |]. eexists. split; [exact H | reflexivity].
Qed.

Lemma is_Some_iff_None {A B} (x : option A) (y : option B) :
  (is_Some x <-> is_Some y) -> (x = None <-> y = None).
Proof.
  intros [Hxy Hyx]. destruct x as [a |], y as [b |]; split; intros E;
    try reflexivity; try discriminate; exfalso.
  - destruct Hxy as [z Hz]; [eexists; reflexivity | discriminate].
  - destruct Hyx as [z Hz]; [eexists; reflexivity | discriminate].
Qed.

(** A parameter the loop passes over: its name is not in [parameterMap_],
    or its type is not set, or no driver is attached. *)
Definition skipped (s : CameraDriver) (p : rclcpp_Parameter) : Prop :=
  parameterMap_ s !! get_name p = None
  \/ is_not_set p = true
  \/ driver_ s = None.

(** C10. Take a batch and a parameter of it that is passed over in the state
    the batch starts from.  When the loop reaches it, its turn returns with
    no call into the device and with every member of the node as it was;
    the one trace is the warning logged when the name is known and the
    driver absent.  The batch is acknowledged as successful. *)
Theorem parameterChanged_skips :
  forall (before after : list rclcpp_Parameter) (p : rclcpp_Parameter)
         (s : CameraDriver),
    skipped s p ->
    let s1 := fst (parameterChanged_loop before s) in
    let s2 := fst (parameterChanged_body p s1) in
    snd (parameterChanged_body p s1) = Returned tt
    /\ device_calls s2 = device_calls s1
    /\ driver_ s2 = driver_ s1
    /\ (s2 = s1
        \/ (is_Some (parameterMap_ s !! get_name p)
            /\ driver_ s = None
            /\ s2 = LOG WARN
                      [Str "got parameter update while driver is not ready!"]
                      s1))
    /\ snd (parameterChanged (before ++ p :: after) s)
       = Returned (mkSetParametersResult true "all good!").
Proof.
  intros before after p s Hskip s1 s2.
  pose proof (parameterChanged_loop_post before s) as (_ & Hio & Hdrv).
  fold s1 in Hio, Hdrv.
  pose proof (only_io_changed_parameterMap s s1 Hio) as Hmap.
  pose proof (is_Some_iff_None _ _ Hdrv) as Hnone.
  split; [apply parameterChanged_body_post |].
  assert (Hcases :
    s2 = s1
    \/ (is_Some (parameterMap_ s !! get_name p)
        /\ driver_ s = None
        /\ s2 = LOG WARN
                  [Str "got parameter update while driver is not ready!"]
                  s1)).
  { subst s2. unfold parameterChanged_body, bind, gets. simpl.
    rewrite Hmap.
    destruct (parameterMap_ s !! get_name p) as [ni |] eqn:Hni; simpl;
      [| left; reflexivity].
    destruct Hskip as [Habs | [Hunset | Hnodrv]]; [congruence | |].
    - destruct (driver_ s1) as [d1 |] eqn:Hd1; simpl.
      + rewrite Hunset. left. reflexivity.
      + right. split; [eexists; reflexivity |]. split; [| reflexivity].
        apply Hnone. reflexivity.
    - rewrite (proj1 Hnone Hnodrv). simpl. right.
      split; [eexists; reflexivity |]. split; [exact Hnodrv | reflexivity]. }
  split; [| split; [| split; [exact Hcases |]]].
  - destruct Hcases as [-> | (_ & _ & ->)]; reflexivity.
  - destruct Hcases as [-> | (_ & _ & ->)]; reflexivity.
  - apply parameterChanged_returns.
Qed.

(** ** readParameterFile *)

(** The warnings of a load: one per malformed line, in file order. *)
Definition malformed_warnings (ls : list string) : list LogEntry :=
  map (fun l => (WARN, [Str "skipping bad camera param line: "; Str l]))
      (List.filter is_malformed ls).

(** The [NodeInfo] built from the first well-formed line, if any, whose
    logical name is [n]. *)
Fixpoint first_info (ls : list string) (n : string) : option NodeInfo :=
  match ls with
  | [] => None
  | l :: rest =>
      match classify_line l with
      | WellFormed logical node kind =>
          if String.eqb logical n
          then Some (NodeInfo_new has_dynamic_typing node kind)
          else first_info rest n
      | _ => first_info rest n
      end
  end.

(** [s'] differs from [s] at most in the registry and the log. *)
Definition only_registry_changed (s s' : CameraDriver) : Prop :=
  s' = set_log_stream (log_stream s')
         (set_parameterList_ (parameterList_ s')
            (set_parameterMap_ (parameterMap_ s') s)).

Lemma readParameterFile_line_class (s : CameraDriver) (l : string) :
  readParameterFile_line s l
  = match classify_line l with
    | Blank | Comment => s
    | Malformed =>
        LOG WARN [Str "skipping bad camera param line: "; Str l] s
    | WellFormed logical node kind =>
        set_parameterList_ (parameterList_ s ++ [logical])
          (set_parameterMap_
             (map_insert_new logical
                (NodeInfo_new has_dynamic_typing node kind)
                (parameterMap_ s)) s)
    end.
Proof.
  unfold readParameterFile_line, classify_line, classify_tokens.
  destruct (quoted_tokens l) as [| t0 [| t1 [| t2 [| t3 r]]]]; simpl;
    try reflexivity; destruct (starts_with_hash t0); reflexivity.
Qed.

Lemma map_insert_new_lookup (k n : string) (v : NodeInfo)
    (m : gmap string NodeInfo) :
  map_insert_new k v m !! n
  = match m !! n with
    | Some ni => Some ni
    | None => if String.eqb k n then Some v else None
    end.
Proof.
  unfold map_insert_new. destruct (String.eqb_spec k n) as [-> | Hne].
  - destruct (m !! n) as [ni |] eqn:Hn.
    + rewrite Hn. reflexivity.
    + rewrite lookup_insert_eq. reflexivity.
  - destruct (m !! k) as [nk |] eqn:Hk.
    + destruct (m !! n); reflexivity.
    + rewrite lookup_insert_ne by exact Hne. destruct (m !! n); reflexivity.
Qed.

Lemma logical_names_cons (l : string) (rest : list string) :
  logical_names (l :: rest)
  = match classify_line l with
    | WellFormed logical _ _ => logical :: logical_names rest
    | _ => logical_names rest
    end.
Proof.
  unfold logical_names. cbn [omap list_omap].
  destruct (classify_line l); reflexivity.
Qed.

Lemma malformed_warnings_cons (l : string) (rest : list string) :
  malformed_warnings (l :: rest)
  = match classify_line l with
    | Malformed =>
        (WARN, [Str "skipping bad camera param line: "; Str l])
          :: malformed_warnings rest
    | _ => malformed_warnings rest
    end.
Proof.
  unfold malformed_warnings, is_malformed. cbn [List.filter].
  destruct (classify_line l); reflexivity.
Qed.

Lemma fold_lines_spec (ls : list string) (s : CameraDriver) :
  let s' := fold_left readParameterFile_line ls s in
  parameterList_ s' = parameterList_ s ++ logical_names ls
  /\ log_stream s' = log_stream s ++ malformed_warnings ls
  /\ (forall n : string,
        parameterMap_ s' !! n
        = match parameterMap_ s !! n with
          | Some ni => Some ni
          | None => first_info ls n
          end)
  /\ only_registry_changed s s'.
Proof.
  revert s. induction ls as [| l rest IH]; intros s; cbn [fold_left].
  - cbn zeta. unfold logical_names, malformed_warnings. simpl.
    rewrite !app_nil_r. repeat split.
    + intros n. destruct (parameterMap_ s !! n); reflexivity.
    + unfold only_registry_changed. destruct s; reflexivity.
  - cbn zeta.
    destruct (IH (readParameterFile_line s l)) as (Hlist & Hlog & Hmap & Hfr).
    cbn zeta in Hlist, Hlog, Hmap, Hfr.
    rewrite logical_names_cons, malformed_warnings_cons.
    split; [| split; [| split]].
    + rewrite Hlist, readParameterFile_line_class.
      destruct (classify_line l); simpl; rewrite <- ?app_assoc; reflexivity.
    + rewrite Hlog, readParameterFile_line_class.
      destruct (classify_line l); simpl; rewrite <- ?app_assoc; reflexivity.
    + intros n. rewrite Hmap, readParameterFile_line_class.
      cbn [first_info].
      destruct (classify_line l) as [| | | logical node kind]; simpl;
        try reflexivity.
      rewrite map_insert_new_lookup.
      destruct (parameterMap_ s !! n); [reflexivity |].
      destruct (String.eqb logical n); reflexivity.
    + unfold only_registry_changed in *. rewrite Hfr at 1.
      rewrite readParameterFile_line_class.
      destruct (classify_line l); destruct s; reflexivity.
Qed.

Lemma logical_names_length (ls : list string) :
  length (logical_names ls) = length (List.filter is_well_formed ls).
Proof.
  induction ls as [| l rest IH]; [reflexivity |].
  rewrite logical_names_cons. cbn [List.filter]. unfold is_well_formed at 1.
  destruct (classify_line l); simpl; rewrite IH; reflexivity.
Qed.

Lemma malformed_warnings_length (ls : list string) :
  length (malformed_warnings ls) = length (List.filter is_malformed ls).
Proof. unfold malformed_warnings. apply length_map. Qed.

Lemma first_info_logical_names (ls : list string) (n : string) :
  n ∈ logical_names ls -> is_Some (first_info ls n).
Proof.
  induction ls as [| l rest IH].
  - intros H. inversion H.
  - rewrite logical_names_cons. cbn [first_info].
    destruct (classify_line l) as [| | | logical node kind]; auto.
    intros H. destruct (String.eqb_spec logical n) as [-> | Hne].
    + eexists. reflexivity.
    + apply IH. inversion H; subst; [congruence | assumption].
Qed.

(** The value [readParameters] gives [debug_]: the host's, or [false] when
    the host threw its type exception; none when the host threw otherwise. *)
Definition resolved_debug : option bool :=
  match host_debug host with
  | Returned b => Some b
  | Thrown (InvalidParameterTypeException _) => Some false
  | Thrown _ => None
  end.

(** What [readParameters] leaves in the members, when it returns. *)
Lemma readParameters_post (s : CameraDriver) :
  (exists s1, readParameters s = (s1, Returned tt)
              /\ parameterFile_ s1 = host_parameter_file host
              /\ serial_ s1 = host_serial_number host
              /\ Some (debug_ s1) = resolved_debug
              /\ computeBrightness_ s1 = host_compute_brightness host
              /\ acquisitionTimeout_ s1 = host_acquisition_timeout host
              /\ keepRunning_ s1 = keepRunning_ s
              /\ driver_ s1 = driver_ s
              /\ thread_ s1 = thread_ s
              /\ cameraRunning_ s1 = cameraRunning_ s
              /\ host_declared s1 = host_declared s
              /\ device_calls s1 = device_calls s)
  \/ (exists s1 e, readParameters s = (s1, Thrown e)
                   /\ host_debug host = Thrown e
                   /\ driver_ s1 = driver_ s
                   /\ thread_ s1 = thread_ s).
Proof.
  unfold readParameters, catch_InvalidParameterType, resolved_debug.
  run_monad.
  destruct (host_debug host) as [b | e]; simpl.
  - left. eexists. repeat split; reflexivity.
  - destruct e; simpl;
      try (right; do 2 eexists; repeat split; reflexivity).
    left. eexists. repeat split; reflexivity.
Qed.

(** ** start *)

(** The device after the three configuration calls of [start]. *)
Definition configured_device (debug computeBrightness : bool)
    (acquisitionTimeout : float) : Device :=
  Driver_setAcquisitionTimeout drv acquisitionTimeout
    (Driver_setComputeBrightness drv computeBrightness
       (Driver_setDebug drv debug (Driver_new drv))).

(** The camera search seen from the device: whether [serial] shows up in
    one of [tries] refreshed camera lists, and the device after the search. *)
Fixpoint search_camera (tries : nat) (serial : string) (d : Device)
    : bool * Device :=
  match tries with
  | O => (false, d)
  | S tries' =>
      let d' := Driver_refreshCameraList drv d in
      if existsb (String.eqb serial) (Driver_getSerialNumbers drv d')
      then (true, d')
      else search_camera tries' serial d'
  end.

Lemma bind_returned {S A B} (m : M S A) (k : A -> M S B) (s s' : S) (a : A) :
  m s = (s', Returned a) -> bind m k s = k a s'.
Proof. intros H. unfold bind. rewrite H. reflexivity. Qed.

Lemma bind_thrown {S A B} (m : M S A) (k : A -> M S B) (s s' : S) (e : exn) :
  m s = (s', Thrown e) -> bind m k s = (s', Thrown e).
Proof. intros H. unfold bind. rewrite H. reflexivity. Qed.

(** [s'] differs from [s] at most in the log. *)
Definition only_log_changed (s s' : CameraDriver) : Prop :=
  s' = set_log_stream (log_stream s') s.

Lemma only_log_changed_LOG (lvl : Level) (items : list LogItem)
    (s : CameraDriver) :
  only_log_changed s (LOG lvl items s).
Proof. unfold only_log_changed. destruct s; reflexivity. Qed.

Lemma only_log_changed_trans (s1 s2 s3 : CameraDriver) :
  only_log_changed s1 s2 -> only_log_changed s2 s3 -> only_log_changed s1 s3.
Proof.
  unfold only_log_changed. intros H12 H23. rewrite H23 at 1.
  rewrite H12 at 1. destruct s1; reflexivity.
Qed.

Lemma log_found_cameras_post (camList : list string) (s : CameraDriver) :
  exists s', log_found_cameras camList s = (s', Returned tt)
             /\ only_log_changed s s'.
Proof.
  revert s. induction camList as [| cam rest IH]; intros s; simpl.
  - exists s. split; [reflexivity |]. unfold only_log_changed.
    destruct s; reflexivity.
  - unfold bind, LOG_WARN, modify. simpl.
    destruct (IH (LOG WARN [Str "found cameras: "; Str cam] s))
      as (s' & Hrun & Hlog).
    exists s'. split; [exact Hrun |].
    eapply only_log_changed_trans; [apply only_log_changed_LOG | exact Hlog].
Qed.

(** [s'] is [s] with another device attached and a longer log. *)
Definition searched (s s' : CameraDriver) (d' : Device) : Prop :=
  s' = set_log_stream (log_stream s') (set_driver_ (Some d') s).

Lemma find_camera_spec (tries : nat) (retry : Z) (s : CameraDriver)
    (d : Device) :
  driver_ s = Some d ->
  exists s',
    find_camera tries retry s
    = (s', Returned (fst (search_camera tries (serial_ s) d)))
    /\ searched s s' (snd (search_camera tries (serial_ s) d)).
Proof.
  revert retry s d. induction tries as [| n IH]; intros retry s d Hd.
  - exists s. simpl. split; [reflexivity |]. unfold searched.
    rewrite <- Hd. destruct s; reflexivity.
  - cbn [find_camera search_camera].
    unfold bind at 1. unfold update_driver at 1. rewrite Hd.
    unfold bind at 1. unfold read_driver at 1. cbn [driver_ set_driver_].
    unfold bind at 1. unfold gets at 1. cbn [serial_ set_driver_].
    destruct (existsb (String.eqb (serial_ s))
                (Driver_getSerialNumbers drv (Driver_refreshCameraList drv d)))
      eqn:Hfound; cbn [negb fst snd].
    + eexists. unfold bind, LOG_INFO, modify, ret. cbn [fst snd].
      split; [reflexivity |]. unfold searched. destruct s; reflexivity.
    + unfold bind at 1. unfold LOG_WARN at 1, modify at 1.
      unfold bind at 1.
      match goal with
      | |- context [log_found_cameras ?l ?st] =>
          destruct (log_found_cameras_post l st) as (s1 & Hrun & Hlog);
          rewrite Hrun
      end.
      assert (Hd1 : driver_ s1 = Some (Driver_refreshCameraList drv d)).
      { unfold only_log_changed in Hlog. rewrite Hlog. reflexivity. }
      assert (Hser : serial_ s1 = serial_ s).
      { unfold only_log_changed in Hlog. rewrite Hlog. reflexivity. }
      destruct (IH (retry + 1) s1 _ Hd1) as (s' & Hfind & Hsearched).
      rewrite Hser in Hfind, Hsearched.
      exists s'. split; [exact Hfind |].
      unfold searched in *. rewrite Hsearched at 1.
      unfold only_log_changed in Hlog. rewrite Hlog.
      destruct s; reflexivity.
Qed.

(** [start] from the camera search on, and the state in which the search
    begins once the parameter file [content] was read in the state [s1] that
    [readParameters] left. *)
Definition start_from_search : M CameraDriver bool :=
  foundCamera <- find_camera (Z.to_nat (6 - 1)) 1 ;;
  if negb foundCamera then
    serial <- gets serial_ ;;
    LOG_ERROR [Str "giving up, camera "; Str serial; Str " not found!"] ;;
    ret false
  else
    modify (set_keepRunning_ true) ;;
    modify (set_thread_ true) ;;
    serial <- gets serial_ ;;
    init_ok <- call_driver (CallInitCamera serial)
                 (Driver_initCamera drv serial) ;;
    (if init_ok then
       dump <- gets dumpNodeMap_ ;;
       (if dump then
          LOG_INFO [Str "dumping node map!"] ;;
          nm <- read_driver (Driver_getNodeMapAsString drv) ;;
          modify (LOG COUT [Str nm])
        else ret tt) ;;
       createCameraParameters ;;
       startCamera
     else
       LOG_ERROR [Str "init camera failed for cam: "; Str serial]) ;;
    ret true.

Definition state_before_search (s1 : CameraDriver) (content : string)
    : CameraDriver :=
  let d0 := configured_device (debug_ s1) (computeBrightness_ s1)
              (acquisitionTimeout_ s1) in
  LOG INFO [Str ("using spinnaker lib version: "
                 +:+ Driver_getLibraryVersion drv d0)]
    (set_driver_ (Some d0)
       (fold_left readParameterFile_line (getlines content) s1)).

Lemma fold_lines_config (ls : list string) (s : CameraDriver) :
  let s' := fold_left readParameterFile_line ls s in
  debug_ s' = debug_ s
  /\ computeBrightness_ s' = computeBrightness_ s
  /\ acquisitionTimeout_ s' = acquisitionTimeout_ s
  /\ serial_ s' = serial_ s
  /\ keepRunning_ s' = keepRunning_ s
  /\ thread_ s' = thread_ s
  /\ cameraRunning_ s' = cameraRunning_ s
  /\ host_declared s' = host_declared s
  /\ device_calls s' = device_calls s
  /\ driver_ s' = driver_ s.
Proof.
  cbn zeta. destruct (fold_lines_spec ls s) as (_ & _ & _ & Hfr).
  cbn zeta in Hfr. unfold only_registry_changed in Hfr. rewrite Hfr.
  repeat split; reflexivity.
Qed.

Lemma start_readable (s s1 : CameraDriver) (content : string) :
  readParameters s = (s1, Returned tt) ->
  read_file (parameterFile_ s1) = Some content ->
  start s = start_from_search (state_before_search s1 content).
Proof.
  intros Hrp Hfile. unfold start.
  rewrite (bind_returned _ _ _ _ _ Hrp).
  unfold bind at 1. unfold readParameterFile. rewrite Hfile. cbn [negb].
  destruct (fold_lines_config (getlines content) s1)
    as (Hdbg & Hcb & Hat & _).
  cbn zeta in Hdbg, Hcb, Hat.
  unfold state_before_search, configured_device.
  rewrite <- Hdbg, <- Hcb, <- Hat.
  set (s2 := fold_left readParameterFile_line (getlines content) s1).
  unfold start_from_search.
  unfold bind at 1, modify at 1.
  unfold bind at 1, gets at 1.
  unfold bind at 1, update_driver at 1. cbn [driver_ set_driver_].
  unfold bind at 1, gets at 1.
  unfold bind at 1, update_driver at 1. cbn [driver_ set_driver_].
  unfold bind at 1, gets at 1.
  unfold bind at 1, update_driver at 1. cbn [driver_ set_driver_].
  unfold bind at 1, read_driver at 1. cbn [driver_ set_driver_].
  unfold bind at 1, LOG_INFO at 1, modify at 1.
  destruct s2; reflexivity.
Qed.

Lemma start_not_readable (s s1 : CameraDriver) :
  readParameters s = (s1, Returned tt) ->
  read_file (parameterFile_ s1) = None ->
  start s
  = (LOG ERROR [Str "cannot read parameter definition file: ";
                Str (parameterFile_ s1)] s1, Returned false).
Proof.
  intros Hrp Hfile. unfold start.
  rewrite (bind_returned _ _ _ _ _ Hrp).
  unfold bind at 1. unfold readParameterFile. rewrite Hfile. reflexivity.
Qed.

Lemma start_from_search_not_found (s : CameraDriver) (d : Device) :
  driver_ s = Some d ->
  fst (search_camera 5 (serial_ s) d) = false ->
  exists s',
    start_from_search s = (s', Returned false)
    /\ keepRunning_ s' = keepRunning_ s
    /\ thread_ s' = thread_ s
    /\ cameraRunning_ s' = cameraRunning_ s
    /\ device_calls s' = device_calls s
    /\ host_declared s' = host_declared s.
Proof.
  intros Hd Hsearch. unfold start_from_search.
  change (Z.to_nat (6 - 1)) with 5%nat.
  destruct (find_camera_spec 5 1 s d Hd) as (s1 & Hfind & Hs1).
  rewrite Hsearch in Hfind.
  rewrite (bind_returned _ _ _ _ _ Hfind). cbn [negb].
  run_monad. eexists. split; [reflexivity |].
  unfold searched in Hs1. rewrite Hs1. repeat split; reflexivity.
Qed.

Lemma start_from_search_init_false (s : CameraDriver) (d d1 d2 : Device) :
  driver_ s = Some d ->
  search_camera 5 (serial_ s) d = (true, d1) ->
  Driver_initCamera drv (serial_ s) d1 = (d2, DevReturn false) ->
  exists s',
    start_from_search s = (s', Returned true)
    /\ keepRunning_ s' = true
    /\ thread_ s' = true
    /\ cameraRunning_ s' = cameraRunning_ s
    /\ host_declared s' = host_declared s
    /\ driver_ s' = Some d2
    /\ device_calls s' = device_calls s ++ [CallInitCamera (serial_ s)]
    /\ last (log_stream s')
       = Some (ERROR, [Str "init camera failed for cam: "; Str (serial_ s)]).
Proof.
  intros Hd Hsearch Hinit. unfold start_from_search.
  change (Z.to_nat (6 - 1)) with 5%nat.
  destruct (find_camera_spec 5 1 s d Hd) as (s1 & Hfind & Hs1).
  rewrite Hsearch in Hfind, Hs1. cbn [fst snd] in Hfind, Hs1.
  rewrite (bind_returned _ _ _ _ _ Hfind). cbn [negb].
  unfold searched in Hs1.
  assert (Hser : serial_ s1 = serial_ s) by (rewrite Hs1; reflexivity).
  assert (Hd1 : driver_ s1 = Some d1) by (rewrite Hs1; reflexivity).
  run_monad. rewrite Hd1, Hser, Hinit. simpl.
  eexists. split; [reflexivity |]. simpl.
  rewrite last_snoc. rewrite Hs1. simpl. repeat split; reflexivity.
Qed.


(** C7, as the code has it.  A readable parameter file never fails the
    load.  A line, as [getline] cuts it, is blank when it yields no token
    (a line that is only an unterminated quoted string is), a comment when
    its first token opens with the hash (quoted or not), well formed when it
    is neither and has three tokens, malformed when it is neither and has
    another number of tokens.  The logical names of the well-formed lines
    are appended to [parameterList_] in file order, as many as there are
    such lines, and each of them is then a key of [parameterMap_], where a
    name bound before keeps its entry and a new name gets the [NodeInfo] of
    the first line that carries it: a repeated name is listed again and
    adds no entry.  Each malformed line is skipped with one warning, blank
    lines and comments without one, and nothing but the registry and the
    log changes.  A file that cannot be opened makes the
    load log an error and return false, and then [start] returns false and
    the constructor throws. *)
Theorem readParameterFile_registers :
  forall (s : CameraDriver),
    (forall content : string,
        read_file (parameterFile_ s) = Some content ->
        let ls := getlines content in
        let s' := fst (readParameterFile s) in
        snd (readParameterFile s) = true
        /\ parameterList_ s' = parameterList_ s ++ logical_names ls
        /\ length (logical_names ls) = length (List.filter is_well_formed ls)
        /\ log_stream s' = log_stream s ++ malformed_warnings ls
        /\ length (malformed_warnings ls)
           = length (List.filter is_malformed ls)
        /\ (forall n : string,
              parameterMap_ s' !! n
              = match parameterMap_ s !! n with
                | Some ni => Some ni
                | None => first_info ls n
                end)
        /\ (forall n : string,
              n ∈ logical_names ls -> is_Some (parameterMap_ s' !! n))
        /\ only_registry_changed s s')
    /\ (read_file (parameterFile_ s) = None ->
        readParameterFile s
        = (LOG ERROR [Str "cannot read parameter definition file: ";
                      Str (parameterFile_ s)] s, false))
    /\ (forall (now : Z) (dbg : bool),
          resolved_debug = Some dbg ->
          read_file (host_parameter_file host) = None ->
          snd (start s) = Returned false
          /\ snd (CameraDriver_new now s)
             = Thrown (RuntimeError "startup of CameraDriver node failed!")
          /\ driver_ (fst (CameraDriver_new now s)) = driver_ s
          /\ thread_ (fst (CameraDriver_new now s)) = thread_ s).
Proof.
  intros s. split; [| split].
  - intros content Hfile ls s'. subst s'.
    unfold readParameterFile. rewrite Hfile. cbn [fst snd]. fold ls.
    destruct (fold_lines_spec ls s) as (Hlist & Hlog & Hmap & Hfr).
    cbn zeta in Hlist, Hlog, Hmap, Hfr.
    split; [reflexivity |]. split; [exact Hlist |].
    split; [apply logical_names_length |]. split; [exact Hlog |].
    split; [apply malformed_warnings_length |]. split; [exact Hmap |].
    split; [| exact Hfr].
    intros n Hn. rewrite Hmap.
    destruct (parameterMap_ s !! n) as [ni |]; [eexists; reflexivity |].
    apply first_info_logical_names. exact Hn.
  - intros Hfile. unfold readParameterFile. rewrite Hfile. reflexivity.
  - intros now dbg Hdbg Hfile.
    assert (Hrun : forall s0 : CameraDriver,
      snd (start s0) = Returned false
      /\ driver_ (fst (start s0)) = driver_ s0
      /\ thread_ (fst (start s0)) = thread_ s0).
    { intros s0.
      destruct (readParameters_post s0)
        as [(s1 & Hrp & Hpf & _ & _ & _ & _ & _ & Hdrv & Hth & _)
           | (s1 & e & Hrp & He & _)].
      - rewrite <- Hpf in Hfile.
        rewrite (start_not_readable s0 s1 Hrp Hfile). simpl.
        repeat split; assumption.
      - exfalso. unfold resolved_debug in Hdbg. rewrite He in Hdbg.
        revert Hrp. unfold readParameters, catch_InvalidParameterType.
        run_monad. rewrite He. destruct e; try discriminate. }
    destruct (Hrun s) as (H1 & _). split; [exact H1 |].
    unfold CameraDriver_new. run_monad.
    destruct (Hrun (set_lastStatusTime_ now s)) as (Hret & Hdrv & Hth).
    destruct (start (set_lastStatusTime_ now s)) as [s' r].
    simpl in Hret, Hdrv, Hth. subst r. simpl.
    repeat split; assumption.
Qed.

(** ** controlCallback *)

(** The two guards of the [try] block. *)
Definition exposure_due (et : Z) (s : CameraDriver) : bool :=
  (0 <? et) && negb (et =? currentExposureTime_ s).

Definition gain_due (gain : float) (s : CameraDriver) : bool :=
  gtb gain float_lowest && neqb gain (currentGain_ s).

(** The [try] block of [controlCallback], run on the locals as the callback
    initialises them. *)
Definition control_try (et : Z) (gain : float) (s : CameraDriver)
    : (CameraDriver * control_locals) * outcome unit :=
  (control_exposure et ;; control_gain gain)%cam
    (s, mkControlLocals false false).

(** The two lines logged after the [try] block. *)
Definition control_report (et : Z) (gain : float) (l : control_locals)
    (s : CameraDriver) : CameraDriver :=
  let s := if logTime l
           then LOG INFO [Str "changed exposure time to "; Num et; Str "us"] s
           else s in
  if logGain l
  then LOG INFO [Str "changed gain to "; Dbl gain; Str "db"] s
  else s.

Definition no_exposure_node : LogEntry :=
  (WARN, [Str "no node name defined for exposure_time, check .cfg file!"]).

Ltac run_locals :=
  unfold lift_locals, set_locals, get_locals, with_locals, bind, ret, gets,
    modify, LOG_INFO, LOG_WARN, LOG_ERROR;
  cbn [fst snd].

Lemma control_exposure_not_due (et : Z) (s : CameraDriver)
    (l : control_locals) :
  exposure_due et s = false ->
  control_exposure et (s, l) = ((s, l), Returned tt).
Proof.
  unfold exposure_due. intros Hdue. unfold control_exposure. run_locals.
  rewrite Hdue. reflexivity.
Qed.

Lemma control_exposure_unregistered (et : Z) (s : CameraDriver)
    (l : control_locals) :
  exposure_due et s = true ->
  parameterMap_ s !! "exposure_time" = None ->
  control_exposure et (s, l)
  = ((set_log_stream (log_stream s ++ [no_exposure_node]) s, l),
     Returned tt).
Proof.
  unfold exposure_due. intros Hdue Hreg. unfold control_exposure.
  run_locals. rewrite Hdue. run_locals. rewrite Hreg. run_locals.
  reflexivity.
Qed.

Lemma control_exposure_applied (et : Z) (s s' : CameraDriver)
    (l : control_locals) (ni : NodeInfo) (status : bool) :
  exposure_due et s = true ->
  parameterMap_ s !! "exposure_time" = Some ni ->
  setDouble (name ni) (Z_to_double et) s = (s', Returned status) ->
  control_exposure et (s, l)
  = ((set_currentExposureTime_ et s', set_logTime true l), Returned tt).
Proof.
  unfold exposure_due. intros Hdue Hreg Hset. unfold control_exposure.
  run_locals. rewrite Hdue. run_locals. rewrite Hreg. run_locals.
  rewrite Hset. reflexivity.
Qed.

Lemma control_exposure_thrown (et : Z) (s s' : CameraDriver)
    (l : control_locals) (ni : NodeInfo) (e : exn) :
  exposure_due et s = true ->
  parameterMap_ s !! "exposure_time" = Some ni ->
  setDouble (name ni) (Z_to_double et) s = (s', Thrown e) ->
  control_exposure et (s, l) = ((s', l), Thrown e).
Proof.
  unfold exposure_due. intros Hdue Hreg Hset. unfold control_exposure.
  run_locals. rewrite Hdue. run_locals. rewrite Hreg. run_locals.
  rewrite Hset. reflexivity.
Qed.

Lemma control_gain_not_due (gain : float) (s : CameraDriver)
    (l : control_locals) :
  gain_due gain s = false ->
  control_gain gain (s, l) = ((s, l), Returned tt).
Proof.
  unfold gain_due. intros Hdue. unfold control_gain. run_locals.
  rewrite Hdue. reflexivity.
Qed.

Lemma control_gain_unregistered (gain : float) (s : CameraDriver)
    (l : control_locals) :
  gain_due gain s = true ->
  parameterMap_ s !! "gain" = None ->
  control_gain gain (s, l)
  = ((set_log_stream (log_stream s ++ [no_exposure_node]) s, l),
     Returned tt).
Proof.
  unfold gain_due. intros Hdue Hreg. unfold control_gain.
  run_locals. rewrite Hdue. run_locals. rewrite Hreg. run_locals.
  reflexivity.
Qed.

Lemma control_gain_applied (gain : float) (s s' : CameraDriver)
    (l : control_locals) (ni : NodeInfo) (status : bool) :
  gain_due gain s = true ->
  parameterMap_ s !! "gain" = Some ni ->
  setDouble (name ni) gain s = (s', Returned status) ->
  control_gain gain (s, l)
  = ((set_currentGain_ gain s', set_logGain true l), Returned tt).
Proof.
  unfold gain_due. intros Hdue Hreg Hset. unfold control_gain.
  run_locals. rewrite Hdue. run_locals. rewrite Hreg. run_locals.
  rewrite Hset. reflexivity.
Qed.

Lemma control_gain_thrown (gain : float) (s s' : CameraDriver)
    (l : control_locals) (ni : NodeInfo) (e : exn) :
  gain_due gain s = true ->
  parameterMap_ s !! "gain" = Some ni ->
  setDouble (name ni) gain s = (s', Thrown e) ->
  control_gain gain (s, l) = ((s', l), Thrown e).
Proof.
  unfold gain_due. intros Hdue Hreg Hset. unfold control_gain.
  run_locals. rewrite Hdue. run_locals. rewrite Hreg. run_locals.
  rewrite Hset. reflexivity.
Qed.

(** [controlCallback] from the outcome of its [try] block. *)
Lemma controlCallback_returned (et : Z) (gain : float)
    (s s1 : CameraDriver) (l1 : control_locals) :
  control_try et gain s = ((s1, l1), Returned tt) ->
  controlCallback et gain s = (control_report et gain l1 s1, Returned tt).
Proof.
  unfold control_try. intros Htry.
  unfold controlCallback, with_locals, catch_DriverException.
  unfold bind at 1. rewrite Htry.
  unfold control_report. destruct l1 as [[] []]; reflexivity.
Qed.

Lemma controlCallback_caught (et : Z) (gain : float)
    (s s1 : CameraDriver) (l1 : control_locals) (what : string) :
  control_try et gain s = ((s1, l1), Thrown (DriverException what)) ->
  controlCallback et gain s
  = (control_report et gain l1
       (LOG WARN [Str "failed to control: "; Str what] s1),
     Returned tt).
Proof.
  unfold control_try. intros Htry.
  unfold controlCallback, with_locals, catch_DriverException.
  unfold bind at 1. rewrite Htry.
  unfold control_report. destruct l1 as [[] []]; reflexivity.
Qed.

(** [setDouble] touches nothing but the log, the device and the record of
    calls, with or without a driver. *)
Lemma setDouble_frame (nodeName : string) (v : float) (s : CameraDriver) :
  only_io_changed s (fst (setDouble nodeName v s)).
Proof.
  destruct (driver_ s) as [d |] eqn:Hd.
  - apply setDouble_post. exists d. exact Hd.
  - rewrite (setDouble_no_driver nodeName v s Hd). apply only_io_changed_LOG.
Qed.

(** The apply of a field is settled in a state: the guard is false or the
    registry lacks the name, so that the next command leaves the device alone
    for that field. *)
Definition exposure_settled (et : Z) (s : CameraDriver) : Prop :=
  exposure_due et s = false \/ parameterMap_ s !! "exposure_time" = None.

Definition gain_settled (gain : float) (s : CameraDriver) : Prop :=
  gain_due gain s = false \/ parameterMap_ s !! "gain" = None.

(** [s'] has the registry, the exposure and the gain of [s], and made no
    device call since. *)
Definition control_unchanged (s s' : CameraDriver) : Prop :=
  parameterMap_ s' = parameterMap_ s
  /\ currentExposureTime_ s' = currentExposureTime_ s
  /\ currentGain_ s' = currentGain_ s
  /\ device_calls s' = device_calls s.

Lemma only_log_control_unchanged (s s' : CameraDriver) :
  only_log_changed s s' -> control_unchanged s s'.
Proof.
  unfold only_log_changed, control_unchanged. intros H. rewrite H.
  repeat split; reflexivity.
Qed.

Lemma exposure_settled_no_write (et : Z) (s : CameraDriver)
    (l : control_locals) :
  exposure_settled et s ->
  exists s', control_exposure et (s, l) = ((s', l), Returned tt)
             /\ control_unchanged s s'.
Proof.
  intros Hset. destruct (exposure_due et s) eqn:Hdue.
  - destruct Hset as [Hf | Hreg]; [congruence |].
    rewrite (control_exposure_unregistered et s l Hdue Hreg).
    eexists. split; [reflexivity |]. repeat split; reflexivity.
  - rewrite (control_exposure_not_due et s l Hdue).
    eexists. split; [reflexivity |]. repeat split; reflexivity.
Qed.

Lemma gain_settled_no_write (gain : float) (s : CameraDriver)
    (l : control_locals) :
  gain_settled gain s ->
  exists s', control_gain gain (s, l) = ((s', l), Returned tt)
             /\ control_unchanged s s'.
Proof.
  intros Hset. destruct (gain_due gain s) eqn:Hdue.
  - destruct Hset as [Hf | Hreg]; [congruence |].
    rewrite (control_gain_unregistered gain s l Hdue Hreg).
    eexists. split; [reflexivity |]. repeat split; reflexivity.
  - rewrite (control_gain_not_due gain s l Hdue).
    eexists. split; [reflexivity |]. repeat split; reflexivity.
Qed.

(** Whatever [control_exposure] does, it keeps the registry and the gain;
    when it returns, the exposure is settled. *)
Lemma control_exposure_outcome (et : Z) (s s' : CameraDriver)
    (l l' : control_locals) (r : outcome unit) :
  control_exposure et (s, l) = ((s', l'), r) ->
  parameterMap_ s' = parameterMap_ s
  /\ currentGain_ s' = currentGain_ s
  /\ (is_Some (driver_ s) -> is_Some (driver_ s') /\ benign r)
  /\ (r = Returned tt -> exposure_settled et s').
Proof.
  intros Hrun. destruct (exposure_due et s) eqn:Hdue.
  - destruct (parameterMap_ s !! "exposure_time") as [ni |] eqn:Hreg.
    + pose proof (setDouble_frame (name ni) (Z_to_double et) s) as Hfr.
      pose proof (setDouble_post (name ni) (Z_to_double et) s) as Hpost.
      destruct (setDouble (name ni) (Z_to_double et) s) as [s2 [b | e]]
        eqn:Hset.
      * rewrite (control_exposure_applied et s s2 l ni b Hdue Hreg Hset)
          in Hrun.
        injection Hrun as <- <- <-.
        unfold only_io_changed in Hfr. simpl in Hfr.
        split; [simpl; rewrite Hfr; reflexivity |].
        split; [simpl; rewrite Hfr; reflexivity |].
        split.
        -- intros Hd. destruct (Hpost Hd) as (_ & Hd2 & _). simpl in Hd2.
           split; [exact Hd2 | exact I].
        -- intros _. left. unfold exposure_due. simpl.
           rewrite Z.eqb_refl. apply andb_false_r.
      * rewrite (control_exposure_thrown et s s2 l ni e Hdue Hreg Hset)
          in Hrun.
        injection Hrun as <- <- <-.
        unfold only_io_changed in Hfr. simpl in Hfr.
        split; [rewrite Hfr; reflexivity |].
        split; [rewrite Hfr; reflexivity |].
        split; [| discriminate].
        intros Hd. destruct (Hpost Hd) as (_ & Hd2 & Hben). simpl in *.
        split; assumption.
    + rewrite (control_exposure_unregistered et s l Hdue Hreg) in Hrun.
      injection Hrun as <- <- <-. simpl.
      repeat split; try reflexivity; try assumption.
      intros _. right. exact Hreg.
  - rewrite (control_exposure_not_due et s l Hdue) in Hrun.
    injection Hrun as <- <- <-.
    repeat split; try reflexivity; try assumption.
    intros _. left. exact Hdue.
Qed.

Lemma control_gain_outcome (gain : float) (s s' : CameraDriver)
    (l l' : control_locals) (r : outcome unit) :
  control_gain gain (s, l) = ((s', l'), r) ->
  parameterMap_ s' = parameterMap_ s
  /\ currentExposureTime_ s' = currentExposureTime_ s
  /\ (is_Some (driver_ s) -> is_Some (driver_ s') /\ benign r)
  /\ (r = Returned tt -> gain_settled gain s').
Proof.
  intros Hrun. destruct (gain_due gain s) eqn:Hdue.
  - destruct (parameterMap_ s !! "gain") as [ni |] eqn:Hreg.
    + pose proof (setDouble_frame (name ni) gain s) as Hfr.
      pose proof (setDouble_post (name ni) gain s) as Hpost.
      destruct (setDouble (name ni) gain s) as [s2 [b | e]] eqn:Hset.
      * rewrite (control_gain_applied gain s s2 l ni b Hdue Hreg Hset)
          in Hrun.
        injection Hrun as <- <- <-.
        unfold only_io_changed in Hfr. simpl in Hfr.
        split; [simpl; rewrite Hfr; reflexivity |].
        split; [simpl; rewrite Hfr; reflexivity |].
        split.
        -- intros Hd. destruct (Hpost Hd) as (_ & Hd2 & _). simpl in Hd2.
           split; [exact Hd2 | exact I].
        -- intros _. left. unfold gain_due in *. simpl.
           apply andb_true_iff in Hdue as [Hgt _].
           rewrite (gtb_eqb_refl _ _ Hgt). apply andb_false_r.
      * rewrite (control_gain_thrown gain s s2 l ni e Hdue Hreg Hset)
          in Hrun.
        injection Hrun as <- <- <-.
        unfold only_io_changed in Hfr. simpl in Hfr.
        split; [rewrite Hfr; reflexivity |].
        split; [rewrite Hfr; reflexivity |].
        split; [| discriminate].
        intros Hd. destruct (Hpost Hd) as (_ & Hd2 & Hben). simpl in *.
        split; assumption.
    + rewrite (control_gain_unregistered gain s l Hdue Hreg) in Hrun.
      injection Hrun as <- <- <-. simpl.
      repeat split; try reflexivity; try assumption.
      intros _. right. exact Hreg.
  - rewrite (control_gain_not_due gain s l Hdue) in Hrun.
    injection Hrun as <- <- <-.
    repeat split; try reflexivity; try assumption.
    intros _. left. exact Hdue.
Qed.

(** The [try] block in two steps. *)
Lemma control_try_steps (et : Z) (gain : float) (s : CameraDriver) :
  control_try et gain s
  = match control_exposure et (s, mkControlLocals false false) with
    | (sl, Returned _) => control_gain gain sl
    | (sl, Thrown e) => (sl, Thrown e)
    end.
Proof. unfold control_try, bind. reflexivity. Qed.

Lemma control_report_log_only (et : Z) (gain : float) (l : control_locals)
    (s : CameraDriver) :
  only_log_changed s (control_report et gain l s).
Proof.
  unfold control_report, only_log_changed.
  destruct (logTime l), (logGain l); destruct s; reflexivity.
Qed.

Lemma control_try_benign (et : Z) (gain : float) (s : CameraDriver) :
  is_Some (driver_ s) -> benign (snd (control_try et gain s)).
Proof.
  intros Hd. rewrite control_try_steps.
  destruct (control_exposure et (s, mkControlLocals false false))
    as [[s1 l1] r1] eqn:Hexp.
  destruct (control_exposure_outcome et s s1 _ l1 r1 Hexp)
    as (_ & _ & Hpost & _).
  destruct (Hpost Hd) as (Hd1 & Hben1).
  destruct r1 as [[] | e]; [| exact Hben1].
  destruct (control_gain gain (s1, l1)) as [[s2 l2] r2] eqn:Hgain.
  destruct (control_gain_outcome gain s1 s2 l1 l2 r2 Hgain)
    as (_ & _ & Hpost2 & _).
  destruct (Hpost2 Hd1) as (_ & Hben2). exact Hben2.
Qed.

(** C1, as the code has it.  With a driver attached, no exception leaves
    [controlCallback].  When the device throws while exposure is applied,
    the exception is caught and logged, the command ends there: the one
    device call of the command is the exposure write, and neither field of
    the control state changes.  When the device throws while gain is
    applied, the exception is caught and logged, and what the exposure apply
    before it did stays done. *)
Theorem controlCallback_exception_handling :
  forall (et : Z) (gain : float) (s : CameraDriver),
    (is_Some (driver_ s) -> snd (controlCallback et gain s) = Returned tt)
    /\ (forall (ni : NodeInfo) (d d' : Device) (what : string),
          exposure_due et s = true ->
          parameterMap_ s !! "exposure_time" = Some ni ->
          driver_ s = Some d ->
          Driver_setDouble drv (name ni) (Z_to_double et) d
          = (d', DevThrow what) ->
          let s' := fst (controlCallback et gain s) in
          snd (controlCallback et gain s) = Returned tt
          /\ device_calls s'
             = device_calls s ++ [CallSetDouble (name ni) (Z_to_double et)]
          /\ currentExposureTime_ s' = currentExposureTime_ s
          /\ currentGain_ s' = currentGain_ s
          /\ log_stream s'
             = log_stream s
               ++ [(INFO, [Str "setting "; Str (name ni); Str " to: ";
                           Dbl (Z_to_double et)]);
                   (WARN, [Str "failed to control: "; Str what])])
    /\ (forall (s1 : CameraDriver) (l1 : control_locals) (ni : NodeInfo)
               (d d' : Device) (what : string),
          control_exposure et (s, mkControlLocals false false)
          = ((s1, l1), Returned tt) ->
          gain_due gain s1 = true ->
          parameterMap_ s1 !! "gain" = Some ni ->
          driver_ s1 = Some d ->
          Driver_setDouble drv (name ni) gain d = (d', DevThrow what) ->
          let s' := fst (controlCallback et gain s) in
          snd (controlCallback et gain s) = Returned tt
          /\ device_calls s'
             = device_calls s1 ++ [CallSetDouble (name ni) gain]
          /\ currentExposureTime_ s' = currentExposureTime_ s1
          /\ currentGain_ s' = currentGain_ s
          /\ In (WARN, [Str "failed to control: "; Str what])
               (log_stream s')).
Proof.
  intros et gain s. split; [| split].
  - intros Hd. pose proof (control_try_benign et gain s Hd) as Hben.
    destruct (control_try et gain s) as [[s1 l1] r] eqn:Htry.
    destruct r as [[] | e].
    + rewrite (controlCallback_returned et gain s s1 l1 Htry). reflexivity.
    + destruct e; try contradiction.
      rewrite (controlCallback_caught et gain s s1 l1 what Htry).
      reflexivity.
  - intros ni d d' what Hdue Hreg Hd Hcall s'. subst s'.
    pose proof (setDouble_throws (name ni) (Z_to_double et) s d d' what
                  Hd Hcall) as Hset.
    pose proof (control_exposure_thrown et s _ (mkControlLocals false false)
                  ni _ Hdue Hreg Hset) as Hexp.
    assert (Htry : control_try et gain s
                   = ((fst (setDouble (name ni) (Z_to_double et) s),
                       mkControlLocals false false),
                      Thrown (DriverException what))).
    { rewrite control_try_steps, Hexp, Hset. reflexivity. }
    rewrite (controlCallback_caught et gain s _ _ what Htry).
    rewrite Hset. simpl. rewrite <- app_assoc. repeat split; reflexivity.
  - intros s1 l1 ni d d' what Hexp Hdue Hreg Hd Hcall s'. subst s'.
    pose proof (setDouble_throws (name ni) gain s1 d d' what Hd Hcall)
      as Hset.
    pose proof (control_gain_thrown gain s1 _ l1 ni _ Hdue Hreg Hset)
      as Hgain.
    assert (Htry : control_try et gain s
                   = ((fst (setDouble (name ni) gain s1), l1),
                      Thrown (DriverException what))).
    { rewrite control_try_steps, Hexp, Hgain, Hset. reflexivity. }
    rewrite (controlCallback_caught et gain s _ _ what Htry).
    destruct (control_exposure_outcome et s s1 _ l1 _ Hexp)
      as (_ & Hg & _).
    rewrite Hset. cbn [fst snd].
    split; [reflexivity |].
    unfold control_report.
    destruct (logTime l1), (logGain l1); simpl; rewrite Hg;
      repeat split; try reflexivity;
      rewrite ?in_app_iff; simpl; auto 10.
Qed.

(** C3, as the code has it.  Exposure is applied only when
    [exposureTimeUs > 0] and it differs from [currentExposureTime_]; gain
    only when it is above the lowest float and differs from [currentGain_]:
    a field whose guard is false leaves state and device as they are.  The
    field of the control state is set whenever the [setDouble] call returns,
    whatever message and value the device reported, and is left alone when
    the call throws or the registry lacks the name.  After a command whose
    [try] block ended without exception, the same command again makes no
    device call. *)
Theorem controlCallback_apply_on_change :
  forall (et : Z) (gain : float) (s : CameraDriver) (l : control_locals),
    (exposure_due et s = true <-> 0 < et /\ et <> currentExposureTime_ s)
    /\ (gain_due gain s = true
        <-> gtb gain float_lowest = true /\ neqb gain (currentGain_ s) = true)
    /\ (exposure_due et s = false ->
        control_exposure et (s, l) = ((s, l), Returned tt))
    /\ (gain_due gain s = false ->
        control_gain gain (s, l) = ((s, l), Returned tt))
    /\ (exposure_due et s = false -> gain_due gain s = false ->
        controlCallback et gain s = (s, Returned tt))
    /\ (forall (ni : NodeInfo) (d d' : Device) (msg : string) (retV : float),
          exposure_due et s = true ->
          parameterMap_ s !! "exposure_time" = Some ni ->
          driver_ s = Some d ->
          Driver_setDouble drv (name ni) (Z_to_double et) d
          = (d', DevReturn (msg, retV)) ->
          snd (control_exposure et (s, l)) = Returned tt
          /\ currentExposureTime_ (fst (fst (control_exposure et (s, l))))
             = et)
    /\ (forall (ni : NodeInfo) (d d' : Device) (msg : string) (retV : float),
          gain_due gain s = true ->
          parameterMap_ s !! "gain" = Some ni ->
          driver_ s = Some d ->
          Driver_setDouble drv (name ni) gain d
          = (d', DevReturn (msg, retV)) ->
          snd (control_gain gain (s, l)) = Returned tt
          /\ currentGain_ (fst (fst (control_gain gain (s, l)))) = gain)
    /\ (forall (ni : NodeInfo) (d d' : Device) (what : string),
          parameterMap_ s !! "exposure_time" = Some ni ->
          driver_ s = Some d ->
          Driver_setDouble drv (name ni) (Z_to_double et) d
          = (d', DevThrow what) ->
          currentExposureTime_ (fst (fst (control_exposure et (s, l))))
          = currentExposureTime_ s)
    /\ (forall (ni : NodeInfo) (d d' : Device) (what : string),
          parameterMap_ s !! "gain" = Some ni ->
          driver_ s = Some d ->
          Driver_setDouble drv (name ni) gain d = (d', DevThrow what) ->
          currentGain_ (fst (fst (control_gain gain (s, l))))
          = currentGain_ s)
    /\ (parameterMap_ s !! "exposure_time" = None ->
        control_unchanged s (fst (fst (control_exposure et (s, l)))))
    /\ (parameterMap_ s !! "gain" = None ->
        control_unchanged s (fst (fst (control_gain gain (s, l)))))
    /\ (snd (control_try et gain s) = Returned tt ->
        let s1 := fst (controlCallback et gain s) in
        snd (controlCallback et gain s1) = Returned tt
        /\ device_calls (fst (controlCallback et gain s1))
           = device_calls s1).
Proof.
  intros et gain s l.
  split.
  { unfold exposure_due. rewrite andb_true_iff, negb_true_iff.
    rewrite Z.ltb_lt, Z.eqb_neq. apply iff_refl. }
  split.
  { unfold gain_due. rewrite andb_true_iff. apply iff_refl. }
  split; [apply control_exposure_not_due |].
  split; [apply control_gain_not_due |].
  split.
  { intros He Hg.
    assert (Htry : control_try et gain s
                   = ((s, mkControlLocals false false), Returned tt)).
    { rewrite control_try_steps.
      rewrite (control_exposure_not_due et s _ He).
      apply control_gain_not_due. exact Hg. }
    rewrite (controlCallback_returned et gain s _ _ Htry). reflexivity. }
  split.
  { intros ni d d' msg retV Hdue Hreg Hd Hcall.
    pose proof (setDouble_returns (name ni) (Z_to_double et) s d d' msg retV
                  Hd Hcall) as Hset.
    rewrite (control_exposure_applied et s _ l ni _ Hdue Hreg Hset).
    split; reflexivity. }
  split.
  { intros ni d d' msg retV Hdue Hreg Hd Hcall.
    pose proof (setDouble_returns (name ni) gain s d d' msg retV Hd Hcall)
      as Hset.
    rewrite (control_gain_applied gain s _ l ni _ Hdue Hreg Hset).
    split; reflexivity. }
  split.
  { intros ni d d' what Hreg Hd Hcall.
    destruct (exposure_due et s) eqn:Hdue.
    - pose proof (setDouble_throws (name ni) (Z_to_double et) s d d' what
                    Hd Hcall) as Hset.
      rewrite (control_exposure_thrown et s _ l ni _ Hdue Hreg Hset).
      reflexivity.
    - rewrite (control_exposure_not_due et s l Hdue). reflexivity. }
  split.
  { intros ni d d' what Hreg Hd Hcall.
    destruct (gain_due gain s) eqn:Hdue.
    - pose proof (setDouble_throws (name ni) gain s d d' what Hd Hcall)
        as Hset.
      rewrite (control_gain_thrown gain s _ l ni _ Hdue Hreg Hset).
      reflexivity.
    - rewrite (control_gain_not_due gain s l Hdue). reflexivity. }
  split.
  { intros Hreg.
    destruct (exposure_settled_no_write et s l (or_intror Hreg))
      as (s' & Hrun & Hun).
    rewrite Hrun. exact Hun. }
  split.
  { intros Hreg.
    destruct (gain_settled_no_write gain s l (or_intror Hreg))
      as (s' & Hrun & Hun).
    rewrite Hrun. exact Hun. }
  intros Hok s1. subst s1.
  destruct (control_try et gain s) as [[sb lb] r] eqn:Htry.
  simpl in Hok. subst r.
  rewrite (controlCallback_returned et gain s sb lb Htry). cbn [fst].
  rewrite control_try_steps in Htry.
  destruct (control_exposure et (s, mkControlLocals false false))
    as [[sa la] ra] eqn:Hexp.
  destruct ra as [[] | e]; [| discriminate].
  destruct (control_exposure_outcome et s sa _ la _ Hexp)
    as (_ & _ & _ & Hsettled_e).
  destruct (control_gain_outcome gain sa sb la lb _ Htry)
    as (Hmap_b & Hexp_b & _ & Hsettled_g).
  specialize (Hsettled_e eq_refl). specialize (Hsettled_g eq_refl).
  set (s2 := control_report et gain lb sb).
  pose proof (only_log_control_unchanged sb s2
                (control_report_log_only et gain lb sb))
    as (Hmap2 & Hexp2 & Hgain2 & Hcalls2).
  assert (Hset_e2 : exposure_settled et s2).
  { unfold exposure_settled, exposure_due in *.
    rewrite Hmap2, Hexp2, Hmap_b, Hexp_b. exact Hsettled_e. }
  assert (Hset_g2 : gain_settled gain s2).
  { unfold gain_settled, gain_due in *.
    rewrite Hmap2, Hgain2. exact Hsettled_g. }
  destruct (exposure_settled_no_write et s2 (mkControlLocals false false)
              Hset_e2) as (s3 & Hrun3 & Hmap3 & Hexp3 & Hgain3 & Hcalls3).
  assert (Hset_g3 : gain_settled gain s3).
  { unfold gain_settled, gain_due in *. rewrite Hmap3, Hgain3.
    exact Hset_g2. }
  destruct (gain_settled_no_write gain s3 (mkControlLocals false false)
              Hset_g3) as (s4 & Hrun4 & Hmap4 & Hexp4 & Hgain4 & Hcalls4).
  assert (Htry2 : control_try et gain s2
                  = ((s4, mkControlLocals false false), Returned tt)).
  { rewrite control_try_steps, Hrun3. exact Hrun4. }
  rewrite (controlCallback_returned et gain s2 _ _ Htry2).
  split; [reflexivity |].
  unfold control_report. cbn [fst logTime logGain].
  rewrite Hcalls4, Hcalls3. reflexivity.
Qed.

(** ** The setters with exact verification *)

Lemma setEnum_returns (nodeName v : string) (s : CameraDriver)
    (d d' : Device) (msg retV : string) :
  driver_ s = Some d ->
  Driver_setEnum drv nodeName v d = (d', DevReturn (msg, retV)) ->
  snd (setEnum nodeName v s)
  = Returned (String.eqb msg "OK" && String.eqb v retV)
  /\ device_calls (fst (setEnum nodeName v s))
     = device_calls s ++ [CallSetEnum nodeName v]
  /\ driver_ (fst (setEnum nodeName v s)) = Some d'.
Proof.
  intros Hd Hcall. unfold setEnum. run_monad. rewrite Hd, Hcall. simpl.
  destruct (String.eqb msg "OK"), (String.eqb v retV); simpl;
    repeat split; reflexivity.
Qed.

Lemma setInt_returns (nodeName : string) (v : Z) (s : CameraDriver)
    (d d' : Device) (msg : string) (retV : Z) :
  driver_ s = Some d ->
  Driver_setInt drv nodeName v d = (d', DevReturn (msg, retV)) ->
  snd (setInt nodeName v s)
  = Returned (String.eqb msg "OK" && Z.eqb v retV)
  /\ device_calls (fst (setInt nodeName v s))
     = device_calls s ++ [CallSetInt nodeName v]
  /\ driver_ (fst (setInt nodeName v s)) = Some d'.
Proof.
  intros Hd Hcall. unfold setInt. run_monad. rewrite Hd, Hcall. simpl.
  destruct (String.eqb msg "OK"), (Z.eqb v retV); simpl;
    repeat split; reflexivity.
Qed.

Lemma setBool_returns (nodeName : string) (v : bool) (s : CameraDriver)
    (d d' : Device) (msg : string) (retV : bool) :
  driver_ s = Some d ->
  Driver_setBool drv nodeName v d = (d', DevReturn (msg, retV)) ->
  snd (setBool nodeName v s)
  = Returned (String.eqb msg "OK" && Bool.eqb v retV)
  /\ device_calls (fst (setBool nodeName v s))
     = device_calls s ++ [CallSetBool nodeName v]
  /\ driver_ (fst (setBool nodeName v s)) = Some d'.
Proof.
  intros Hd Hcall. unfold setBool. run_monad. rewrite Hd, Hcall. simpl.
  destruct (String.eqb msg "OK"), (Bool.eqb v retV); simpl;
    repeat split; reflexivity.
Qed.

(** X1. When the device answers a [setEnum], the setter returns (it does not
    throw on a mismatch), makes that one device call, and reports success
    exactly when the message is OK and the value read back is the string
    that was asked for. *)
Theorem setEnum_exact_verification :
  forall (nodeName v : string) (s : CameraDriver) (d d' : Device)
         (msg retV : string),
    driver_ s = Some d ->
    Driver_setEnum drv nodeName v d = (d', DevReturn (msg, retV)) ->
    (snd (setEnum nodeName v s) = Returned true <-> msg = "OK" /\ retV = v)
    /\ (snd (setEnum nodeName v s) = Returned false
        <-> msg <> "OK" \/ retV <> v)
    /\ device_calls (fst (setEnum nodeName v s))
       = device_calls s ++ [CallSetEnum nodeName v].
Proof.
  intros nodeName v s d d' msg retV Hd Hcall.
  destruct (setEnum_returns nodeName v s d d' msg retV Hd Hcall)
    as (Hret & Hcalls & _).
  rewrite Hret. split; [| split; [| exact Hcalls]].
  - destruct (String.eqb_spec msg "OK") as [Hm | Hm],
             (String.eqb_spec v retV) as [Hv | Hv]; simpl; split;
      try (intros [H1 H2]); try (intros H); try discriminate;
      try reflexivity; try (split; [assumption | symmetry; assumption]);
      exfalso; auto.
  - destruct (String.eqb_spec msg "OK") as [Hm | Hm],
             (String.eqb_spec v retV) as [Hv | Hv]; simpl; split;
      try (intros [H1 | H2]); try (intros H); try discriminate;
      try reflexivity; auto; exfalso; auto.
Qed.

(** X2. When the device answers a [setInt], the setter returns, makes that
    one device call, and reports success exactly when the message is OK and
    the integer read back equals the one asked for: there is no tolerance. *)
Theorem setInt_exact_verification :
  forall (nodeName : string) (v : Z) (s : CameraDriver) (d d' : Device)
         (msg : string) (retV : Z),
    driver_ s = Some d ->
    Driver_setInt drv nodeName v d = (d', DevReturn (msg, retV)) ->
    (snd (setInt nodeName v s) = Returned true <-> msg = "OK" /\ retV = v)
    /\ (snd (setInt nodeName v s) = Returned false
        <-> msg <> "OK" \/ retV <> v)
    /\ device_calls (fst (setInt nodeName v s))
       = device_calls s ++ [CallSetInt nodeName v].
Proof.
  intros nodeName v s d d' msg retV Hd Hcall.
  destruct (setInt_returns nodeName v s d d' msg retV Hd Hcall)
    as (Hret & Hcalls & _).
  rewrite Hret. split; [| split; [| exact Hcalls]].
  - destruct (String.eqb_spec msg "OK") as [Hm | Hm],
             (Z.eqb_spec v retV) as [Hv | Hv]; simpl; split;
      try (intros [H1 H2]); try (intros H); try discriminate;
      try reflexivity; try (split; [assumption | symmetry; assumption]);
      exfalso; auto.
  - destruct (String.eqb_spec msg "OK") as [Hm | Hm],
             (Z.eqb_spec v retV) as [Hv | Hv]; simpl; split;
      try (intros [H1 | H2]); try (intros H); try discriminate;
      try reflexivity; auto; exfalso; auto.
Qed.

(** X3. When the device answers a [setBool], the setter returns, makes that
    one device call, and reports success exactly when the message is OK and
    the flag read back is the one asked for; so asking [true] and reading
    back [false] always fails. *)
Theorem setBool_exact_verification :
  forall (nodeName : string) (v : bool) (s : CameraDriver) (d d' : Device)
         (msg : string) (retV : bool),
    driver_ s = Some d ->
    Driver_setBool drv nodeName v d = (d', DevReturn (msg, retV)) ->
    (snd (setBool nodeName v s) = Returned true <-> msg = "OK" /\ retV = v)
    /\ (retV = negb v -> snd (setBool nodeName v s) = Returned false)
    /\ device_calls (fst (setBool nodeName v s))
       = device_calls s ++ [CallSetBool nodeName v].
Proof.
  intros nodeName v s d d' msg retV Hd Hcall.
  destruct (setBool_returns nodeName v s d d' msg retV Hd Hcall)
    as (Hret & Hcalls & _).
  rewrite Hret. split; [| split; [| exact Hcalls]].
  - destruct (String.eqb_spec msg "OK") as [Hm | Hm]; destruct v, retV;
      simpl; split; try (intros [H1 H2]); try (intros H);
      try discriminate; try reflexivity; try (split; [assumption |]);
      try reflexivity; exfalso; auto.
  - intros ->. destruct (String.eqb msg "OK"), v; reflexivity.
Qed.

(** ** setParameter: which values reach the device *)

(** The value types a kind of setting takes: a float or an int setting takes
    a double or an integer, a bool setting a boolean or an integer, an enum
    setting anything; a setting of no valid kind takes nothing. *)
Definition accepts (k : NodeType) (t : ParameterType) : bool :=
  match k, t with
  | ENUM, _ => true
  | FLOAT, PARAMETER_DOUBLE | FLOAT, PARAMETER_INTEGER => true
  | INT, PARAMETER_DOUBLE | INT, PARAMETER_INTEGER => true
  | BOOL, PARAMETER_BOOL | BOOL, PARAMETER_INTEGER => true
  | _, _ => false
  end.

Lemma setEnum_records (nodeName v : string) (s : CameraDriver) :
  is_Some (driver_ s) ->
  device_calls (fst (setEnum nodeName v s))
  = device_calls s ++ [CallSetEnum nodeName v].
Proof.
  intros [d Hd]. unfold setEnum. run_monad. rewrite Hd.
  destruct (Driver_setEnum drv nodeName v d) as [d' [[msg retV] | what]];
    simpl; [| reflexivity].
  destruct (String.eqb msg "OK"), (String.eqb v retV); reflexivity.
Qed.

Lemma setDouble_records (nodeName : string) (v : float) (s : CameraDriver) :
  is_Some (driver_ s) ->
  device_calls (fst (setDouble nodeName v s))
  = device_calls s ++ [CallSetDouble nodeName v].
Proof.
  intros [d Hd]. unfold setDouble. run_monad. rewrite Hd.
  destruct (Driver_setDouble drv nodeName v d) as [d' [[msg retV] | what]];
    simpl; [| reflexivity].
  destruct (String.eqb msg "OK"), (out_of_tolerance v retV); reflexivity.
Qed.

Lemma setInt_records (nodeName : string) (v : Z) (s : CameraDriver) :
  is_Some (driver_ s) ->
  device_calls (fst (setInt nodeName v s))
  = device_calls s ++ [CallSetInt nodeName v].
Proof.
  intros [d Hd]. unfold setInt. run_monad. rewrite Hd.
  destruct (Driver_setInt drv nodeName v d) as [d' [[msg retV] | what]];
    simpl; [| reflexivity].
  destruct (String.eqb msg "OK"), (Z.eqb v retV); reflexivity.
Qed.

Lemma setBool_records (nodeName : string) (v : bool) (s : CameraDriver) :
  is_Some (driver_ s) ->
  device_calls (fst (setBool nodeName v s))
  = device_calls s ++ [CallSetBool nodeName v].
Proof.
  intros [d Hd]. unfold setBool. run_monad. rewrite Hd.
  destruct (Driver_setBool drv nodeName v d) as [d' [[msg retV] | what]];
    simpl; [| reflexivity].
  destruct (String.eqb msg "OK"), (Bool.eqb v retV); reflexivity.
Qed.

Lemma bind_ignore_fst {A} (m : M CameraDriver A) (s : CameraDriver) :
  fst ((_ <- m ;; ret tt)%cam s) = fst (m s).
Proof. unfold bind, ret. destruct (m s) as [s' [a | e]]; reflexivity. Qed.

(** X4. A value whose type the kind of the setting does not take, and any
    value for a setting of no valid kind, never reaches the device:
    [setParameter] returns with one warning logged and the node otherwise as
    it was, with or without a driver attached. *)
Theorem setParameter_rejects_mismatch :
  forall (ni : NodeInfo) (p : rclcpp_Parameter) (s : CameraDriver),
    accepts (type ni) (get_type p) = false ->
    exists items : list LogItem,
      setParameter ni p s = (LOG WARN items s, Returned tt).
Proof.
  intros ni p s Hacc. unfold setParameter, get_double_int_param,
    get_bool_int_param, get_type in *.
  destruct (type ni); simpl in Hacc;
    destruct (get_parameter_value p); simpl in Hacc; try discriminate;
    simpl; eexists; reflexivity.
Qed.

(** X5. With a driver attached, a value of a type the setting takes makes
    exactly one device call, recorded whether the device then answers or
    throws: a float setting is written with the double itself or with the
    integer converted to double, an int setting with the double converted to
    int (an integer goes through double first), a bool setting with the
    boolean or with "integer is not 0", an enum setting with the rendering
    of the value stripped of its quote characters.  Any other value makes no
    device call. *)
Theorem setParameter_coercion :
  forall (ni : NodeInfo) (p : rclcpp_Parameter) (s : CameraDriver),
    is_Some (driver_ s) ->
    device_calls (fst (setParameter ni p s))
    = device_calls s
      ++ match type ni, get_parameter_value p with
         | ENUM, _ =>
             [CallSetEnum (name ni) (remove_quotes (value_to_string p))]
         | FLOAT, PV_double d => [CallSetDouble (name ni) d]
         | FLOAT, PV_integer i => [CallSetDouble (name ni) (Z_to_double i)]
         | INT, PV_double d => [CallSetInt (name ni) (double_to_int d)]
         | INT, PV_integer i =>
             [CallSetInt (name ni) (double_to_int (Z_to_double i))]
         | BOOL, PV_bool b => [CallSetBool (name ni) b]
         | BOOL, PV_integer i => [CallSetBool (name ni) (negb (Z.eqb i 0))]
         | _, _ => []
         end.
Proof.
  intros ni p s Hd. unfold setParameter, get_double_int_param,
    get_bool_int_param.
  destruct (type ni); destruct (get_parameter_value p);
    cbn [fst snd]; rewrite ?bind_ignore_fst;
    first [ apply setEnum_records; exact Hd
          | apply setDouble_records; exact Hd
          | apply setInt_records; exact Hd
          | apply setBool_records; exact Hd
          | simpl; rewrite app_nil_r; reflexivity ].
Qed.

(** ** The queue under bursts, drains and shutdown *)

(** The device delivers the frames [fs], one [publishImage] each. *)
Definition push_all (fs : list ImageConstPtr) (s : CameraDriver)
    : CameraDriver :=
  fold_left (fun s f => publishImage f s) fs s.

(** [n] turns of the locked section of [run]: the frames taken, in the order
    they are taken. *)
Fixpoint pop_all (n : nat) (s : CameraDriver)
    : CameraDriver * list ImageConstPtr :=
  match n with
  | O => (s, [])
  | S n' =>
      let '(s1, f) := run_locked s in
      let '(s2, fs) := pop_all n' s1 in
      (s2, f :: fs)
  end.

Lemma counter_incr_iter (n : nat) (c : Z) :
  0 <= c < 2 ^ counter_bits ->
  Nat.iter n counter_incr c = (c + Z.of_nat n) mod 2 ^ counter_bits.
Proof.
  intros Hc. induction n as [| n IH].
  - simpl. rewrite Z.add_0_r. symmetry. apply Z.mod_small. exact Hc.
  - rewrite Nat.iter_succ, IH. unfold counter_incr.
    rewrite Zplus_mod_idemp_l. f_equal. lia.
Qed.

Lemma push_all_full (fs : list ImageConstPtr) (s : CameraDriver) :
  length (imageQueue_ s) = 2%nat ->
  push_all fs s
  = set_droppedCount_ (Nat.iter (length fs) counter_incr (droppedCount_ s)) s.
Proof.
  revert s. induction fs as [| f fs IH]; intros s Hlen.
  - simpl. destruct s; reflexivity.
  - cbn [push_all fold_left]. fold (push_all fs (publishImage f s)).
    rewrite (publishImage_full f s) by lia.
    rewrite IH by (simpl; exact Hlen). simpl.
    rewrite <- Nat.iter_succ_r. destruct s; reflexivity.
Qed.

(** X6. A burst of frames delivered to the empty queue while the publishing
    thread takes none: the first two frames of the burst are queued, in
    order, each later frame is dropped, and the drop counter advances by one
    per dropped frame, modulo its width. *)
Theorem push_all_keeps_first_two :
  forall (fs : list ImageConstPtr) (s : CameraDriver),
    imageQueue_ s = [] ->
    imageQueue_ (push_all fs s) = take 2 fs
    /\ droppedCount_ (push_all fs s)
       = Nat.iter (length fs - 2) counter_incr (droppedCount_ s)
    /\ (0 <= droppedCount_ s < 2 ^ counter_bits ->
        droppedCount_ (push_all fs s)
        = (droppedCount_ s + Z.of_nat (length fs - 2)) mod 2 ^ counter_bits).
Proof.
  intros fs s Hq.
  assert (Hmain : imageQueue_ (push_all fs s) = take 2 fs
                  /\ droppedCount_ (push_all fs s)
                     = Nat.iter (length fs - 2) counter_incr
                         (droppedCount_ s)).
  { destruct fs as [| f1 [| f2 rest]].
    - simpl. rewrite Hq. split; reflexivity.
    - cbn [push_all fold_left].
      rewrite publishImage_room by (rewrite Hq; simpl; lia).
      rewrite Hq. split; reflexivity.
    - cbn [push_all fold_left].
      fold (push_all rest (publishImage f2 (publishImage f1 s))).
      rewrite (publishImage_room f1) by (rewrite Hq; simpl; lia).
      rewrite (publishImage_room f2) by (simpl; rewrite Hq; simpl; lia).
      rewrite push_all_full by (simpl; rewrite Hq; reflexivity).
      simpl. rewrite Hq, Nat.sub_0_r. split; reflexivity. }
  destruct Hmain as (Hqueue & Hdrop).
  split; [exact Hqueue |]. split; [exact Hdrop |].
  intros Hrange. rewrite Hdrop. apply counter_incr_iter. exact Hrange.
Qed.

Lemma pop_all_snoc (q : list ImageConstPtr) (s : CameraDriver) :
  imageQueue_ s = q ->
  pop_all (length q) s = (set_imageQueue_ [] s, rev q).
Proof.
  revert s. induction q as [| f q IH] using rev_ind; intros s Hq.
  - simpl. rewrite <- Hq. destruct s; reflexivity.
  - rewrite length_app, Nat.add_comm. cbn [length Nat.add pop_all].
    rewrite (run_locked_snoc q f s Hq).
    rewrite (IH (set_imageQueue_ q s)) by reflexivity.
    rewrite rev_unit. destruct s; reflexivity.
Qed.

(** X7. Draining the queue: as many turns of the publishing thread as there
    are queued frames take them newest first, that is in the reverse of the
    order in which they were queued, and leave the queue empty with every
    other member untouched. *)
Theorem pop_all_reverses :
  forall (s : CameraDriver),
    pop_all (length (imageQueue_ s)) s
    = (set_imageQueue_ [] s, rev (imageQueue_ s)).
Proof. intros s. apply pop_all_snoc. reflexivity. Qed.

(** ** The camera search, try by try *)

(** Whether [serial] is in the camera list of the device, and the device
    after [k] refreshes of that list. *)
Definition camera_listed (serial : string) (d : Device) : bool :=
  existsb (String.eqb serial) (Driver_getSerialNumbers drv d).

Definition refreshed (k : nat) (d : Device) : Device :=
  Nat.iter k (Driver_refreshCameraList drv) d.

Lemma refreshed_succ_r (k : nat) (d : Device) :
  refreshed (S k) d = refreshed k (Driver_refreshCameraList drv d).
Proof. unfold refreshed. apply Nat.iter_succ_r. Qed.

Lemma search_camera_found (serial : string) (n k : nat) (d : Device) :
  (1 <= k <= n)%nat ->
  camera_listed serial (refreshed k d) = true ->
  (forall j : nat, (1 <= j < k)%nat ->
                   camera_listed serial (refreshed j d) = false) ->
  search_camera n serial d = (true, refreshed k d).
Proof.
  revert k d. induction n as [| n IH]; intros k d Hk Hyes Hno; [lia |].
  cbn [search_camera]. fold (camera_listed serial
                               (Driver_refreshCameraList drv d)).
  destruct (Nat.eq_dec k 1%nat) as [-> | Hk1].
  - change (refreshed 1%nat d) with (Driver_refreshCameraList drv d) in *.
    rewrite Hyes. reflexivity.
  - assert (Hfirst : camera_listed serial (Driver_refreshCameraList drv d)
                     = false).
    { apply (Hno 1%nat). lia. }
    rewrite Hfirst.
    destruct k as [| k']; [lia |].
    rewrite refreshed_succ_r in *.
    apply IH; [lia | exact Hyes |].
    intros j Hj. rewrite <- refreshed_succ_r. apply Hno. lia.
Qed.

Lemma search_camera_not_found (serial : string) (n : nat) (d : Device) :
  (forall j : nat, (1 <= j <= n)%nat ->
                   camera_listed serial (refreshed j d) = false) ->
  search_camera n serial d = (false, refreshed n d).
Proof.
  revert d. induction n as [| n IH]; intros d Hno; [reflexivity |].
  cbn [search_camera]. fold (camera_listed serial
                               (Driver_refreshCameraList drv d)).
  assert (Hfirst : camera_listed serial (Driver_refreshCameraList drv d)
                   = false).
  { apply (Hno 1%nat). lia. }
  rewrite Hfirst, refreshed_succ_r. apply IH.
  intros j Hj. rewrite <- refreshed_succ_r. apply Hno. lia.
Qed.

(** X9. The camera search refreshes the camera list before each try and
    stops at the first try that lists the serial number.  If that is try
    [k] of the [n] allowed, the search reports the camera found and has
    refreshed the list exactly [k] times; if no try lists it, the search
    reports it not found after exactly [n] refreshes.  Either way it
    returns, makes no recorded device call and changes nothing in the node
    but the device and the log. *)
Theorem find_camera_retries :
  forall (n : nat) (retry : Z) (s : CameraDriver) (d : Device),
    driver_ s = Some d ->
    (forall k : nat,
        (1 <= k <= n)%nat ->
        camera_listed (serial_ s) (refreshed k d) = true ->
        (forall j : nat, (1 <= j < k)%nat ->
                         camera_listed (serial_ s) (refreshed j d) = false) ->
        snd (find_camera n retry s) = Returned true
        /\ driver_ (fst (find_camera n retry s)) = Some (refreshed k d))
    /\ ((forall j : nat, (1 <= j <= n)%nat ->
                         camera_listed (serial_ s) (refreshed j d) = false) ->
        snd (find_camera n retry s) = Returned false
        /\ driver_ (fst (find_camera n retry s)) = Some (refreshed n d))
    /\ exists d' : Device,
         fst (find_camera n retry s)
         = set_log_stream (log_stream (fst (find_camera n retry s)))
             (set_driver_ (Some d') s).
Proof.
  intros n retry s d Hd.
  destruct (find_camera_spec n retry s d Hd) as (s' & Hrun & Hs').
  rewrite Hrun. cbn [fst snd]. unfold searched in Hs'.
  split; [| split].
  - intros k Hk Hyes Hno.
    rewrite (search_camera_found (serial_ s) n k d Hk Hyes Hno) in Hs' |- *.
    cbn [fst snd] in *. split; [reflexivity |]. rewrite Hs'. reflexivity.
  - intros Hno.
    rewrite (search_camera_not_found (serial_ s) n d Hno) in Hs' |- *.
    cbn [fst snd] in *. split; [reflexivity |]. rewrite Hs'. reflexivity.
  - eexists. exact Hs'.
Qed.

(** ** startCamera *)

(** X10. [startCamera] does nothing when the camera already runs: no device
    call is made.  Otherwise it asks the device once and stores the answer
    in [cameraRunning_]; a refusal is logged as an error and is not an
    exception. *)
Theorem startCamera_guard :
  forall (s : CameraDriver),
    (cameraRunning_ s = true -> startCamera s = (s, Returned tt))
    /\ (forall (d d' : Device) (started : bool),
          cameraRunning_ s = false ->
          driver_ s = Some d ->
          Driver_startCamera drv d = (d', DevReturn started) ->
          snd (startCamera s) = Returned tt
          /\ cameraRunning_ (fst (startCamera s)) = started
          /\ device_calls (fst (startCamera s))
             = device_calls s ++ [CallStartCamera]
          /\ last (log_stream (fst (startCamera s)))
             = Some (if started
                     then (INFO, [Str "camera has pixel format: ";
                                  Str (Driver_getPixelFormat drv d')])
                     else (ERROR, [Str "failed to start camera!"]))).
Proof.
  intros s. split.
  - intros Hrun. unfold startCamera. run_monad. rewrite Hrun. reflexivity.
  - intros d d' started Hrun Hd Hcall.
    unfold startCamera, printCameraInfo, read_driver. run_monad.
    rewrite Hrun. simpl. rewrite Hd, Hcall. simpl.
    destruct started; simpl; rewrite last_snoc; repeat split; reflexivity.
Qed.

(** ** readParameters *)

(** X11. A [debug] parameter of the wrong type does not stop the start-up:
    when the host throws its type exception for it, [readParameters] logs a
    warning, takes [debug_] to be false and goes on to read the remaining
    settings; any other exception of that declaration leaves
    [readParameters] as it is. *)
Theorem readParameters_debug_fallback :
  forall (s : CameraDriver),
    (forall what : string,
        host_debug host = Thrown (InvalidParameterTypeException what) ->
        snd (readParameters s) = Returned tt
        /\ debug_ (fst (readParameters s)) = false
        /\ parameterFile_ (fst (readParameters s)) = host_parameter_file host
        /\ serial_ (fst (readParameters s)) = host_serial_number host
        /\ In (WARN, [Str "bad debug param type: "; Str what])
              (log_stream (fst (readParameters s))))
    /\ (forall b : bool,
          host_debug host = Returned b ->
          snd (readParameters s) = Returned tt
          /\ debug_ (fst (readParameters s)) = b)
    /\ (forall e : exn,
          host_debug host = Thrown e ->
          (forall what, e <> InvalidParameterTypeException what) ->
          snd (readParameters s) = Thrown e
          /\ parameterFile_ (fst (readParameters s)) = parameterFile_ s).
Proof.
  intros s. split; [| split].
  - intros what Hdbg. unfold readParameters, catch_InvalidParameterType.
    run_monad. rewrite Hdbg. simpl. repeat split; try reflexivity.
    rewrite !in_app_iff. simpl. auto 10.
  - intros b Hdbg. unfold readParameters, catch_InvalidParameterType.
    run_monad. rewrite Hdbg. simpl. split; reflexivity.
  - intros e Hdbg Hne. unfold readParameters, catch_InvalidParameterType.
    run_monad. rewrite Hdbg.
    destruct e; simpl; try (split; reflexivity).
    exfalso. apply (Hne what). reflexivity.
Qed.

(** ** The registry invariant and the declaration of camera parameters *)

(** Every listed name has an entry in the map: what the comment "should
    always succeed" in [createCameraParameters] relies on. *)
Definition registry_consistent (s : CameraDriver) : Prop :=
  forall n : string, n ∈ parameterList_ s -> is_Some (parameterMap_ s !! n).

Lemma readParameterFile_consistent (s : CameraDriver) :
  registry_consistent s -> registry_consistent (fst (readParameterFile s)).
Proof.
  intros Hcons. unfold readParameterFile.
  destruct (read_file (parameterFile_ s)) as [content |]; cbn [fst].
  - destruct (fold_lines_spec (getlines content) s)
      as (Hlist & _ & Hmap & _).
    cbn zeta in Hlist, Hmap. intros n Hn. rewrite Hmap.
    rewrite Hlist in Hn. apply elem_of_app in Hn as [Hold | Hnew].
    + destruct (Hcons n Hold) as [ni Hni]. rewrite Hni.
      eexists. reflexivity.
    + destruct (parameterMap_ s !! n) as [ni |]; [eexists; reflexivity |].
      apply first_info_logical_names. exact Hnew.
  - exact Hcons.
Qed.

(** X12. [readParameterFile] keeps the registry consistent: if every listed
    name has an entry in the map before the load, so it is after it, whether
    the file could be read or not and whatever its lines; the freshly
    constructed node is consistent. *)
Theorem readParameterFile_keeps_registry_consistent :
  forall (s : CameraDriver),
    registry_consistent CameraDriver_default
    /\ (registry_consistent s ->
        registry_consistent (fst (readParameterFile s))).
Proof.
  intros s. split.
  - intros n Hn. simpl in Hn. inversion Hn.
  - apply readParameterFile_consistent.
Qed.

(** The calls that write a setting. *)
Definition is_set_call (c : DeviceCall) : bool :=
  match c with
  | CallSetEnum _ _ | CallSetDouble _ _ | CallSetInt _ _
  | CallSetBool _ _ => true
  | CallInitCamera _ | CallStartCamera => false
  end.

(** [s'] made the device calls of [s] and then setting writes only. *)
Definition extends_with_sets (s s' : CameraDriver) : Prop :=
  exists calls : list DeviceCall,
    device_calls s' = device_calls s ++ calls
    /\ forallb is_set_call calls = true.

Lemma extends_with_sets_refl (s s' : CameraDriver) :
  device_calls s' = device_calls s -> extends_with_sets s s'.
Proof.
  intros H. exists []. rewrite app_nil_r. split; [exact H | reflexivity].
Qed.

Lemma extends_with_sets_trans (s1 s2 s3 : CameraDriver) :
  extends_with_sets s1 s2 -> extends_with_sets s2 s3 ->
  extends_with_sets s1 s3.
Proof.
  intros (c1 & H1 & F1) (c2 & H2 & F2). exists (c1 ++ c2).
  rewrite H2, H1, <- app_assoc. split; [reflexivity |].
  rewrite forallb_app, F1, F2. reflexivity.
Qed.

Lemma extends_with_sets_one (s s' : CameraDriver) (c : DeviceCall) :
  is_set_call c = true ->
  device_calls s' = device_calls s ++ [c] -> extends_with_sets s s'.
Proof.
  intros Hc H. exists [c]. split; [exact H |]. simpl. rewrite Hc.
  reflexivity.
Qed.

Lemma setParameter_sets (ni : NodeInfo) (p : rclcpp_Parameter)
    (s : CameraDriver) :
  is_Some (driver_ s) ->
  extends_with_sets s (fst (setParameter ni p s)).
Proof.
  intros Hd. unfold setParameter.
  destruct (type ni).
  - apply extends_with_sets_refl. reflexivity.
  - rewrite bind_ignore_fst.
    eapply extends_with_sets_one; [| apply setEnum_records; exact Hd].
    reflexivity.
  - destruct (fst (get_double_int_param p)).
    + rewrite bind_ignore_fst.
      eapply extends_with_sets_one; [| apply setDouble_records; exact Hd].
      reflexivity.
    + apply extends_with_sets_refl. reflexivity.
  - destruct (fst (get_double_int_param p)).
    + rewrite bind_ignore_fst.
      eapply extends_with_sets_one; [| apply setInt_records; exact Hd].
      reflexivity.
    + apply extends_with_sets_refl. reflexivity.
  - destruct (fst (get_bool_int_param p)).
    + rewrite bind_ignore_fst.
      eapply extends_with_sets_one; [| apply setBool_records; exact Hd].
      reflexivity.
    + apply extends_with_sets_refl. reflexivity.
Qed.

Lemma parameterChanged_body_sets (p : rclcpp_Parameter) (s : CameraDriver) :
  extends_with_sets s (fst (parameterChanged_body p s)).
Proof.
  unfold parameterChanged_body, bind, gets. cbn [fst snd].
  destruct (parameterMap_ s !! get_name p) as [ni |];
    [| apply extends_with_sets_refl; reflexivity].
  destruct (driver_ s) as [d |] eqn:Hd;
    [| apply extends_with_sets_refl; reflexivity].
  destruct (is_not_set p); [apply extends_with_sets_refl; reflexivity |].
  assert (Hsome : is_Some (driver_ s)) by (exists d; exact Hd).
  pose proof (setParameter_sets ni p s Hsome) as Hsets.
  unfold catch_DriverException.
  destruct (setParameter ni p s) as [s' [[] | e]]; cbn [fst] in *;
    [exact Hsets |].
  destruct e; exact Hsets.
Qed.

Lemma parameterChanged_loop_sets (params : list rclcpp_Parameter)
    (s : CameraDriver) :
  extends_with_sets s (fst (parameterChanged_loop params s)).
Proof.
  revert s. induction params as [| p rest IH]; intros s; simpl.
  - apply extends_with_sets_refl. reflexivity.
  - unfold bind.
    pose proof (parameterChanged_body_post p s) as (Hret & _).
    pose proof (parameterChanged_body_sets p s) as Hsets.
    destruct (parameterChanged_body p s) as [s1 r1]. cbn [fst snd] in *.
    subst r1. eapply extends_with_sets_trans; [exact Hsets | apply IH].
Qed.

(** [s'] differs from [s] at most in the log, the device, the record of
    device calls and the parameters declared to the host. *)
Definition startup_frame (s s' : CameraDriver) : Prop :=
  s' = set_host_declared (host_declared s')
         (set_log_stream (log_stream s')
            (set_device_calls (device_calls s')
               (set_driver_ (driver_ s') s))).

Lemma startup_frame_refl (s : CameraDriver) : startup_frame s s.
Proof. unfold startup_frame. destruct s; reflexivity. Qed.

Lemma startup_frame_trans (s1 s2 s3 : CameraDriver) :
  startup_frame s1 s2 -> startup_frame s2 s3 -> startup_frame s1 s3.
Proof.
  unfold startup_frame. intros H12 H23. rewrite H23 at 1.
  rewrite H12 at 1. destruct s1; reflexivity.
Qed.

Lemma startup_frame_io (s s' : CameraDriver) :
  only_io_changed s s' -> startup_frame s s'.
Proof.
  unfold only_io_changed, startup_frame. intros H. rewrite H.
  destruct s; reflexivity.
Qed.

(** What a declaration that the host accepts leaves behind. *)
Lemma declare_camera_parameter_accepted (name : string)
    (desc : ParameterDescriptor) (ignore_override : bool)
    (initial : option rclcpp_Parameter) (s : CameraDriver) :
  declare_parameter (host_declared s) name desc ignore_override
  = Declared initial ->
  snd (declare_camera_parameter name desc ignore_override s) = Returned tt
  /\ host_declared (fst (declare_camera_parameter name desc ignore_override s))
     = host_declared s ++ [name]
  /\ startup_frame s
       (fst (declare_camera_parameter name desc ignore_override s))
  /\ extends_with_sets s
       (fst (declare_camera_parameter name desc ignore_override s))
  /\ (is_Some (driver_ s)
      <-> is_Some (driver_
                     (fst (declare_camera_parameter name desc
                             ignore_override s)))).
Proof.
  intros Hhost.
  set (s0 := set_host_declared (host_declared s ++ [name]) s).
  assert (Heq : declare_camera_parameter name desc ignore_override s
                = (match initial with
                   | Some p => fst (parameterChanged_loop [p] s0)
                   | None => s0
                   end, Returned tt)).
  { unfold declare_camera_parameter.
    unfold bind at 1, gets at 1. rewrite Hhost.
    unfold bind at 1, modify at 1. fold s0.
    destruct initial as [p |]; [| reflexivity].
    unfold parameterChanged, bind, ret.
    pose proof (parameterChanged_loop_post [p] s0) as (Hret & _).
    destruct (parameterChanged_loop [p] s0) as [s1 r1].
    cbn [fst snd] in *. subst r1. reflexivity. }
  rewrite Heq. cbn [fst snd]. split; [reflexivity |].
  destruct initial as [p |].
  - pose proof (parameterChanged_loop_post [p] s0) as (_ & Hio & Hdrv).
    pose proof (parameterChanged_loop_sets [p] s0) as Hsets.
    split; [unfold only_io_changed in Hio; rewrite Hio; reflexivity |].
    split.
    { eapply startup_frame_trans; [| apply startup_frame_io; exact Hio].
      unfold startup_frame, s0. destruct s; reflexivity. }
    split; [exact Hsets | exact Hdrv].
  - split; [reflexivity |].
    split; [unfold startup_frame, s0; destruct s; reflexivity |].
    split; [apply extends_with_sets_refl; reflexivity | apply iff_refl].
Qed.

Lemma declare_camera_parameter_thrown (name : string)
    (desc : ParameterDescriptor) (ignore_override : bool) (e : exn)
    (s : CameraDriver) :
  declare_parameter (host_declared s) name desc ignore_override
  = DeclareThrows e ->
  declare_camera_parameter name desc ignore_override s = (s, Thrown e).
Proof.
  intros Hhost. unfold declare_camera_parameter.
  unfold bind at 1, gets at 1. rewrite Hhost. reflexivity.
Qed.

(** A host that takes every declaration, at the latest on the second attempt:
    it accepts the first one, or throws its type exception for it and then
    accepts the one that ignores the override. *)
Definition host_cooperates : Prop :=
  forall (declared : list string) (name : string)
         (desc : ParameterDescriptor),
    (exists initial,
        declare_parameter declared name desc false = Declared initial)
    \/ ((exists what,
            declare_parameter declared name desc false
            = DeclareThrows (InvalidParameterTypeException what))
        /\ exists initial,
             declare_parameter declared name desc true = Declared initial).

(** What [createCameraParameters] leaves behind when it returns. *)
Definition declared_all (names : list string) (s s' : CameraDriver) : Prop :=
  host_declared s' = host_declared s ++ names
  /\ startup_frame s s'
  /\ extends_with_sets s s'
  /\ (is_Some (driver_ s) <-> is_Some (driver_ s')).

Lemma declared_all_nil (s : CameraDriver) : declared_all [] s s.
Proof.
  unfold declared_all. rewrite app_nil_r.
  split; [reflexivity |]. split; [apply startup_frame_refl |].
  split; [apply extends_with_sets_refl; reflexivity | apply iff_refl].
Qed.

Lemma declared_all_step (name : string) (names : list string)
    (s s1 s2 : CameraDriver) :
  declared_all [name] s s1 -> declared_all names s1 s2 ->
  declared_all (name :: names) s s2.
Proof.
  intros (Hd1 & Hf1 & He1 & Hs1) (Hd2 & Hf2 & He2 & Hs2).
  unfold declared_all. rewrite Hd2, Hd1, <- app_assoc.
  split; [reflexivity |].
  split; [eapply startup_frame_trans; eassumption |].
  split; [eapply extends_with_sets_trans; eassumption |].
  split; intros H; [apply Hs2, Hs1, H | apply Hs1, Hs2, H].
Qed.

Lemma declared_all_LOG (lvl : Level) (items : list LogItem)
    (names : list string) (s s' : CameraDriver) :
  declared_all names (LOG lvl items s) s' -> declared_all names s s'.
Proof.
  intros (Hd & Hf & (calls & Hc & Hfa) & Hs). unfold declared_all.
  split; [exact Hd |]. split.
  - eapply startup_frame_trans; [| exact Hf].
    unfold startup_frame. destruct s; reflexivity.
  - split; [exists calls; split; assumption | exact Hs].
Qed.

Lemma startup_frame_parameterMap (s s' : CameraDriver) :
  startup_frame s s' -> parameterMap_ s' = parameterMap_ s.
Proof. unfold startup_frame. intros H. rewrite H. reflexivity. Qed.

Lemma createCameraParameters_loop_cooperating (names : list string)
    (s : CameraDriver) :
  host_cooperates ->
  (forall n : string, n ∈ names -> is_Some (parameterMap_ s !! n)) ->
  snd (createCameraParameters_loop names s) = Returned tt
  /\ declared_all names s (fst (createCameraParameters_loop names s)).
Proof.
  intros Hhost. revert s.
  induction names as [| name rest IH]; intros s Hreg.
  - simpl. split; [reflexivity | apply declared_all_nil].
  - destruct (Hreg name) as [ni Hni]; [left |].
    assert (Hbody :
      exists s1,
        catch_InvalidParameterType
          (declare_camera_parameter name (descriptor ni) false)
          (fun what =>
             (LOG_WARN [Str ("overwriting bad param with default: "
                             +:+ what)] ;;
              declare_camera_parameter name (descriptor ni) true)%cam) s
        = (s1, Returned tt)
        /\ declared_all [name] s s1).
    { unfold catch_InvalidParameterType.
      destruct (Hhost (host_declared s) name (descriptor ni))
        as [[initial Hacc] | [[what Hthrow] [initial Hacc]]].
      - pose proof (declare_camera_parameter_accepted name (descriptor ni)
                      false initial s Hacc) as (Hret & Hrest).
        destruct (declare_camera_parameter name (descriptor ni) false s)
          as [s1 r1]. cbn [fst snd] in *. subst r1.
        exists s1. split; [reflexivity | exact Hrest].
      - rewrite (declare_camera_parameter_thrown name (descriptor ni) false
                   _ s Hthrow).
        unfold bind at 1, LOG_WARN at 1, modify at 1.
        set (s0 := LOG WARN
                     [Str ("overwriting bad param with default: "
                           +:+ what)] s).
        assert (Hacc0 : declare_parameter (host_declared s0) name
                          (descriptor ni) true = Declared initial)
          by exact Hacc.
        pose proof (declare_camera_parameter_accepted name (descriptor ni)
                      true initial s0 Hacc0) as (Hret & Hrest).
        destruct (declare_camera_parameter name (descriptor ni) true s0)
          as [s1 r1]. cbn [fst snd] in *. subst r1.
        exists s1. split; [reflexivity |].
        apply (declared_all_LOG WARN
                 [Str ("overwriting bad param with default: " +:+ what)]).
        exact Hrest. }
    destruct Hbody as (s1 & Hrun & Hdecl).
    assert (Heq : createCameraParameters_loop (name :: rest) s
                  = createCameraParameters_loop rest s1).
    { cbn [createCameraParameters_loop].
      unfold bind at 1. unfold bind at 1, gets at 1. rewrite Hni, Hrun.
      reflexivity. }
    rewrite Heq.
    assert (Hreg1 : forall n : string,
               n ∈ rest -> is_Some (parameterMap_ s1 !! n)).
    { intros n Hn. destruct Hdecl as (_ & Hf & _).
      rewrite (startup_frame_parameterMap s s1 Hf). apply Hreg. right.
      exact Hn. }
    destruct (IH s1 Hreg1) as (Hret & Hall).
    split; [exact Hret |].
    exact (declared_all_step name rest s s1 _ Hdecl Hall).
Qed.


(** ** start when the camera initialises *)

Lemma start_from_search_init_true (s : CameraDriver) (d d1 d2 : Device) :
  driver_ s = Some d ->
  search_camera 5 (serial_ s) d = (true, d1) ->
  Driver_initCamera drv (serial_ s) d1 = (d2, DevReturn true) ->
  exists s2,
    start_from_search s
    = ((createCameraParameters ;; startCamera) ;; ret true)%cam s2
    /\ driver_ s2 = Some d2
    /\ device_calls s2 = device_calls s ++ [CallInitCamera (serial_ s)]
    /\ keepRunning_ s2 = true
    /\ thread_ s2 = true
    /\ cameraRunning_ s2 = cameraRunning_ s
    /\ parameterMap_ s2 = parameterMap_ s
    /\ parameterList_ s2 = parameterList_ s
    /\ host_declared s2 = host_declared s.
Proof.
  intros Hd Hsearch Hinit. unfold start_from_search.
  change (Z.to_nat (6 - 1)) with 5%nat.
  destruct (find_camera_spec 5 1 s d Hd) as (s1 & Hfind & Hs1).
  rewrite Hsearch in Hfind, Hs1. cbn [fst snd] in Hfind, Hs1.
  rewrite (bind_returned _ _ _ _ _ Hfind). cbn [negb].
  unfold searched in Hs1.
  assert (Hser : serial_ s1 = serial_ s) by (rewrite Hs1; reflexivity).
  assert (Hd1 : driver_ s1 = Some d1) by (rewrite Hs1; reflexivity).
  unfold bind at 1, modify at 1.
  unfold bind at 1, modify at 1.
  unfold bind at 1, gets at 1. cbn [serial_ set_thread_ set_keepRunning_].
  unfold bind at 1.
  unfold bind at 1, call_driver at 1.
  cbn [driver_ set_thread_ set_keepRunning_].
  rewrite Hd1, Hser, Hinit. cbn [outcome_of_dev].
  unfold bind at 1.
  unfold bind at 1, gets at 1.
  cbn [dumpNodeMap_ set_thread_ set_keepRunning_ set_device_calls
       set_driver_].
  destruct (dumpNodeMap_ s1) eqn:Hdump.
  - unfold bind at 1.
    unfold bind at 1, LOG_INFO at 1, modify at 1.
    unfold bind at 1, read_driver at 1.
    cbn [driver_ LOG set_log_stream].
    unfold modify at 1.
    eexists. split; [reflexivity |].
    rewrite Hs1. cbn. repeat split; reflexivity.
  - unfold bind at 1, ret at 1.
    eexists. split; [reflexivity |].
    rewrite Hs1. cbn. repeat split; reflexivity.
Qed.

Lemma startCamera_run (s : CameraDriver) (d : Device) :
  cameraRunning_ s = false ->
  driver_ s = Some d ->
  startCamera s
  = let base := set_device_calls (device_calls s ++ [CallStartCamera])
                  (set_driver_ (Some (fst (Driver_startCamera drv d))) s) in
    match snd (Driver_startCamera drv d) with
    | DevReturn true =>
        (LOG INFO [Str "camera has pixel format: ";
                   Str (Driver_getPixelFormat drv
                          (fst (Driver_startCamera drv d)))]
           (set_cameraRunning_ true base), Returned tt)
    | DevReturn false =>
        (LOG ERROR [Str "failed to start camera!"]
           (set_cameraRunning_ false base), Returned tt)
    | DevThrow what => (base, Thrown (DriverException what))
    end.
Proof.
  intros Hrun Hd. unfold startCamera, printCameraInfo, read_driver.
  run_monad. rewrite Hrun. simpl. rewrite Hd.
  destruct (Driver_startCamera drv d) as [d' [[] | what]]; reflexivity.
Qed.

Lemma readParameters_registry (s : CameraDriver) :
  parameterList_ (fst (readParameters s)) = parameterList_ s
  /\ parameterMap_ (fst (readParameters s)) = parameterMap_ s.
Proof.
  unfold readParameters, catch_InvalidParameterType. run_monad.
  destruct (host_debug host) as [b | e]; simpl; [split; reflexivity |].
  destruct e; simpl; split; reflexivity.
Qed.


(** ** Shutdown: stopCamera, stop and the destructor *)

(** Modelled from the spec: the two shutdown calls of the device wrapper,
    [stopCamera() -> bool], which may throw like the other calls, and
    [deInitCamera()]; the sources hold only the calls. *)
Variable Driver_stopCamera : Device -> Device * dev_result bool.
Variable Driver_deInitCamera : Device -> Device.

Definition stopCamera : M CameraDriver bool :=
  running <- gets cameraRunning_ ;;
  drv_ptr <- gets driver_ ;;
  match running, drv_ptr with
  | true, Some d =>
      modify (set_cameraRunning_ false) ;;
      (fun s => let '(d', r) := Driver_stopCamera d in
                (set_driver_ (Some d') s, outcome_of_dev r))
  | _, _ => ret false
  end.

(** [stop].  Cancelling the status timer concerns a host object; joining the
    publishing thread ends it, which the cleared running flag allows. *)
Definition stop : M CameraDriver bool :=
  _ <- stopCamera ;;
  drv_ptr <- gets driver_ ;;
  match drv_ptr with
  | Some d => modify (set_driver_ (Some (Driver_deInitCamera d)))
  | None => ret tt
  end ;;
  modify (set_keepRunning_ false) ;;
  th <- gets thread_ ;;
  (if th then modify (set_thread_ false) else ret tt) ;;
  ret true.

(** The destructor: [stop()], then [driver_.reset()]. *)
Definition CameraDriver_destroy : M CameraDriver unit :=
  _ <- stop ;;
  modify (set_driver_ None).

Lemma stopCamera_idle (s : CameraDriver) :
  cameraRunning_ s = false \/ driver_ s = None ->
  stopCamera s = (s, Returned false).
Proof.
  intros Hidle. unfold stopCamera, bind, gets, ret. cbn [fst snd].
  destruct Hidle as [Hrun | Hd].
  - rewrite Hrun. reflexivity.
  - rewrite Hd. destruct (cameraRunning_ s); reflexivity.
Qed.

Lemma stopCamera_running (s : CameraDriver) (d : Device) :
  cameraRunning_ s = true ->
  driver_ s = Some d ->
  stopCamera s
  = (set_driver_ (Some (fst (Driver_stopCamera d)))
       (set_cameraRunning_ false s),
     outcome_of_dev (snd (Driver_stopCamera d))).
Proof.
  intros Hrun Hd. unfold stopCamera, bind, gets, modify. cbn [fst snd].
  rewrite Hrun, Hd. destruct (Driver_stopCamera d) as [d' r].
  destruct r; reflexivity.
Qed.

(** X15. [stopCamera] calls the device only when the camera runs and a
    driver is attached; otherwise it returns false and changes nothing.
    When it does call, [cameraRunning_] is cleared before the call, so it
    stays cleared whether the device then answers true, answers false or
    throws; a second [stopCamera] therefore never reaches the device. *)
Theorem stopCamera_once :
  forall (s : CameraDriver),
    (cameraRunning_ s = false \/ driver_ s = None ->
     stopCamera s = (s, Returned false))
    /\ (forall d : Device,
          cameraRunning_ s = true ->
          driver_ s = Some d ->
          snd (stopCamera s) = outcome_of_dev (snd (Driver_stopCamera d))
          /\ cameraRunning_ (fst (stopCamera s)) = false
          /\ driver_ (fst (stopCamera s))
             = Some (fst (Driver_stopCamera d)))
    /\ stopCamera (fst (stopCamera s)) = (fst (stopCamera s), Returned false).
Proof.
  intros s. split; [apply stopCamera_idle |]. split.
  - intros d Hrun Hd. rewrite (stopCamera_running s d Hrun Hd).
    repeat split; reflexivity.
  - destruct (cameraRunning_ s) eqn:Hrun.
    + destruct (driver_ s) as [d |] eqn:Hd.
      * rewrite (stopCamera_running s d Hrun Hd). cbn [fst].
        apply stopCamera_idle. left. reflexivity.
      * rewrite (stopCamera_idle s (or_intror Hd)). cbn [fst].
        apply stopCamera_idle. right. exact Hd.
    + rewrite (stopCamera_idle s (or_introl Hrun)). cbn [fst].
      apply stopCamera_idle. left. exact Hrun.
Qed.

Lemma stop_after (s s1 : CameraDriver) (b : bool) :
  stopCamera s = (s1, Returned b) ->
  stop s
  = (set_thread_ false
       (set_keepRunning_ false
          (match driver_ s1 with
           | Some d => set_driver_ (Some (Driver_deInitCamera d)) s1
           | None => s1
           end)),
     Returned true).
Proof.
  intros Hsc. unfold stop. rewrite (bind_returned _ _ _ _ _ Hsc).
  unfold bind, gets, modify, ret. cbn [fst snd].
  destruct s1 as [a1 a2 a3 a4 a5 a6 a7 a8 [d |] a10 a11 a12 a13 [] a15 a16
                    a17 a18 a19 a20 a21]; reflexivity.
Qed.

(** X16. [stop] when the device does not throw on [stopCamera]: it returns
    true, the running flag is cleared and the publishing thread is gone, a
    camera that ran on an attached driver runs no more, and the frames still
    queued are not flushed: the queue and both counters are as before, and a
    further turn of the publishing loop hands nothing to [doPublish].  When
    the device throws on [stopCamera], [stop] throws the same before it
    clears the running flag or joins the thread. *)
Theorem stop_shuts_down :
  forall (s : CameraDriver),
    ((forall e : exn, snd (stopCamera s) <> Thrown e) ->
     snd (stop s) = Returned true
     /\ keepRunning_ (fst (stop s)) = false
     /\ thread_ (fst (stop s)) = false
     /\ (is_Some (driver_ s) -> cameraRunning_ (fst (stop s)) = false)
     /\ imageQueue_ (fst (stop s)) = imageQueue_ s
     /\ publishedCount_ (fst (stop s)) = publishedCount_ s
     /\ droppedCount_ (fst (stop s)) = droppedCount_ s
     /\ forall ok : bool, snd (run_iteration ok (fst (stop s))) = None)
    /\ (forall e : exn,
          snd (stopCamera s) = Thrown e ->
          snd (stop s) = Thrown e
          /\ keepRunning_ (fst (stop s)) = keepRunning_ s
          /\ thread_ (fst (stop s)) = thread_ s).
Proof.
  intros s.
  assert (Hcases :
    (exists b, stopCamera s = (s, Returned b))
    \/ exists d, driver_ s = Some d
                 /\ stopCamera s
                    = (set_driver_ (Some (fst (Driver_stopCamera d)))
                         (set_cameraRunning_ false s),
                       outcome_of_dev (snd (Driver_stopCamera d)))).
  { destruct (cameraRunning_ s) eqn:Hrun.
    - destruct (driver_ s) as [d |] eqn:Hd.
      + right. exists d. split; [reflexivity |].
        apply stopCamera_running; assumption.
      + left. exists false. apply stopCamera_idle. right. exact Hd.
    - left. exists false. apply stopCamera_idle. left. exact Hrun. }
  assert (Hnone : forall (ok : bool) (s' : CameraDriver),
             keepRunning_ s' = false -> snd (run_iteration ok s') = None).
  { intros ok s' Hk. unfold run_iteration.
    destruct (run_locked s') as [s1 img] eqn:Hrl.
    assert (Hk1 : keepRunning_ s1 = false).
    { unfold run_locked in Hrl.
      destruct (last (imageQueue_ s')); injection Hrl as <- _;
        [simpl |]; exact Hk. }
    destruct img; [rewrite Hk1 |]; reflexivity. }
  split.
  - intros Hno.
    assert (Hgoal :
      snd (stop s) = Returned true
      /\ keepRunning_ (fst (stop s)) = false
      /\ thread_ (fst (stop s)) = false
      /\ (is_Some (driver_ s) -> cameraRunning_ (fst (stop s)) = false)
      /\ imageQueue_ (fst (stop s)) = imageQueue_ s
      /\ publishedCount_ (fst (stop s)) = publishedCount_ s
      /\ droppedCount_ (fst (stop s)) = droppedCount_ s).
    { destruct Hcases as [[b Hidle] | (d & Hd & Hcall)].
      - assert (Hrun : is_Some (driver_ s) -> cameraRunning_ s = false).
        { intros [d Hd]. destruct (cameraRunning_ s) eqn:Hrun;
            [| reflexivity].
          rewrite (stopCamera_running s d Hrun Hd) in Hidle.
          injection Hidle as Hs _.
          apply (f_equal cameraRunning_) in Hs. simpl in Hs.
          rewrite Hrun in Hs. discriminate. }
        rewrite (stop_after s s b Hidle). cbn [fst snd].
        destruct (driver_ s) as [d |] eqn:Hd; cbn;
          repeat split; try reflexivity.
        + intros _. apply Hrun. eexists. reflexivity.
        + intros [x Hx]. discriminate.
      - destruct (snd (Driver_stopCamera d)) as [b | what] eqn:Hans.
        + rewrite (stop_after s _ b Hcall). cbn.
          repeat split; reflexivity.
        + exfalso. apply (Hno (DriverException what)). rewrite Hcall.
          reflexivity. }
    destruct Hgoal as (H1 & H2 & H3 & H4 & H5 & H6 & H7).
    repeat split; try assumption.
    intros ok. apply Hnone. exact H2.
  - intros e Hthrow.
    destruct (stopCamera s) as [s1 r] eqn:Hsc. cbn [snd] in Hthrow.
    subst r. unfold stop. rewrite (bind_thrown _ _ _ _ _ Hsc). cbn [fst snd].
    split; [reflexivity |].
    destruct Hcases as [[b Hidle] | (d & Hd & Hcall)]; [discriminate |].
    injection Hcall as -> _. split; reflexivity.
Qed.

(** ** What the two callbacks leave alone *)

(** X17. [parameterChanged] changes nothing of the node but the device, the
    record of device calls and the log.  In particular a value written to
    the exposure or gain node through a parameter is not remembered in
    [currentExposureTime_] or [currentGain_], and the registry, the queue,
    the counters and the running flags stay as they are; its device calls
    are setting writes only. *)
Theorem parameterChanged_frame :
  forall (params : list rclcpp_Parameter) (s : CameraDriver),
    only_io_changed s (fst (parameterChanged params s))
    /\ currentExposureTime_ (fst (parameterChanged params s))
       = currentExposureTime_ s
    /\ currentGain_ (fst (parameterChanged params s)) = currentGain_ s
    /\ parameterMap_ (fst (parameterChanged params s)) = parameterMap_ s
    /\ parameterList_ (fst (parameterChanged params s)) = parameterList_ s
    /\ imageQueue_ (fst (parameterChanged params s)) = imageQueue_ s
    /\ cameraRunning_ (fst (parameterChanged params s)) = cameraRunning_ s
    /\ extends_with_sets s (fst (parameterChanged params s)).
Proof.
  intros params s.
  pose proof (parameterChanged_loop_post params s) as (Hret & Hio & _).
  pose proof (parameterChanged_loop_sets params s) as Hsets.
  assert (Hfst : fst (parameterChanged params s)
                 = fst (parameterChanged_loop params s)).
  { unfold parameterChanged, bind, ret.
    destruct (parameterChanged_loop params s) as [s' r].
    cbn [snd] in Hret. subst r. reflexivity. }
  rewrite Hfst. split; [exact Hio |].
  unfold only_io_changed in Hio.
  repeat split; try exact Hsets; rewrite Hio; reflexivity.
Qed.

(** [s'] differs from [s] at most in the control state, the log, the device
    and the record of device calls. *)
Definition only_control_changed (s s' : CameraDriver) : Prop :=
  s' = set_currentGain_ (currentGain_ s')
         (set_currentExposureTime_ (currentExposureTime_ s')
            (set_log_stream (log_stream s')
               (set_device_calls (device_calls s')
                  (set_driver_ (driver_ s') s)))).

Lemma only_control_changed_refl (s : CameraDriver) :
  only_control_changed s s.
Proof. unfold only_control_changed. destruct s; reflexivity. Qed.

Lemma only_control_changed_trans (s1 s2 s3 : CameraDriver) :
  only_control_changed s1 s2 -> only_control_changed s2 s3 ->
  only_control_changed s1 s3.
Proof.
  unfold only_control_changed. intros H12 H23. rewrite H23 at 1.
  rewrite H12 at 1. destruct s1; reflexivity.
Qed.

Lemma only_control_changed_io (s s' : CameraDriver) :
  only_io_changed s s' -> only_control_changed s s'.
Proof.
  unfold only_io_changed, only_control_changed. intros H. rewrite H.
  destruct s; reflexivity.
Qed.

Lemma setDouble_one_call (nodeName : string) (v : float)
    (s : CameraDriver) :
  exists calls : list DeviceCall,
    device_calls (fst (setDouble nodeName v s)) = device_calls s ++ calls
    /\ forallb is_set_call calls = true
    /\ (length calls <= 1)%nat.
Proof.
  destruct (driver_ s) as [d |] eqn:Hd.
  - exists [CallSetDouble nodeName v].
    split; [| split; [reflexivity | simpl; lia]].
    apply setDouble_records. exists d. exact Hd.
  - exists []. rewrite app_nil_r, (setDouble_no_driver nodeName v s Hd).
    split; [reflexivity | split; [reflexivity | simpl; lia]].
Qed.

Lemma no_call_made (s s' : CameraDriver) :
  device_calls s' = device_calls s ->
  exists calls : list DeviceCall,
    device_calls s' = device_calls s ++ calls
    /\ forallb is_set_call calls = true
    /\ (length calls <= 1)%nat.
Proof.
  intros H. exists []. rewrite app_nil_r.
  split; [exact H | split; [reflexivity | simpl; lia]].
Qed.

Lemma control_exposure_frame (et : Z) (s : CameraDriver)
    (l : control_locals) :
  only_control_changed s (fst (fst (control_exposure et (s, l))))
  /\ exists calls : list DeviceCall,
       device_calls (fst (fst (control_exposure et (s, l))))
       = device_calls s ++ calls
       /\ forallb is_set_call calls = true
       /\ (length calls <= 1)%nat.
Proof.
  destruct (exposure_due et s) eqn:Hdue.
  - destruct (parameterMap_ s !! "exposure_time") as [ni |] eqn:Hreg.
    + pose proof (setDouble_frame (name ni) (Z_to_double et) s) as Hfr.
      pose proof (setDouble_one_call (name ni) (Z_to_double et) s) as Hone.
      destruct (setDouble (name ni) (Z_to_double et) s) as [s2 [b | e]]
        eqn:Hset; cbn [fst] in Hfr, Hone.
      * rewrite (control_exposure_applied et s s2 l ni b Hdue Hreg Hset).
        cbn [fst]. split; [| exact Hone].
        eapply only_control_changed_trans;
          [apply only_control_changed_io; exact Hfr |].
        unfold only_control_changed. destruct s2; reflexivity.
      * rewrite (control_exposure_thrown et s s2 l ni e Hdue Hreg Hset).
        cbn [fst]. split; [apply only_control_changed_io; exact Hfr |].
        exact Hone.
    + rewrite (control_exposure_unregistered et s l Hdue Hreg). cbn [fst].
      split; [| apply no_call_made; reflexivity].
      unfold only_control_changed. destruct s; reflexivity.
  - rewrite (control_exposure_not_due et s l Hdue). cbn [fst].
    split; [apply only_control_changed_refl |].
    apply no_call_made. reflexivity.
Qed.

Lemma control_gain_frame (gain : float) (s : CameraDriver)
    (l : control_locals) :
  only_control_changed s (fst (fst (control_gain gain (s, l))))
  /\ exists calls : list DeviceCall,
       device_calls (fst (fst (control_gain gain (s, l))))
       = device_calls s ++ calls
       /\ forallb is_set_call calls = true
       /\ (length calls <= 1)%nat.
Proof.
  destruct (gain_due gain s) eqn:Hdue.
  - destruct (parameterMap_ s !! "gain") as [ni |] eqn:Hreg.
    + pose proof (setDouble_frame (name ni) gain s) as Hfr.
      pose proof (setDouble_one_call (name ni) gain s) as Hone.
      destruct (setDouble (name ni) gain s) as [s2 [b | e]]
        eqn:Hset; cbn [fst] in Hfr, Hone.
      * rewrite (control_gain_applied gain s s2 l ni b Hdue Hreg Hset).
        cbn [fst]. split; [| exact Hone].
        eapply only_control_changed_trans;
          [apply only_control_changed_io; exact Hfr |].
        unfold only_control_changed. destruct s2; reflexivity.
      * rewrite (control_gain_thrown gain s s2 l ni e Hdue Hreg Hset).
        cbn [fst]. split; [apply only_control_changed_io; exact Hfr |].
        exact Hone.
    + rewrite (control_gain_unregistered gain s l Hdue Hreg). cbn [fst].
      split; [| apply no_call_made; reflexivity].
      unfold only_control_changed. destruct s; reflexivity.
  - rewrite (control_gain_not_due gain s l Hdue). cbn [fst].
    split; [apply only_control_changed_refl |].
    apply no_call_made. reflexivity.
Qed.

Lemma controlCallback_escaped (et : Z) (gain : float)
    (s s1 : CameraDriver) (l1 : control_locals) (e : exn) :
  control_try et gain s = ((s1, l1), Thrown e) ->
  match e with DriverException _ => False | _ => True end ->
  controlCallback et gain s = (s1, Thrown e).
Proof.
  unfold control_try. intros Htry He.
  unfold controlCallback, with_locals, catch_DriverException.
  unfold bind at 1. rewrite Htry.
  destruct e; [destruct He | reflexivity ..].
Qed.

(** X18. [controlCallback] changes nothing of the node but the two fields of
    the control state, the device, the record of device calls and the log:
    the registry, the queue, the counters and the running flags stay as they
    are.  Its device calls are setting writes, at most two of them. *)
Theorem controlCallback_frame :
  forall (et : Z) (gain : float) (s : CameraDriver),
    only_control_changed s (fst (controlCallback et gain s))
    /\ exists calls : list DeviceCall,
         device_calls (fst (controlCallback et gain s))
         = device_calls s ++ calls
         /\ forallb is_set_call calls = true
         /\ (length calls <= 2)%nat.
Proof.
  intros et gain s.
  assert (Hfinal : forall (s1 : CameraDriver) (l1 : control_locals)
                          (r : outcome unit),
             control_try et gain s = ((s1, l1), r) ->
             only_control_changed s1 (fst (controlCallback et gain s))
             /\ device_calls (fst (controlCallback et gain s))
                = device_calls s1).
  { intros s1 l1 r Htry. destruct r as [[] | e].
    - rewrite (controlCallback_returned et gain s s1 l1 Htry). cbn [fst].
      pose proof (control_report_log_only et gain l1 s1) as Hlog.
      unfold only_log_changed in Hlog. split.
      + unfold only_control_changed. rewrite Hlog. destruct s1; reflexivity.
      + rewrite Hlog. reflexivity.
    - destruct e;
        try (rewrite (controlCallback_escaped et gain s s1 l1 _ Htry I);
             cbn [fst]; split;
             [apply only_control_changed_refl | reflexivity]).
      rewrite (controlCallback_caught et gain s s1 l1 _ Htry). cbn [fst].
      match goal with
      | |- context [control_report et gain l1 ?s0] =>
          pose proof (control_report_log_only et gain l1 s0) as Hlog
      end.
      unfold only_log_changed in Hlog. split.
      + unfold only_control_changed. rewrite Hlog. destruct s1; reflexivity.
      + rewrite Hlog. reflexivity. }
  assert (Htry : exists (s1 : CameraDriver) (l1 : control_locals)
                        (r : outcome unit) (calls : list DeviceCall),
             control_try et gain s = ((s1, l1), r)
             /\ only_control_changed s s1
             /\ device_calls s1 = device_calls s ++ calls
             /\ forallb is_set_call calls = true
             /\ (length calls <= 2)%nat).
  { rewrite control_try_steps.
    pose proof (control_exposure_frame et s (mkControlLocals false false))
      as (Hf1 & c1 & Hc1 & Hs1 & Hl1).
    destruct (control_exposure et (s, mkControlLocals false false))
      as [[sa la] ra]. cbn [fst] in Hf1, Hc1.
    destruct ra as [[] | e].
    2:{ exists sa, la, (Thrown e), c1.
        split; [reflexivity |]. split; [exact Hf1 |].
        split; [exact Hc1 |]. split; [exact Hs1 | lia]. }
    pose proof (control_gain_frame gain sa la)
      as (Hf2 & c2 & Hc2 & Hs2 & Hl2).
    destruct (control_gain gain (sa, la)) as [[sb lb] rb].
    cbn [fst] in Hf2, Hc2.
    exists sb, lb, rb, (c1 ++ c2).
    split; [reflexivity |].
    split; [eapply only_control_changed_trans; eassumption |].
    split; [rewrite Hc2, Hc1, <- app_assoc; reflexivity |].
    split; [rewrite forallb_app, Hs1, Hs2; reflexivity |].
    rewrite length_app. lia. }
  destruct Htry as (s1 & l1 & r & calls & Htry & Hf & Hc & Hs & Hl).
  destruct (Hfinal s1 l1 r Htry) as (Hf' & Hc').
  split; [eapply only_control_changed_trans; eassumption |].
  exists calls. rewrite Hc', Hc. repeat split; assumption.
Qed.

(** ** How a line of the parameter file is read *)

Fixpoint string_forall (P : ascii -> bool) (s : string) : bool :=
  match s with
  | EmptyString => true
  | String c rest => P c && string_forall P rest
  end.

(** A string of white space only. *)
Definition all_space (s : string) : bool := string_forall isspace s.

(** A string without white space. *)
Definition no_space (s : string) : bool :=
  string_forall (fun c => negb (isspace c)) s.

(** A word as one writes it without quotes: not empty, free of white space,
    and not opening with the quote character. *)
Definition plain_word (w : string) : bool :=
  match w with
  | EmptyString => false
  | String c _ => negb (Ascii.eqb c dquote) && no_space w
  end.

(** A string that needs no escape inside quotes: it has neither the quote
    character nor the backslash. *)
Definition unescaped (w : string) : bool :=
  string_forall
    (fun c => negb (Ascii.eqb c dquote) && negb (Ascii.eqb c backslash)) w.

Lemma append_cons (a : ascii) (s t : string) :
  String a s +:+ t = String a (s +:+ t).
Proof. reflexivity. Qed.

Lemma append_nil_l (s : string) : EmptyString +:+ s = s.
Proof. reflexivity. Qed.

Lemma append_push_char (acc : string) (c : ascii) (w : string) :
  push_char acc c +:+ w = acc +:+ String c w.
Proof.
  unfold push_char. induction acc as [| a acc IH].
  - reflexivity.
  - rewrite !append_cons, IH. reflexivity.
Qed.

Lemma append_empty_r (s : string) : s +:+ EmptyString = s.
Proof.
  induction s as [| a s IH]; [| rewrite append_cons, IH]; reflexivity.
Qed.

Lemma append_assoc (a b c : string) : (a +:+ b) +:+ c = a +:+ (b +:+ c).
Proof.
  induction a as [| x a IH]; [| rewrite !append_cons, IH]; reflexivity.
Qed.

Lemma isspace_not_special (c : ascii) :
  isspace c = true ->
  Ascii.eqb c dquote = false /\ Ascii.eqb c backslash = false
  /\ Ascii.eqb c hash = false.
Proof.
  destruct c as [[] [] [] [] [] [] [] []]; vm_compute; intros H;
    repeat split; congruence.
Qed.

Lemma scan_Between_pad (pad rest : string) :
  all_space pad = true -> scan Between (pad +:+ rest) = scan Between rest.
Proof.
  unfold all_space. induction pad as [| c pad IH];
    rewrite ?append_cons, ?append_nil_l; simpl; intros H.
  - reflexivity.
  - apply andb_prop in H as [Hc Hp]. rewrite Hc. apply IH. exact Hp.
Qed.

Lemma scan_InQuote_pad (pad acc : string) :
  all_space pad = true -> scan (InQuote acc) pad = [].
Proof.
  unfold all_space. revert acc. induction pad as [| c pad IH]; simpl;
    intros acc H.
  - reflexivity.
  - apply andb_prop in H as [Hc Hp].
    destruct (isspace_not_special c Hc) as (Hq & Hb & _).
    rewrite Hq, Hb. apply IH. exact Hp.
Qed.

Lemma scan_pad (pad : string) (st : scan_state) :
  all_space pad = true -> scan st pad = scan st EmptyString.
Proof.
  intros H. destruct st as [| acc | acc | acc].
  - rewrite <- (append_empty_r pad). apply scan_Between_pad. exact H.
  - destruct pad as [| c pad]; [reflexivity |].
    unfold all_space in H. simpl in H. apply andb_prop in H as [Hc Hp].
    simpl. rewrite Hc. f_equal.
    rewrite <- (append_empty_r pad). apply scan_Between_pad. exact Hp.
  - apply scan_InQuote_pad. exact H.
  - destruct pad as [| c pad]; [reflexivity |].
    unfold all_space in H. simpl in H. apply andb_prop in H as [Hc Hp].
    simpl. apply scan_InQuote_pad. exact Hp.
Qed.

Lemma scan_trailing (l pad : string) (st : scan_state) :
  all_space pad = true -> scan st (l +:+ pad) = scan st l.
Proof.
  intros H. revert st. induction l as [| c l IH]; intros st.
  - rewrite append_nil_l. apply scan_pad. exact H.
  - rewrite append_cons. simpl. destruct st as [| acc | acc | acc].
    + destruct (isspace c); [apply IH |].
      destruct (Ascii.eqb c dquote); apply IH.
    + destruct (isspace c); [f_equal |]; apply IH.
    + destruct (Ascii.eqb c backslash); [apply IH |].
      destruct (Ascii.eqb c dquote); [f_equal |]; apply IH.
    + apply IH.
Qed.

Lemma scan_InWord_end (w acc : string) :
  no_space w = true -> scan (InWord acc) w = [acc +:+ w].
Proof.
  unfold no_space. revert acc. induction w as [| c w IH]; simpl;
    intros acc H.
  - rewrite append_empty_r. reflexivity.
  - apply andb_prop in H as [Hc Hw]. apply negb_true_iff in Hc.
    rewrite Hc, (IH _ Hw), append_push_char. reflexivity.
Qed.

Lemma scan_InWord_space (w acc : string) (sp : ascii) (rest : string) :
  no_space w = true -> isspace sp = true ->
  scan (InWord acc) (w +:+ String sp rest)
  = (acc +:+ w) :: scan Between rest.
Proof.
  unfold no_space. revert acc. induction w as [| c w IH];
    rewrite ?append_cons, ?append_nil_l; simpl; intros acc H Hsp.
  - rewrite Hsp, append_empty_r. reflexivity.
  - apply andb_prop in H as [Hc Hw]. apply negb_true_iff in Hc.
    rewrite Hc, (IH _ Hw Hsp), append_push_char. reflexivity.
Qed.

Lemma plain_word_inv (w : string) :
  plain_word w = true ->
  exists (c : ascii) (r : string),
    w = String c r /\ isspace c = false /\ Ascii.eqb c dquote = false
    /\ no_space r = true.
Proof.
  destruct w as [| c r]; [discriminate |]. unfold plain_word, no_space.
  simpl. intros H. apply andb_prop in H as [Hq H].
  apply andb_prop in H as [Hc Hr].
  apply negb_true_iff in Hq. apply negb_true_iff in Hc.
  exists c, r. auto.
Qed.

Lemma scan_word_end (w : string) :
  plain_word w = true -> scan Between w = [w].
Proof.
  intros H. destruct (plain_word_inv w H) as (c & r & -> & Hc & Hq & Hr).
  simpl. rewrite Hc, Hq.
  exact (scan_InWord_end r (String c EmptyString) Hr).
Qed.

Lemma scan_word_space (w : string) (sp : ascii) (rest : string) :
  plain_word w = true -> isspace sp = true ->
  scan Between (w +:+ String sp rest) = w :: scan Between rest.
Proof.
  intros H Hsp.
  destruct (plain_word_inv w H) as (c & r & -> & Hc & Hq & Hr).
  rewrite append_cons. simpl. rewrite Hc, Hq.
  exact (scan_InWord_space r (String c EmptyString) sp rest Hr Hsp).
Qed.

Lemma scan_InQuote_close (w acc rest : string) :
  unescaped w = true ->
  scan (InQuote acc) (w +:+ String dquote rest)
  = (acc +:+ w) :: scan Between rest.
Proof.
  unfold unescaped. revert acc. induction w as [| c w IH];
    rewrite ?append_cons, ?append_nil_l; simpl; intros acc H.
  - rewrite append_empty_r. reflexivity.
  - apply andb_prop in H as [Hc Hw]. apply andb_prop in Hc as [Hq Hb].
    apply negb_true_iff in Hq. apply negb_true_iff in Hb.
    rewrite Hb, Hq, (IH _ Hw), append_push_char. reflexivity.
Qed.

Lemma scan_quoted (w rest : string) :
  unescaped w = true ->
  scan Between (quote_string w +:+ rest) = w :: scan Between rest.
Proof.
  intros H. unfold quote_string. rewrite append_cons, append_assoc.
  rewrite append_cons, append_nil_l.
  change (scan Between (String dquote (w +:+ String dquote rest)))
    with (scan (InQuote EmptyString) (w +:+ String dquote rest)).
  exact (scan_InQuote_close w EmptyString rest H).
Qed.

Lemma scan_InWord_head (rest acc : string) :
  exists (suffix : string) (ts : list string),
    scan (InWord acc) rest = (acc +:+ suffix) :: ts.
Proof.
  revert acc. induction rest as [| c rest IH]; simpl; intros acc.
  - exists EmptyString, []. rewrite append_empty_r. reflexivity.
  - destruct (isspace c).
    + exists EmptyString, (scan Between rest). rewrite append_empty_r.
      reflexivity.
    + destruct (IH (push_char acc c)) as (suffix & ts & Heq).
      exists (String c suffix), ts. rewrite Heq, append_push_char.
      reflexivity.
Qed.

(** A run of white space between two fields: at least one character. *)
Definition separator (sep : string) : bool :=
  match sep with
  | EmptyString => false
  | String _ _ => all_space sep
  end.

Lemma scan_word_separator (w sep rest : string) :
  plain_word w = true -> separator sep = true ->
  scan Between (w +:+ sep +:+ rest) = w :: scan Between rest.
Proof.
  intros Hw Hsep. destruct sep as [| sp sep]; [discriminate |].
  unfold separator, all_space in Hsep. simpl in Hsep.
  apply andb_prop in Hsep as [Hsp Hpad].
  change (String sp sep +:+ rest) with (String sp (sep +:+ rest)).
  rewrite (scan_word_space w sp _ Hw Hsp).
  f_equal. apply scan_Between_pad. exact Hpad.
Qed.

(** X19. White space at the end of a line, the carriage return of a file
    with CRLF line ends included, does not change the tokens the line is read
    into, whatever the line is, and so not its classification either. *)
Theorem trailing_space_ignored :
  forall (l pad : string),
    all_space pad = true ->
    quoted_tokens (l +:+ pad) = quoted_tokens l
    /\ classify_line (l +:+ pad) = classify_line l.
Proof.
  intros l pad H. unfold classify_line, quoted_tokens.
  rewrite (scan_trailing l pad Between H). split; reflexivity.
Qed.

(** X20. A line whose first character after optional white space is the hash
    is a comment whatever follows, an unbalanced quote included: the loop
    body leaves the node as it is, no warning logged. *)
Theorem comment_line_skipped :
  forall (pad rest : string) (s : CameraDriver),
    all_space pad = true ->
    readParameterFile_line s (pad +:+ String hash rest) = s.
Proof.
  intros pad rest s H. unfold readParameterFile_line, quoted_tokens.
  rewrite (scan_Between_pad pad _ H).
  change (scan Between (String hash rest))
    with (scan (InWord (String hash EmptyString)) rest).
  destruct (scan_InWord_head rest (String hash EmptyString))
    as (suffix & ts & ->).
  reflexivity.
Qed.

(** X21. A line of three plain words, separated by runs of white space and
    with white space allowed before the first, whose first word does not
    open with the hash, is registered: the first word is the logical name,
    the second the type and the third the name of the camera node.  The name
    is appended to [parameterList_], and bound in [parameterMap_] unless it
    is bound already. *)
Theorem three_words_registered :
  forall (pad a sep1 b sep2 c : string) (s : CameraDriver),
    all_space pad = true ->
    plain_word a = true -> starts_with_hash a = false ->
    separator sep1 = true -> plain_word b = true ->
    separator sep2 = true -> plain_word c = true ->
    readParameterFile_line s (pad +:+ a +:+ sep1 +:+ b +:+ sep2 +:+ c)
    = set_parameterList_ (parameterList_ s ++ [a])
        (set_parameterMap_
           (map_insert_new a (NodeInfo_new has_dynamic_typing c b)
              (parameterMap_ s)) s).
Proof.
  intros pad a sep1 b sep2 c s Hpad Ha Hhash Hs1 Hb Hs2 Hc.
  unfold readParameterFile_line, quoted_tokens.
  rewrite (scan_Between_pad pad _ Hpad).
  rewrite (scan_word_separator a sep1 _ Ha Hs1).
  rewrite (scan_word_separator b sep2 _ Hb Hs2).
  rewrite (scan_word_end c Hc).
  rewrite Hhash. reflexivity.
Qed.

(** X22. The name of a camera node may be written in quotes, and may then
    hold white space or be empty: when it needs no escape, the line registers
    the name as it stands between the quotes. *)
Theorem quoted_node_name_registered :
  forall (a sep1 b sep2 c : string) (s : CameraDriver),
    plain_word a = true -> starts_with_hash a = false ->
    separator sep1 = true -> plain_word b = true ->
    separator sep2 = true -> unescaped c = true ->
    readParameterFile_line s
      (a +:+ sep1 +:+ b +:+ sep2 +:+ quote_string c)
    = set_parameterList_ (parameterList_ s ++ [a])
        (set_parameterMap_
           (map_insert_new a (NodeInfo_new has_dynamic_typing c b)
              (parameterMap_ s)) s)
    /\ name (NodeInfo_new has_dynamic_typing c b) = c.
Proof.
  intros a sep1 b sep2 c s Ha Hhash Hs1 Hb Hs2 Hc.
  split.
  - unfold readParameterFile_line, quoted_tokens.
    rewrite (scan_word_separator a sep1 _ Ha Hs1).
    rewrite (scan_word_separator b sep2 _ Hb Hs2).
    rewrite <- (append_empty_r (quote_string c)).
    rewrite (scan_quoted c EmptyString Hc).
    cbn [scan]. rewrite Hhash. reflexivity.
  - unfold NodeInfo_new.
    destruct (String.eqb b "float"); [reflexivity |].
    destruct (String.eqb b "int"); [reflexivity |].
    destruct (String.eqb b "bool"); [reflexivity |].
    destruct (String.eqb b "enum"); reflexivity.
Qed.

(** ** The value of an enumeration parameter *)

Definition has_quote (s : string) : bool :=
  negb (string_forall (fun c => negb (Ascii.eqb c dquote)) s).

Lemma remove_quotes_clean (s : string) :
  has_quote (remove_quotes s) = false.
Proof.
  unfold has_quote. apply negb_false_iff.
  induction s as [| c s IH]; simpl; [reflexivity |].
  destruct (Ascii.eqb c dquote) eqn:Hc; [exact IH |].
  simpl. rewrite Hc, IH. reflexivity.
Qed.

Lemma remove_quotes_fixes (s : string) :
  has_quote s = false -> remove_quotes s = s.
Proof.
  unfold has_quote. intros H. apply negb_false_iff in H.
  induction s as [| c s IH]; simpl in H |- *; [reflexivity |].
  apply andb_prop in H as [Hc Hs]. apply negb_true_iff in Hc.
  rewrite Hc, (IH Hs). reflexivity.
Qed.

Lemma remove_quotes_append (a b : string) :
  remove_quotes (a +:+ b) = remove_quotes a +:+ remove_quotes b.
Proof.
  induction a as [| c a IH]; [reflexivity |].
  rewrite append_cons. simpl.
  destruct (Ascii.eqb c dquote); rewrite IH; reflexivity.
Qed.

(** X23. The value an enumeration parameter sends to the device never holds
    a quote character, whatever the host renders the parameter as; and when
    the host renders a string in quotes, a value free of quotes reaches the
    device as it is. *)
Theorem setParameter_enum_unquoted :
  forall (ni : NodeInfo) (p : rclcpp_Parameter) (s : CameraDriver),
    type ni = ENUM ->
    is_Some (driver_ s) ->
    exists v : string,
      device_calls (fst (setParameter ni p s))
      = device_calls s ++ [CallSetEnum (name ni) v]
      /\ has_quote v = false
      /\ (forall w : string,
            has_quote w = false ->
            value_to_string p = quote_string w -> v = w).
Proof.
  intros ni p s Hty Hd. exists (remove_quotes (value_to_string p)).
  split; [| split].
  - unfold setParameter. rewrite Hty. cbn zeta. rewrite bind_ignore_fst.
    apply setEnum_records. exact Hd.
  - apply remove_quotes_clean.
  - intros w Hw ->. unfold quote_string.
    change (String dquote (w +:+ String dquote EmptyString))
      with (String dquote EmptyString +:+ w +:+ String dquote EmptyString).
    rewrite !remove_quotes_append, (remove_quotes_fixes w Hw).
    apply append_empty_r.
Qed.

(** ** Publishing: doPublish and a whole turn of run *)

(** Modelled from the spec: the pixel formats of the device library.  The
    switch of [flir_to_ros_encoding] names four of them; [PF_unlisted]
    stands for any value it does not name. *)
Inductive PixelFormat : Type :=
| PF_INVALID
| BayerRG8
| RGB8
| Mono8
| PF_unlisted.

(** Modelled from the spec: the members of a frame that [doPublish] reads,
    the frame type being declared in the device library: capture time in
    nanoseconds, brightness, exposure, maximal exposure, gain, pixel format,
    height, width, stride and the pixel data. *)
Record Frame : Type := mkFrame {
  imageTime_ : Z;
  brightness_ : Z;
  exposureTime_ : Z;
  maxExposureTime_ : Z;
  gain_ : float;
  pixelFormat_ : PixelFormat;
  height_ : Z;
  width_ : Z;
  stride_ : Z;
  data_ : list Z
}.

(** What [*im] holds. *)
Variable frame_of : Image -> Frame.

(** Modelled from the spec: the metadata message, with the members that
    [doPublish] writes and the frame id that [start] writes. *)
Record MetaMsg : Type := mkMetaMsg {
  meta_stamp : Z;
  meta_frame_id : string;
  meta_brightness : Z;
  meta_exposure_time : Z;
  meta_max_exposure_time : Z;
  meta_gain : float;
  meta_camera_time : Z
}.

(** The image message and the calibration message are the host's; of them
    the code sets the stamp, and hands the image message to [fillImage] of
    the host library, which fills it and answers whether it could. *)
Variable ImageMsg : Type.
Variable CameraInfoMsg : Type.
Variable set_image_stamp : Z -> ImageMsg -> ImageMsg.
Variable set_info_stamp : Z -> CameraInfoMsg -> CameraInfoMsg.
Variable fillImage :
  ImageMsg -> string -> Z -> Z -> Z -> list Z -> ImageMsg * bool.

(** The members that [doPublish] writes besides [publishedCount_]: the three
    messages it keeps, and for each publisher what was published through
    it, in order. *)
Record Publishers : Type := mkPublishers {
  imageMsg_ : ImageMsg;
  cameraInfoMsg_ : CameraInfoMsg;
  metaMsg_ : MetaMsg;
  pub_ : list (ImageMsg * CameraInfoMsg);
  metaPub_ : list MetaMsg
}.

Definition set_imageMsg_ (v : ImageMsg) (p : Publishers) : Publishers :=
  mkPublishers v (cameraInfoMsg_ p) (metaMsg_ p) (pub_ p) (metaPub_ p).

Definition set_cameraInfoMsg_ (v : CameraInfoMsg) (p : Publishers)
    : Publishers :=
  mkPublishers (imageMsg_ p) v (metaMsg_ p) (pub_ p) (metaPub_ p).

Definition set_metaMsg_ (v : MetaMsg) (p : Publishers) : Publishers :=
  mkPublishers (imageMsg_ p) (cameraInfoMsg_ p) v (pub_ p) (metaPub_ p).

Definition set_pub_ (v : list (ImageMsg * CameraInfoMsg)) (p : Publishers)
    : Publishers :=
  mkPublishers (imageMsg_ p) (cameraInfoMsg_ p) (metaMsg_ p) v (metaPub_ p).

Definition set_metaPub_ (v : list MetaMsg) (p : Publishers) : Publishers :=
  mkPublishers (imageMsg_ p) (cameraInfoMsg_ p) (metaMsg_ p) (pub_ p) v.

Definition flir_to_ros_encoding (pf : PixelFormat) : string :=
  match pf with
  | BayerRG8 => "bayer_rggb8"
  | RGB8 => "rgb8"
  | Mono8 => "mono8"
  | PF_INVALID | PF_unlisted => "INVALID"
  end.

(** [doPublish(im)] for a pointer [im] that is not null, as [run] calls it.
    [image_subscribers] is [count_subscribers(pub_.getTopic())] and
    [meta_subscribers] is [metaPub_->get_subscription_count()] at the time
    of the call. *)
Definition doPublish (image_subscribers meta_subscribers : nat) (im : Image)
    (sp : CameraDriver * Publishers) : CameraDriver * Publishers :=
  let '(s, p) := sp in
  let t := imageTime_ (frame_of im) in
  let p := set_imageMsg_ (set_image_stamp t (imageMsg_ p)) p in
  let p := set_cameraInfoMsg_ (set_info_stamp t (cameraInfoMsg_ p)) p in
  let encoding := flir_to_ros_encoding (pixelFormat_ (frame_of im)) in
  let '(s, p) :=
    if Nat.ltb 0 image_subscribers then
      let cinfo := cameraInfoMsg_ p in
      let '(img, ret) :=
        fillImage (imageMsg_ p) encoding (height_ (frame_of im))
          (width_ (frame_of im)) (stride_ (frame_of im))
          (data_ (frame_of im)) in
      if negb ret then
        (LOG ERROR [Str "fill image failed!"] s, p)
      else
        (set_publishedCount_ (counter_incr (publishedCount_ s)) s,
         set_pub_ (pub_ p ++ [(img, cinfo)]) p)
    else (s, p) in
  if negb (Nat.eqb meta_subscribers 0) then
    let m := metaMsg_ p in
    let m := mkMetaMsg t (meta_frame_id m) (brightness_ (frame_of im))
               (exposureTime_ (frame_of im))
               (maxExposureTime_ (frame_of im)) (gain_ (frame_of im))
               (imageTime_ (frame_of im)) in
    (s, set_metaPub_ (metaPub_ p ++ [m]) (set_metaMsg_ m p))
  else (s, p).

(** One turn of the outer loop of [run], the call of [doPublish]
    included. *)
Definition run_turn (ok : bool) (image_subscribers meta_subscribers : nat)
    (sp : CameraDriver * Publishers) : CameraDriver * Publishers :=
  let '(s, p) := sp in
  let '(s, img) := run_locked s in
  match img with
  | Some im =>
      if keepRunning_ s && ok then
        doPublish image_subscribers meta_subscribers im (s, p)
      else (s, p)
  | None => (s, p)
  end.

(** What [doPublish] does to the node: nothing, or one error logged, or
    [publishedCount_] incremented together with one image published. *)
Lemma doPublish_node (i m : nat) (im : Image) (s : CameraDriver)
    (p : Publishers) :
  (fst (doPublish i m im (s, p)) = s
   /\ pub_ (snd (doPublish i m im (s, p))) = pub_ p)
  \/ (fst (doPublish i m im (s, p))
      = LOG ERROR [Str "fill image failed!"] s
      /\ pub_ (snd (doPublish i m im (s, p))) = pub_ p
      /\ i <> 0%nat)
  \/ (fst (doPublish i m im (s, p))
      = set_publishedCount_ (counter_incr (publishedCount_ s)) s
      /\ (exists msg : ImageMsg * CameraInfoMsg,
            pub_ (snd (doPublish i m im (s, p))) = pub_ p ++ [msg])
      /\ i <> 0%nat).
Proof.
  unfold doPublish.
  destruct i as [| i]; cbn [Nat.ltb Nat.leb].
  - left. destruct (negb (Nat.eqb m 0)); split; reflexivity.
  - right.
    destruct (fillImage _ _ _ _ _ _) as [img []]; cbn [negb].
    + right. destruct (negb (Nat.eqb m 0)); cbn [fst snd];
        (split; [reflexivity |]); (split; [| discriminate]);
        eexists; reflexivity.
    + left. destruct (negb (Nat.eqb m 0)); cbn [fst snd];
        (split; [reflexivity |]); (split; [reflexivity | discriminate]).
Qed.

Lemma run_turn_snoc (ok : bool) (i m : nat) (q : list ImageConstPtr)
    (f : ImageConstPtr) (s : CameraDriver) (p : Publishers) :
  imageQueue_ s = q ++ [f] ->
  run_turn ok i m (s, p)
  = match f with
    | Some im =>
        if keepRunning_ s && ok
        then doPublish i m im (set_imageQueue_ q s, p)
        else (set_imageQueue_ q s, p)
    | None => (set_imageQueue_ q s, p)
    end.
Proof.
  intros Hq. unfold run_turn. rewrite (run_locked_snoc q f s Hq).
  destruct f as [im |]; reflexivity.
Qed.

Lemma run_turn_empty (ok : bool) (i m : nat) (s : CameraDriver)
    (p : Publishers) :
  imageQueue_ s = [] -> run_turn ok i m (s, p) = (s, p).
Proof.
  intros Hq. unfold run_turn. rewrite (run_locked_empty s Hq). reflexivity.
Qed.

Lemma set_imageQueue_same (s : CameraDriver) (q : list ImageConstPtr) :
  imageQueue_ s = q -> set_imageQueue_ q s = s.
Proof. intros <-. destruct s; reflexivity. Qed.

(** X8. One whole turn of the outer loop of [run], the call of [doPublish]
    included.  On an empty queue it changes nothing and publishes nothing.
    Otherwise it removes the newest queued frame.  When the running flag is
    down or the host is not up, or the frame pointer is null, that frame is
    discarded: nothing is published, no message is stamped, and the node
    differs in the queue alone.  When the flag is set and the host is up the
    frame goes to [doPublish], which runs on the node with that frame
    removed.  Of the members of the node a turn changes the queue, the
    counter of published frames and the log, nothing else (the drop
    counter and the running flags among the rest); the counter of published
    frames advances by one exactly when the turn publishes an image, and
    without a subscriber to the image the turn publishes none and changes
    the queue alone.  The turn is [run_iteration] followed by
    [doPublish] on the frame handed over. *)
Theorem run_turn_publishes :
  forall (ok : bool) (image_subscribers meta_subscribers : nat)
         (s : CameraDriver) (p : Publishers),
    (imageQueue_ s = [] ->
     run_turn ok image_subscribers meta_subscribers (s, p) = (s, p))
    /\ (keepRunning_ s && ok = false ->
        run_turn ok image_subscribers meta_subscribers (s, p)
        = (set_imageQueue_ (removelast (imageQueue_ s)) s, p))
    /\ (forall q : list ImageConstPtr,
          imageQueue_ s = q ++ [None] ->
          run_turn ok image_subscribers meta_subscribers (s, p)
          = (set_imageQueue_ q s, p))
    /\ (forall (q : list ImageConstPtr) (im : Image),
          imageQueue_ s = q ++ [Some im] ->
          keepRunning_ s && ok = true ->
          run_turn ok image_subscribers meta_subscribers (s, p)
          = doPublish image_subscribers meta_subscribers im
              (set_imageQueue_ q s, p))
    /\ fst (run_turn ok image_subscribers meta_subscribers (s, p))
       = set_log_stream
           (log_stream
              (fst (run_turn ok image_subscribers meta_subscribers (s, p))))
           (set_publishedCount_
              (publishedCount_
                 (fst (run_turn ok image_subscribers meta_subscribers
                         (s, p))))
              (set_imageQueue_ (removelast (imageQueue_ s)) s))
    /\ ((pub_ (snd (run_turn ok image_subscribers meta_subscribers (s, p)))
         = pub_ p
         /\ publishedCount_
              (fst (run_turn ok image_subscribers meta_subscribers (s, p)))
            = publishedCount_ s)
        \/ (exists msg : ImageMsg * CameraInfoMsg,
              pub_ (snd (run_turn ok image_subscribers meta_subscribers
                           (s, p)))
              = pub_ p ++ [msg]
              /\ publishedCount_
                   (fst (run_turn ok image_subscribers meta_subscribers
                           (s, p)))
                 = counter_incr (publishedCount_ s)))
    /\ (image_subscribers = 0%nat ->
        fst (run_turn ok image_subscribers meta_subscribers (s, p))
        = set_imageQueue_ (removelast (imageQueue_ s)) s
        /\ pub_ (snd (run_turn ok image_subscribers meta_subscribers (s, p)))
           = pub_ p)
    /\ run_turn ok image_subscribers meta_subscribers (s, p)
       = match snd (run_iteration ok s) with
         | Some im =>
             doPublish image_subscribers meta_subscribers im
               (fst (run_iteration ok s), p)
         | None => (fst (run_iteration ok s), p)
         end.
Proof.
  intros ok i m s p.
  pose proof (run_turn_empty ok i m s p) as Hnil.
  pose proof (fun q f => run_turn_snoc ok i m q f s p) as Hsnoc.
  split; [exact Hnil |].
  destruct (imageQueue_ s) as [| f q _] eqn:Hq using rev_ind.
  - (* the queue is empty *)
    rewrite (Hnil eq_refl). cbn [removelast fst snd].
    rewrite (set_imageQueue_same s [] Hq).
    split; [reflexivity |].
    split; [intros q Hq'; destruct q; discriminate Hq' |].
    split; [intros q im Hq'; destruct q; discriminate Hq' |].
    split; [destruct s; reflexivity |].
    split; [left; split; reflexivity |].
    split; [intros _; split; reflexivity |].
    unfold run_iteration. rewrite (run_locked_empty s Hq). reflexivity.
  - (* the newest frame is [f] *)
    rewrite removelast_last.
    assert (Hiter : run_iteration ok s
                    = (set_imageQueue_ q s,
                       match f with
                       | Some im => if keepRunning_ s && ok
                                    then Some im else None
                       | None => None
                       end)).
    { unfold run_iteration. rewrite (run_locked_snoc q f s Hq).
      destruct f as [im |]; [| reflexivity].
      cbn [keepRunning_ set_imageQueue_].
      replace (keepRunning_ (set_imageQueue_ q s)) with (keepRunning_ s)
        by (destruct s; reflexivity).
      destruct (keepRunning_ s && ok); reflexivity. }
    rewrite (Hsnoc q f eq_refl), Hiter. cbn [fst snd].
    split.
    { intros Hoff. rewrite Hoff. destruct f; reflexivity. }
    split.
    { intros q' Hq'. apply app_inj_tail in Hq' as [-> ->]. reflexivity. }
    split.
    { intros q' im Hq' Hon. apply app_inj_tail in Hq' as [-> ->].
      rewrite Hon. reflexivity. }
    destruct f as [im |];
      [destruct (keepRunning_ s && ok) |].
    + (* handed to doPublish *)
      destruct (doPublish_node i m im (set_imageQueue_ q s) p)
        as [(Hs & Hp) | [(Hs & Hp & Hi) | (Hs & (msg & Hp) & Hi)]];
        rewrite ?Hs, ?Hp.
      * split; [destruct s; reflexivity |].
        split; [left; split; [reflexivity | destruct s; reflexivity] |].
        split; [intros _; split; reflexivity | reflexivity].
      * split; [destruct s; reflexivity |].
        split; [left; split; [reflexivity | destruct s; reflexivity] |].
        split; [intros Hz; contradiction | reflexivity].
      * split; [destruct s; reflexivity |].
        split.
        { right. exists msg. split; [reflexivity |].
          destruct s; reflexivity. }
        split; [intros Hz; contradiction | reflexivity].
    + split; [destruct s; reflexivity |].
      split; [left; split; [reflexivity | destruct s; reflexivity] |].
      split; [intros _; split; reflexivity | reflexivity].
    + split; [destruct s; reflexivity |].
      split; [left; split; [reflexivity | destruct s; reflexivity] |].
      split; [intros _; split; reflexivity | reflexivity].
Qed.

End Node.

Arguments serial_ {Device Image} _.
Arguments debug_ {Device Image} _.
Arguments dumpNodeMap_ {Device Image} _.
Arguments computeBrightness_ {Device Image} _.
Arguments acquisitionTimeout_ {Device Image} _.
Arguments parameterFile_ {Device Image} _.
Arguments parameterMap_ {Device Image} _.
Arguments parameterList_ {Device Image} _.
Arguments driver_ {Device Image} _.
Arguments currentExposureTime_ {Device Image} _.
Arguments currentGain_ {Device Image} _.
Arguments cameraRunning_ {Device Image} _.
Arguments keepRunning_ {Device Image} _.
Arguments thread_ {Device Image} _.
Arguments imageQueue_ {Device Image} _.
Arguments publishedCount_ {Device Image} _.
Arguments droppedCount_ {Device Image} _.
Arguments lastStatusTime_ {Device Image} _.
Arguments log_stream {Device Image} _.
Arguments device_calls {Device Image} _.
Arguments host_declared {Device Image} _.
Arguments set_serial_ {Device Image} _ _.
Arguments set_debug_ {Device Image} _ _.
Arguments set_dumpNodeMap_ {Device Image} _ _.
Arguments set_computeBrightness_ {Device Image} _ _.
Arguments set_acquisitionTimeout_ {Device Image} _ _.
Arguments set_parameterFile_ {Device Image} _ _.
Arguments set_parameterMap_ {Device Image} _ _.
Arguments set_parameterList_ {Device Image} _ _.
Arguments set_driver_ {Device Image} _ _.
Arguments set_currentExposureTime_ {Device Image} _ _.
Arguments set_currentGain_ {Device Image} _ _.
Arguments set_cameraRunning_ {Device Image} _ _.
Arguments set_keepRunning_ {Device Image} _ _.
Arguments set_thread_ {Device Image} _ _.
Arguments set_imageQueue_ {Device Image} _ _.
Arguments set_publishedCount_ {Device Image} _ _.
Arguments set_droppedCount_ {Device Image} _ _.
Arguments set_lastStatusTime_ {Device Image} _ _.
Arguments set_log_stream {Device Image} _ _.
Arguments set_device_calls {Device Image} _ _.
Arguments set_host_declared {Device Image} _ _.
Arguments setDouble {Device Image}.
Arguments controlCallback {Device Image}.
Arguments start {Device Image}.
Arguments CameraDriver_new {Device Image}.
Arguments readParameterFile {Device Image}.
Arguments publishImage {Device Image}.
Arguments run_locked {Device Image}.
Arguments queue_run {Device Image}.
Arguments parameterChanged {Device Image}.
Arguments parameterChanged_body {Device Image}.
Arguments parameterChanged_loop {Device Image}.
Arguments printStatus {Device Image}.
Arguments dropRate {Device Image}.
Arguments exposure_due {Device Image}.
Arguments gain_due {Device Image}.
Arguments skipped {Device Image}.
Arguments control_try {Device Image}.
Arguments LOG {Device Image}.
Arguments Push {Image} _.
Arguments Pop {Image}.

(** ** The node on scripted devices *)

(** A registry with the two names [controlCallback] looks up. *)
Definition control_registry : gmap string NodeInfo :=
  <["exposure_time" := NodeInfo_new false "ExposureTime" "float"]>
    (<["gain" := NodeInfo_new false "Gain" "float"]> ∅).

(** A node with that registry and a device attached, nothing applied yet. *)
Definition attached_node : CameraDriver nat nat :=
  set_driver_ (Some 0%nat)
    (set_parameterMap_ control_registry (CameraDriver_default nat nat)).

Definition echo_driver : Driver nat :=
  scripted_driver 1 "20435008" true answer_echo.

Definition refusing_driver : Driver nat :=
  scripted_driver 1 "20435008" true answer_refuse.

Definition exposure_throwing_driver : Driver nat :=
  scripted_driver 1 "20435008" true (answer_throw_on "ExposureTime").

Definition gain_throwing_driver : Driver nat :=
  scripted_driver 1 "20435008" true (answer_throw_on "Gain").

(** The camera shows up at the fifth refresh, and its [initCamera] fails. *)
Definition init_failing_driver : Driver nat :=
  scripted_driver 5 "20435008" false answer_echo.

(** The camera never shows up. *)
Definition absent_camera_driver : Driver nat :=
  scripted_driver 6 "20435008" true answer_echo.

Definition unlines (ls : list string) : string :=
  fold_right (fun l acc => l +:+ String newline acc) EmptyString ls.

(** A parameter file: two well-formed lines, a comment, a blank line, a line
    of two tokens, and a quoted node name. *)
Definition sample_cfg : string :=
  unlines
    [ "# name type node";
      "exposure_time float ExposureTime";
      EmptyString;
      "gain float";
      "gain float " +:+ quote_string "Gain" ].

Definition sample_host : HostParameters :=
  plain_host "20435008" "parameters.cfg".

Definition sample_files : string -> option string :=
  one_file "parameters.cfg" sample_cfg.

(** ** Tokens and lines, run *)

Example quoted_tokens_quoting :
  quoted_tokens ("exposure_time float "
                 +:+ quote_string "Exposure Time" +:+ "  ")
  = ["exposure_time"; "float"; "Exposure Time"].
Proof. vm_compute. reflexivity. Qed.

Example quoted_tokens_unterminated :
  quoted_tokens ("gain float " +:+ String dquote "Gain") = ["gain"; "float"]
  /\ quoted_tokens (String dquote "gain float Gain") = [].
Proof. split; vm_compute; reflexivity. Qed.

Example getlines_sample :
  getlines sample_cfg
  = [ "# name type node";
      "exposure_time float ExposureTime";
      EmptyString;
      "gain float";
      "gain float " +:+ quote_string "Gain" ]
  /\ getlines ("a" +:+ String newline "b") = ["a"; "b"]
  /\ getlines EmptyString = [].
Proof. repeat split; vm_compute; reflexivity. Qed.

Example classify_sample :
  map classify_line (getlines sample_cfg)
  = [ Comment;
      WellFormed "exposure_time" "ExposureTime" "float";
      Blank;
      Malformed;
      WellFormed "gain" "Gain" "float" ].
Proof. vm_compute. reflexivity. Qed.

(** A second line with a name already registered is listed again but does
    not replace the entry of the first. *)
Example duplicate_name_keeps_first :
  let s := fst (readParameterFile false
                  (one_file "parameters.cfg"
                     (unlines ["gain float Gain"; "gain int GainRaw"]))
                  (set_parameterFile_ "parameters.cfg"
                     (CameraDriver_default nat nat))) in
  parameterList_ s = ["gain"; "gain"]
  /\ parameterMap_ s !! "gain" = Some (NodeInfo_new false "Gain" "float").
Proof. vm_compute. split; reflexivity. Qed.

(** ** The theorems at concrete inputs *)

(** Three pushes, a pop and a push of a null frame on the empty queue. *)
Lemma queue_bounded_drop_witness :
  (length
     (imageQueue_
        (queue_run 64
           [Push (Some 1%nat); Push (Some 2%nat); Push (Some 3%nat); Pop;
            Push None]
           (CameraDriver_default nat nat))) <= 2)%nat.
Proof.
  apply (queue_bounded_drop nat nat 64
           [Push (Some 1%nat); Push (Some 2%nat); Push (Some 3%nat); Pop;
            Push None]
           (CameraDriver_default nat nat)).
  simpl. lia.
Defined.

Lemma pop_newest_first_witness :
  imageQueue_
    (publishImage 64 (Some 3%nat)
       (publishImage 64 (Some 2%nat)
          (publishImage 64 (Some 1%nat) (CameraDriver_default nat nat))))
  = [Some 1%nat; Some 2%nat]
  /\ droppedCount_
       (publishImage 64 (Some 3%nat)
          (publishImage 64 (Some 2%nat)
             (publishImage 64 (Some 1%nat) (CameraDriver_default nat nat))))
     = 1
  /\ snd (run_locked
            (publishImage 64 (Some 3%nat)
               (publishImage 64 (Some 2%nat)
                  (publishImage 64 (Some 1%nat)
                     (CameraDriver_default nat nat)))))
     = Some 2%nat
  /\ imageQueue_
       (fst (run_locked
               (publishImage 64 (Some 3%nat)
                  (publishImage 64 (Some 2%nat)
                     (publishImage 64 (Some 1%nat)
                        (CameraDriver_default nat nat))))))
     = [Some 1%nat].
Proof.
  apply (proj2 (proj2 (pop_newest_first nat nat 64
                         (CameraDriver_default nat nat)))
           (Some 1%nat) (Some 2%nat) (Some 3%nat)).
  - reflexivity.
  - reflexivity.
  - lia.
Defined.

(** The device reports 102.4 for a request of 100. *)
Lemma setDouble_verification_witness :
  snd (setDouble
         (scripted_driver 1 "20435008" true
            (fun _ _ => DevReturn ("OK", 102.4%float)))
         "Gain" 100%float attached_node)
  = Returned true.
Proof.
  apply (proj1 (setDouble_verification nat nat
                  (scripted_driver 1 "20435008" true
                     (fun _ _ => DevReturn ("OK", 102.4%float)))
                  "Gain" 100%float attached_node 0%nat 0%nat "OK"
                  102.4%float eq_refl eq_refl)).
  split; [reflexivity | vm_compute; reflexivity].
Defined.


(** An unknown name between two known ones of a batch. *)
Lemma parameterChanged_skips_witness :
  snd (parameterChanged_body echo_driver plain_value_to_string
         x86_double_to_int
         (mkParameter "frame_rate" (PV_double 30%float))
         (fst (parameterChanged_loop echo_driver plain_value_to_string
                 x86_double_to_int
                 [mkParameter "gain" (PV_double 2%float)]
                 attached_node)))
  = Returned tt.
Proof.
  apply (parameterChanged_skips nat nat echo_driver plain_value_to_string
           x86_double_to_int
           [mkParameter "gain" (PV_double 2%float)]
           [mkParameter "exposure_time" (PV_integer 5000)]
           (mkParameter "frame_rate" (PV_double 30%float))
           attached_node).
  left. vm_compute. reflexivity.
Defined.

Lemma readParameterFile_registers_witness :
  snd (readParameterFile false sample_files
         (set_parameterFile_ "parameters.cfg" (CameraDriver_default nat nat)))
  = true
  /\ parameterList_
       (fst (readParameterFile false sample_files
               (set_parameterFile_ "parameters.cfg"
                  (CameraDriver_default nat nat))))
     = [] ++ logical_names (getlines sample_cfg).
Proof.
  destruct (proj1 (readParameterFile_registers nat nat echo_driver
                     sample_host accept_declaration plain_value_to_string
                     x86_double_to_int false sample_files
                     (set_parameterFile_ "parameters.cfg"
                        (CameraDriver_default nat nat)))
              sample_cfg eq_refl) as (Hok & Hlist & _).
  split; [exact Hok | exact Hlist].
Defined.


Lemma controlCallback_exception_handling_witness :
  device_calls
    (fst (controlCallback exposure_throwing_driver 5000 10%float
            attached_node))
  = [] ++ [CallSetDouble "ExposureTime" (Z_to_double 5000)].
Proof.
  apply (proj1 (proj2 (controlCallback_exception_handling nat nat
                         exposure_throwing_driver 5000 10%float
                         attached_node))
           (NodeInfo_new false "ExposureTime" "float") 0%nat 0%nat
           "node not writable").
  - vm_compute. reflexivity.
  - vm_compute. reflexivity.
  - reflexivity.
  - vm_compute. reflexivity.
Defined.

Lemma controlCallback_apply_on_change_witness :
  device_calls
    (fst (controlCallback echo_driver 5000 10%float
            (fst (controlCallback echo_driver 5000 10%float attached_node))))
  = device_calls
      (fst (controlCallback echo_driver 5000 10%float attached_node)).
Proof.
  apply (controlCallback_apply_on_change nat nat echo_driver 5000 10%float
           attached_node (mkControlLocals false false)).
  vm_compute. reflexivity.
Defined.

(** ** Where the code departs from the specification *)

(** Both fields are due and registered, the device throws on the exposure
    node: the callback returns, and its one device call is the exposure
    write; the gain write is never attempted and the gain stays unset. *)
Lemma exposure_exception_skips_gain :
  exposure_due 5000 attached_node = true
  /\ gain_due 10%float attached_node = true
  /\ parameterMap_ attached_node !! "exposure_time"
     = Some (NodeInfo_new false "ExposureTime" "float")
  /\ parameterMap_ attached_node !! "gain"
     = Some (NodeInfo_new false "Gain" "float")
  /\ snd (setDouble exposure_throwing_driver "ExposureTime"
            (Z_to_double 5000) attached_node)
     = Thrown (DriverException "node not writable")
  /\ snd (controlCallback exposure_throwing_driver 5000 10%float
            attached_node)
     = Returned tt
  /\ device_calls
       (fst (controlCallback exposure_throwing_driver 5000 10%float
               attached_node))
     = [CallSetDouble "ExposureTime" 5000%float]
  /\ ~ In (CallSetDouble "Gain" 10%float)
         (device_calls
            (fst (controlCallback exposure_throwing_driver 5000 10%float
                    attached_node)))
  /\ currentGain_
       (fst (controlCallback exposure_throwing_driver 5000 10%float
               attached_node))
     = float_lowest.
Proof.
  repeat split; try (vm_compute; reflexivity).
  vm_compute. intros [H | []]. discriminate H.
Qed.


(** The device refuses the exposure write: the apply fails, and yet
    [currentExposureTime_] takes the requested value, so that the same
    command again writes nothing. *)
Lemma failed_apply_updates_state :
  snd (setDouble refusing_driver "ExposureTime" (Z_to_double 5000)
         attached_node)
  = Returned false
  /\ currentExposureTime_ attached_node = 0
  /\ currentExposureTime_
       (fst (controlCallback refusing_driver 5000 float_lowest
               attached_node))
     = 5000
  /\ device_calls
       (fst (controlCallback refusing_driver 5000 float_lowest
               (fst (controlCallback refusing_driver 5000 float_lowest
                       attached_node))))
     = [CallSetDouble "ExposureTime" 5000%float].
Proof. repeat split; vm_compute; reflexivity. Qed.

(** The device reports back exactly what was asked, an infinity or a NaN:
    the band [|v - retV| <= 0.025 * |v + retV|] does not hold, the
    difference being a NaN, and yet the setter reports success. *)
Lemma nan_difference_passes_verification :
  within_tolerance infinity infinity = false
  /\ snd (setDouble echo_driver "Gain" infinity attached_node)
     = Returned true
  /\ within_tolerance nan nan = false
  /\ snd (setDouble echo_driver "Gain" nan attached_node) = Returned true.
Proof. repeat split; vm_compute; reflexivity. Qed.

Example x86_double_to_int_truncates :
  x86_double_to_int 2.75%float = 2
  /\ x86_double_to_int (-2.75)%float = -2
  /\ x86_double_to_int 1e30%float = - 2 ^ 31.
Proof. repeat split; vm_compute; reflexivity. Qed.


(** ** The rest of the node, run *)

Arguments setEnum {Device Image}.
Arguments setInt {Device Image}.
Arguments setBool {Device Image}.
Arguments setParameter {Device Image}.
Arguments push_all {Device Image}.
Arguments pop_all {Device Image}.
Arguments run_iteration {Device Image}.
Arguments find_camera {Device Image}.
Arguments startCamera {Device Image}.
Arguments readParameters {Device Image}.
Arguments createCameraParameters {Device Image}.
Arguments readParameterFile_line {Device Image}.
Arguments registry_consistent {Device Image}.
Arguments stopCamera {Device Image}.
Arguments stop {Device Image}.
Arguments CameraDriver_destroy {Device Image}.

(** The attached node, told its serial number. *)
Definition named_node : CameraDriver nat nat :=
  set_serial_ "20435008" attached_node.

(** The attached node with one registered name. *)
Definition listed_node : CameraDriver nat nat :=
  set_parameterList_ ["gain"] attached_node.

(** The attached node while its camera streams. *)
Definition streaming_node : CameraDriver nat nat :=
  set_thread_ true
    (set_keepRunning_ true (set_cameraRunning_ true attached_node)).

(** A node with two frames queued while the loop runs. *)
Definition loaded_node : CameraDriver nat nat :=
  set_keepRunning_ true
    (set_imageQueue_ [Some 1%nat; Some 2%nat] attached_node).

(** A host whose [debug] override has the wrong type. *)
Definition mistyped_host : HostParameters :=
  mkHostParameters "20435008"
    (Thrown (InvalidParameterTypeException "expected [bool] got [string]"))
    false false 3%float "parameters.cfg".

(** A host that renders a string value in quotes. *)
Definition quoting_value_to_string (p : rclcpp_Parameter) : string :=
  quote_string (plain_value_to_string p).

(** The scripted device stops when told to, and forgets the camera when it
    is de-initialised. *)
Definition scripted_stopCamera (d : nat) : nat * dev_result bool :=
  (d, DevReturn true).

Definition scripted_deInitCamera (d : nat) : nat := d.

Definition carriage_return : ascii := ascii_of_nat 13.

Definition tab : ascii := ascii_of_nat 9.

Example destructor_drops_the_device :
  driver_ (fst (CameraDriver_destroy scripted_stopCamera
                  scripted_deInitCamera streaming_node))
  = None
  /\ snd (CameraDriver_destroy scripted_stopCamera scripted_deInitCamera
            streaming_node)
     = Returned tt.
Proof. split; vm_compute; reflexivity. Qed.

Lemma setEnum_exact_verification_witness :
  snd (setEnum echo_driver "PixelFormat" "Mono8" attached_node)
  = Returned true.
Proof.
  apply (proj1 (setEnum_exact_verification nat nat echo_driver "PixelFormat"
                  "Mono8" attached_node 0%nat 0%nat "OK" "Mono8"
                  eq_refl eq_refl)).
  split; reflexivity.
Defined.

Lemma setInt_exact_verification_witness :
  snd (setInt echo_driver "Width" 640 attached_node) = Returned true.
Proof.
  apply (proj1 (setInt_exact_verification nat nat echo_driver "Width" 640
                  attached_node 0%nat 0%nat "OK" 640 eq_refl eq_refl)).
  split; reflexivity.
Defined.

Lemma setBool_exact_verification_witness :
  snd (setBool echo_driver "ReverseX" true attached_node) = Returned true.
Proof.
  apply (proj1 (setBool_exact_verification nat nat echo_driver "ReverseX"
                  true attached_node 0%nat 0%nat "OK" true
                  eq_refl eq_refl)).
  split; reflexivity.
Defined.

(** A string for a float node. *)
Lemma setParameter_rejects_mismatch_witness :
  exists items : list LogItem,
    setParameter echo_driver plain_value_to_string x86_double_to_int
      (NodeInfo_new false "Gain" "float")
      (mkParameter "gain" (PV_string "high")) attached_node
    = (LOG WARN items attached_node, Returned tt).
Proof.
  apply (setParameter_rejects_mismatch nat nat echo_driver
           plain_value_to_string x86_double_to_int
           (NodeInfo_new false "Gain" "float")
           (mkParameter "gain" (PV_string "high")) attached_node).
  reflexivity.
Defined.

(** A double for an int node is truncated. *)
Lemma setParameter_coercion_witness :
  device_calls
    (fst (setParameter echo_driver plain_value_to_string x86_double_to_int
            (NodeInfo_new false "Width" "int")
            (mkParameter "width" (PV_double 640.5%float)) attached_node))
  = [] ++ [CallSetInt "Width" 640].
Proof.
  refine (eq_trans
            (setParameter_coercion nat nat echo_driver plain_value_to_string
               x86_double_to_int (NodeInfo_new false "Width" "int")
               (mkParameter "width" (PV_double 640.5%float)) attached_node
               (ex_intro _ 0%nat eq_refl)) _).
  vm_compute. reflexivity.
Defined.

(** Three frames arrive while the queue is not served. *)
Lemma push_all_keeps_first_two_witness :
  imageQueue_
    (push_all 32 [Some 1%nat; Some 2%nat; Some 3%nat] attached_node)
  = [Some 1%nat; Some 2%nat]
  /\ droppedCount_
       (push_all 32 [Some 1%nat; Some 2%nat; Some 3%nat] attached_node)
     = 1.
Proof.
  destruct (push_all_keeps_first_two nat nat 32
              [Some 1%nat; Some 2%nat; Some 3%nat] attached_node eq_refl)
    as (Hq & _ & Hd).
  split; [exact Hq |]. rewrite Hd; [reflexivity |]. vm_compute.
  split; [discriminate | reflexivity].
Defined.

(** The camera shows up at the fifth refresh. *)
Lemma find_camera_retries_witness :
  snd (find_camera init_failing_driver 5 1 named_node) = Returned true
  /\ driver_ (fst (find_camera init_failing_driver 5 1 named_node))
     = Some 5%nat.
Proof.
  apply (proj1 (find_camera_retries nat nat init_failing_driver 5 1
                  named_node 0%nat eq_refl) 5%nat).
  - lia.
  - vm_compute. reflexivity.
  - intros j Hj. destruct j as [| [| [| [| [| j]]]]]; try lia; reflexivity.
Defined.

Lemma startCamera_guard_witness :
  cameraRunning_ (fst (startCamera echo_driver attached_node)) = true
  /\ startCamera echo_driver streaming_node
     = (streaming_node, Returned tt).
Proof.
  split.
  - apply (proj2 (startCamera_guard nat nat echo_driver attached_node)
             0%nat 0%nat true eq_refl eq_refl eq_refl).
  - apply (proj1 (startCamera_guard nat nat echo_driver streaming_node)).
    reflexivity.
Defined.

Lemma readParameters_debug_fallback_witness :
  snd (readParameters mistyped_host (CameraDriver_default nat nat))
  = Returned tt
  /\ debug_ (fst (readParameters mistyped_host (CameraDriver_default nat nat)))
     = false.
Proof.
  destruct (proj1 (readParameters_debug_fallback nat nat mistyped_host
                     (CameraDriver_default nat nat))
              "expected [bool] got [string]" eq_refl)
    as (Hret & Hdbg & _).
  split; [exact Hret | exact Hdbg].
Defined.

Lemma readParameterFile_keeps_registry_consistent_witness :
  registry_consistent
    (fst (readParameterFile false sample_files
            (set_parameterFile_ "parameters.cfg"
               (CameraDriver_default nat nat)))).
Proof.
  destruct (readParameterFile_keeps_registry_consistent nat nat false
              sample_files
              (set_parameterFile_ "parameters.cfg"
                 (CameraDriver_default nat nat)))
    as (Hdefault & Hkeeps).
  apply Hkeeps. intros n Hn. inversion Hn.
Defined.



Lemma stopCamera_once_witness :
  snd (stopCamera scripted_stopCamera streaming_node) = Returned true
  /\ cameraRunning_ (fst (stopCamera scripted_stopCamera streaming_node))
     = false.
Proof.
  destruct (proj1 (proj2 (stopCamera_once nat nat scripted_stopCamera
                            streaming_node))
              0%nat eq_refl eq_refl)
    as (Hret & Hrun & _).
  split; [exact Hret | exact Hrun].
Defined.

Lemma stop_shuts_down_witness :
  snd (stop scripted_stopCamera scripted_deInitCamera streaming_node)
  = Returned true
  /\ keepRunning_
       (fst (stop scripted_stopCamera scripted_deInitCamera streaming_node))
     = false.
Proof.
  destruct (proj1 (stop_shuts_down nat nat scripted_stopCamera
                     scripted_deInitCamera streaming_node))
    as (Hret & Hkeep & _).
  - intros e He. vm_compute in He. discriminate He.
  - split; [exact Hret | exact Hkeep].
Defined.

(** A line of a file with CRLF line ends. *)
Lemma trailing_space_ignored_witness :
  quoted_tokens ("gain float Gain" +:+ String carriage_return EmptyString)
  = quoted_tokens "gain float Gain".
Proof.
  apply (proj1 (trailing_space_ignored "gain float Gain"
                  (String carriage_return EmptyString) eq_refl)).
Defined.

(** An indented comment with a quote that is never closed. *)
Lemma comment_line_skipped_witness :
  readParameterFile_line false attached_node
    ("  " +:+ String hash (" gain float " +:+ String dquote "Gain"))
  = attached_node.
Proof.
  apply (comment_line_skipped nat nat false "  "
           (" gain float " +:+ String dquote "Gain") attached_node).
  reflexivity.
Defined.

(** Fields separated by a tab and by two blanks. *)
Lemma three_words_registered_witness :
  parameterList_
    (readParameterFile_line false attached_node
       (" " +:+ "frame_rate" +:+ String tab EmptyString +:+ "float"
        +:+ "  " +:+ "AcquisitionFrameRate"))
  = [] ++ ["frame_rate"].
Proof.
  rewrite (three_words_registered nat nat false " " "frame_rate"
             (String tab EmptyString) "float" "  " "AcquisitionFrameRate"
             attached_node eq_refl eq_refl eq_refl eq_refl eq_refl eq_refl
             eq_refl).
  reflexivity.
Defined.

Lemma quoted_node_name_registered_witness :
  parameterList_
    (readParameterFile_line false attached_node
       ("frame_rate" +:+ " " +:+ "float" +:+ " "
        +:+ quote_string "Acquisition Frame Rate"))
  = [] ++ ["frame_rate"]
  /\ name (NodeInfo_new false "Acquisition Frame Rate" "float")
     = "Acquisition Frame Rate".
Proof.
  destruct (quoted_node_name_registered nat nat false "frame_rate" " "
              "float" " " "Acquisition Frame Rate" attached_node
              eq_refl eq_refl eq_refl eq_refl eq_refl eq_refl)
    as (Hline & Hname).
  split; [rewrite Hline; reflexivity | exact Hname].
Defined.

(** The host renders the value of the parameter as a quoted string. *)
Lemma setParameter_enum_unquoted_witness :
  device_calls
    (fst (setParameter echo_driver quoting_value_to_string x86_double_to_int
            (NodeInfo_new false "PixelFormat" "enum")
            (mkParameter "pixel_format" (PV_string "Mono8")) attached_node))
  = [] ++ [CallSetEnum "PixelFormat" "Mono8"].
Proof.
  destruct (setParameter_enum_unquoted nat nat echo_driver
              quoting_value_to_string x86_double_to_int
              (NodeInfo_new false "PixelFormat" "enum")
              (mkParameter "pixel_format" (PV_string "Mono8")) attached_node
              eq_refl (ex_intro _ 0%nat eq_refl))
    as (v & Hcalls & _ & Hvalue).
  rewrite Hcalls, (Hvalue "Mono8" eq_refl eq_refl). reflexivity.
Defined.


(** ** Lines the load passes over in silence, and a repeated name *)

(** A line that opens a quote and never closes it; a line whose first field
    is a quoted string that opens with the hash; and the same logical name
    on two lines. *)
Definition open_quote_line : string := String dquote "gain float Gain".

Definition quoted_hash_line : string :=
  quote_string "#x" +:+ " float Hidden".

Definition tricky_cfg : string :=
  unlines [ open_quote_line; quoted_hash_line;
            "gain float Gain"; "gain int GainRaw" ].

(** The first line is text that is not three tokens, and is skipped without
    a warning; the second has three tokens, its text does not open with the
    hash, and it is not registered; the last two are well formed, and
    together they add one descriptor, that of the first of them. *)
Lemma unwarned_lines_and_repeated_name :
  getlines tricky_cfg
  = [open_quote_line; quoted_hash_line; "gain float Gain"; "gain int GainRaw"]
  /\ quoted_tokens open_quote_line = []
  /\ quoted_tokens quoted_hash_line = ["#x"; "float"; "Hidden"]
  /\ snd (readParameterFile false (one_file "parameters.cfg" tricky_cfg)
            (set_parameterFile_ "parameters.cfg"
               (CameraDriver_default nat nat)))
     = true
  /\ log_stream
       (fst (readParameterFile false (one_file "parameters.cfg" tricky_cfg)
               (set_parameterFile_ "parameters.cfg"
                  (CameraDriver_default nat nat))))
     = []
  /\ parameterList_
       (fst (readParameterFile false (one_file "parameters.cfg" tricky_cfg)
               (set_parameterFile_ "parameters.cfg"
                  (CameraDriver_default nat nat))))
     = ["gain"; "gain"]
  /\ size
       (parameterMap_
          (fst (readParameterFile false
                  (one_file "parameters.cfg" tricky_cfg)
                  (set_parameterFile_ "parameters.cfg"
                     (CameraDriver_default nat nat)))))
     = 1%nat
  /\ parameterMap_
       (fst (readParameterFile false (one_file "parameters.cfg" tricky_cfg)
               (set_parameterFile_ "parameters.cfg"
                  (CameraDriver_default nat nat))))
     !! "gain"
     = Some (NodeInfo_new false "Gain" "float")
  /\ parameterMap_
       (fst (readParameterFile false (one_file "parameters.cfg" tricky_cfg)
               (set_parameterFile_ "parameters.cfg"
                  (CameraDriver_default nat nat))))
     !! "#x"
     = None.
Proof. repeat split; vm_compute; reflexivity. Qed.

(** ** A turn of the publishing loop, run *)

Arguments imageMsg_ {ImageMsg CameraInfoMsg} _.
Arguments cameraInfoMsg_ {ImageMsg CameraInfoMsg} _.
Arguments metaMsg_ {ImageMsg CameraInfoMsg} _.
Arguments pub_ {ImageMsg CameraInfoMsg} _.
Arguments metaPub_ {ImageMsg CameraInfoMsg} _.
Arguments doPublish {Device Image} _ _ {ImageMsg CameraInfoMsg}.
Arguments run_turn {Device Image} _ _ {ImageMsg CameraInfoMsg}.

(** Frame [n] was taken at time [n], in Mono8, two by two pixels. *)
Definition scripted_frame (n : nat) : Frame :=
  mkFrame (Z.of_nat n) 120 5000 10000 2%float Mono8 2 2 2 [10; 20; 30; 40].

(** An image message reduced to its stamp, its encoding and its data; a
    calibration message reduced to its stamp. *)
Definition scripted_set_image_stamp (t : Z) (msg : Z * string * list Z)
    : Z * string * list Z :=
  (t, snd (fst msg), snd msg).

Definition scripted_set_info_stamp (t : Z) (msg : Z) : Z := t.

Definition scripted_fillImage (msg : Z * string * list Z) (encoding : string)
    (rows cols step : Z) (data : list Z) : (Z * string * list Z) * bool :=
  ((fst (fst msg), encoding, data), true).

Definition failing_fillImage (msg : Z * string * list Z) (encoding : string)
    (rows cols step : Z) (data : list Z) : (Z * string * list Z) * bool :=
  (msg, false).

Definition idle_publishers : Publishers (Z * string * list Z) Z :=
  mkPublishers (Z * string * list Z) Z (0, EmptyString, []) 0
    (mkMetaMsg 0 "camera" 0 0 0 0%float 0) [] [].

(** The newest of the two queued frames is published, with its metadata. *)
Example run_turn_publishes_newest :
  pub_ (snd (run_turn 32 scripted_frame scripted_set_image_stamp
               scripted_set_info_stamp scripted_fillImage true 1 1
               (loaded_node, idle_publishers)))
  = [((2, "mono8", [10; 20; 30; 40]), 2)]
  /\ metaPub_ (snd (run_turn 32 scripted_frame scripted_set_image_stamp
                      scripted_set_info_stamp scripted_fillImage true 1 1
                      (loaded_node, idle_publishers)))
     = [mkMetaMsg 2 "camera" 120 5000 10000 2%float 2]
  /\ publishedCount_
       (fst (run_turn 32 scripted_frame scripted_set_image_stamp
               scripted_set_info_stamp scripted_fillImage true 1 1
               (loaded_node, idle_publishers)))
     = 1
  /\ imageQueue_
       (fst (run_turn 32 scripted_frame scripted_set_image_stamp
               scripted_set_info_stamp scripted_fillImage true 1 1
               (loaded_node, idle_publishers)))
     = [Some 1%nat].
Proof. repeat split; vm_compute; reflexivity. Qed.

(** A failing fill is logged and not counted; the metadata still goes
    out. *)
Example run_turn_fill_failure :
  log_stream
    (fst (run_turn 32 scripted_frame scripted_set_image_stamp
            scripted_set_info_stamp failing_fillImage true 1 1
            (loaded_node, idle_publishers)))
  = [(ERROR, [Str "fill image failed!"])]
  /\ publishedCount_
       (fst (run_turn 32 scripted_frame scripted_set_image_stamp
               scripted_set_info_stamp failing_fillImage true 1 1
               (loaded_node, idle_publishers)))
     = 0
  /\ length
       (metaPub_
          (snd (run_turn 32 scripted_frame scripted_set_image_stamp
                  scripted_set_info_stamp failing_fillImage true 1 1
                  (loaded_node, idle_publishers))))
     = 1%nat.
Proof. repeat split; vm_compute; reflexivity. Qed.

Lemma run_turn_publishes_witness :
  run_turn 32 scripted_frame scripted_set_image_stamp
    scripted_set_info_stamp scripted_fillImage true 1 1
    (loaded_node, idle_publishers)
  = doPublish 32 scripted_frame scripted_set_image_stamp
      scripted_set_info_stamp scripted_fillImage 1 1 2%nat
      (set_imageQueue_ [Some 1%nat] loaded_node, idle_publishers)
  /\ run_turn 32 scripted_frame scripted_set_image_stamp
       scripted_set_info_stamp scripted_fillImage false 1 1
       (loaded_node, idle_publishers)
     = (set_imageQueue_ [Some 1%nat] loaded_node, idle_publishers).
Proof.
  split.
  - apply (proj1 (proj2 (proj2 (proj2
             (run_turn_publishes nat nat 32 scripted_frame _ _
                scripted_set_image_stamp scripted_set_info_stamp
                scripted_fillImage true 1 1 loaded_node idle_publishers))))
             [Some 1%nat] 2%nat).
    + reflexivity.
    + reflexivity.
  - apply (proj1 (proj2
             (run_turn_publishes nat nat 32 scripted_frame _ _
                scripted_set_image_stamp scripted_set_info_stamp
                scripted_fillImage false 1 1 loaded_node idle_publishers))).
    reflexivity.
Defined.
